(** * Echoes RPG test server (test-server.py)

    A shallow embedding of the local preview server of the Echoes RPG
    WebAssembly build, and the properties of its startup sequence and of its
    request handler.

    The script has two parts:
    - [main] (lines 41-105): picks the directory to serve, checks the
      required build artifacts, changes into the directory and scans the
      ports 8080..8089 for one that binds;
    - [GameHTTPRequestHandler] (lines 13-39): a subclass of the standard
      library's [http.server.SimpleHTTPRequestHandler] that overrides
      [end_headers] and [log_message] and adds [do_OPTIONS].

    The operating system (file system, sockets, the interrupt signal) is a
    parameter of every definition: the theorems hold for all of them. *)

From Stdlib Require Import String Ascii List ZArith Lia Bool DecimalString.
Import ListNotations.
Local Open Scope string_scope.
Local Open Scope Z_scope.

(** ** Python strings

    [str] values are modelled as [string]; the methods below are the ones the
    script and the base handler call. *)

Module Py.

Definition nl : string := String "010"%char EmptyString.

  (** [s.endswith(suffix)] *)
Fixpoint endswith (s suffix : string) : bool :=
    if String.eqb s suffix then true
    else match s with
         | EmptyString => false
         | String _ s' => endswith s' suffix
         end.

  (** [s.startswith(prefix)] *)
Definition startswith (s pre : string) : bool := String.prefix pre s.

  (** [s * n] *)
Fixpoint repeat_str (s : string) (n : nat) : string :=
    match n with
    | O => ""
    | S n' => s ++ repeat_str s n'
    end.

  (** [str(n)] for an integer *)
Definition str_int (n : Z) : string := NilZero.string_of_int (Z.to_int n).

  (** [c in s] *)
Fixpoint contains (c : ascii) (s : string) : bool :=
    match s with
    | EmptyString => false
    | String a s' => Ascii.eqb a c || contains c s'
    end.

  (** [s.split(sep, 1)[0]]: the part before the first [sep], all of [s] when
      there is none. *)
Fixpoint before_first (sep : ascii) (s : string) : string :=
    match s with
    | EmptyString => EmptyString
    | String a s' => if Ascii.eqb a sep then EmptyString
                     else String a (before_first sep s')
    end.

  (** [s.split(sep)], with one character as separator: never empty, the
      pieces hold no separator. *)
Fixpoint split (sep : ascii) (s : string) : list string :=
    match s with
    | EmptyString => [EmptyString]
    | String a s' =>
        if Ascii.eqb a sep then EmptyString :: split sep s'
        else match split sep s' with
             | [] => [String a EmptyString]
             | w :: ws => String a w :: ws
             end
    end.

  (** [sep.join(words)] *)
Fixpoint join (sep : string) (words : list string) : string :=
    match words with
    | [] => ""
    | [w] => w
    | w :: ws => w ++ sep ++ join sep ws
    end.

  (** [c.isspace()] for a character of a request line. The line is decoded
      as ISO-8859-1, so a character is a byte: the white space is U+0009 to
      U+000D, U+001C to U+001F, the space, U+0085 and U+00A0. *)
Definition isspace (c : ascii) : bool :=
    let n := N.to_nat (N_of_ascii c) in
    (Nat.eqb n 32 || (Nat.leb 9 n && Nat.leb n 13) || (Nat.leb 28 n && Nat.leb n 31)
     || Nat.eqb n 133 || Nat.eqb n 160)%bool.

  (** [s.rstrip()] *)
Fixpoint rstrip (s : string) : string :=
    match s with
    | EmptyString => EmptyString
    | String a s' =>
        match rstrip s' with
        | EmptyString => if isspace a then EmptyString else String a EmptyString
        | r => String a r
        end
    end.

  (** [s.lower()] on ASCII letters *)
Definition lower_char (c : ascii) : ascii :=
    let n := N_of_ascii c in
    if (N.leb 65 n && N.leb n 90)%bool then ascii_of_N (n + 32) else c.

Fixpoint lower (s : string) : string :=
    match s with
    | EmptyString => EmptyString
    | String a s' => String (lower_char a) (lower s')
    end.

  (** [s[-1:]]: the last character, if any *)
Fixpoint last_char (s : string) : option ascii :=
    match s with
    | EmptyString => None
    | String a s' =>
        match last_char s' with
        | Some c => Some c
        | None => Some a
        end
    end.

  (** [s.rstrip(chars)] *)
Fixpoint rstrip_chars (chars : string) (s : string) : string :=
    match s with
    | EmptyString => EmptyString
    | String a s' =>
        match rstrip_chars chars s' with
        | EmptyString => if contains a chars then EmptyString else String a EmptyString
        | r => String a r
        end
    end.

  (** [s.lstrip(c)] for one character *)
Fixpoint lstrip_char (c : ascii) (s : string) : string :=
    match s with
    | EmptyString => EmptyString
    | String a s' => if Ascii.eqb a c then lstrip_char c s' else s
    end.

  (** [s.split()]: the words between runs of white space *)
Fixpoint split_ws (s : string) : list string :=
    match s with
    | EmptyString => []
    | String a s' =>
        if isspace a then split_ws s'
        else match s' with
             | EmptyString => [String a EmptyString]
             | String b _ =>
                 if isspace b then String a EmptyString :: split_ws s'
                 else match split_ws s' with
                      | w :: ws => String a w :: ws
                      | [] => [String a EmptyString]
                      end
             end
    end.

  (** [s.split(sep, 1)[1]]: the part after the first [sep]; [None] when
      there is no [sep] ([IndexError]). *)
Fixpoint after_first (sep : ascii) (s : string) : option string :=
    match s with
    | EmptyString => None
    | String a s' => if Ascii.eqb a sep then Some s' else after_first sep s'
    end.

  (** [range(a, b)] *)
Definition range (a b : Z) : list Z :=
    map (fun i => a + Z.of_nat i) (seq 0 (Z.to_nat (b - a))).

End Py.

(** ** The process and its environment

    [main] talks to the outside world through [print], [Path.exists],
    [os.chdir], the [socketserver.TCPServer] constructor, [serve_forever] and
    [sys.exit]. A run of [main] is the list of the effects it performs, in
    order, with the way it ends. *)

Inductive exn : Type :=
| OSError (errno : Z)
| KeyboardInterrupt
| OtherError (name : string).

Inductive event : Type :=
| Print (line : string)          (* print(line) *)
| Chdir (dir : string)           (* os.chdir(dir) *)
| Bind (port : Z)                (* socketserver.TCPServer(("", port), ...) is called *)
| ServeForever (port : Z)        (* httpd.serve_forever() is entered *)
| ServerClose (port : Z).        (* the with block is left: httpd.server_close() *)

Inductive stop : Type :=
| SysExit (code : Z)             (* sys.exit(code) *)
| Raised (e : exn)               (* an exception nothing catches *)
| Forever.                       (* serve_forever is never interrupted *)

(** What the script finds when it runs. [print] and [os.chdir] are taken to
    succeed: the directory [main] changes into is one that exists. *)
Record OS : Type := {
  script_dir : string;                 (* str(Path(__file__).parent) *)
  path_exists : string -> bool;        (* Path(p).exists() *)
  tcp_bind : Z -> option Z;            (* None: the port is bound;
                                          Some errno: the constructor raises OSError(errno) *)
  serve_ends : Z -> option exn         (* the exception that ends serve_forever on a port;
                                          None: no exception ever arrives *)
}.

Definition proc (A : Type) : Type := list event * (A + stop).

Definition ret {A} (a : A) : proc A := ([], inl a).

Definition bind {A B} (m : proc A) (k : A -> proc B) : proc B :=
  match m with
  | (tr, inl a) => let (tr', r) := k a in ((tr ++ tr')%list, r)
  | (tr, inr s) => (tr, inr s)
  end.

Declare Scope proc_scope.
Delimit Scope proc_scope with proc.
Notation "x <- m ;; k" := (bind m (fun x => k))
  (at level 100, m at next level, right associativity) : proc_scope.
Notation "m ;; k" := (bind m (fun _ => k))
  (at level 100, right associativity) : proc_scope.
Local Open Scope proc_scope.

Definition emit (e : event) : proc unit := ([e], inl tt).
Definition print (line : string) : proc unit := emit (Print line).
Definition os_chdir (dir : string) : proc unit := emit (Chdir dir).
Definition sys_exit {A} (code : Z) : proc A := ([], inr (SysExit code)).
Definition raise {A} (e : exn) : proc A := ([], inr (Raised e)).

(** [try: body except ...: handler]: [handler e] is [None] when no except
    clause matches [e]. [sys.exit] and a run that never ends pass through. *)
Definition try_except {A} (body : proc A) (handler : exn -> option (proc A)) : proc A :=
  match body with
  | (tr, inr (Raised e)) =>
      match handler e with
      | Some h => let (tr', r) := h in ((tr ++ tr')%list, r)
      | None => body
      end
  | _ => body
  end.

(** [for x in xs: body x] without break *)
Fixpoint for_each {A} (xs : list A) (body : A -> proc unit) : proc unit :=
  match xs with
  | [] => ret tt
  | x :: xs' => body x ;; for_each xs' body
  end.

(** [with socketserver.TCPServer(("", port), Handler) as httpd: body]. The
    constructor binds and listens, or raises [OSError]; leaving the block, in
    whatever way, closes the server. *)
Definition with_TCPServer {A} (os : OS) (port : Z) (body : proc A) : proc A :=
  emit (Bind port) ;;
  match tcp_bind os port with
  | Some errno => raise (OSError errno)
  | None =>
      match body with
      | (tr, inr Forever) => (tr, inr Forever)
      | (tr, r) => ((tr ++ [ServerClose port])%list, r)
      end
  end.

(** [httpd.serve_forever()]: returns only by an exception. *)
Definition httpd_serve_forever {A} (os : OS) (port : Z) : proc A :=
  emit (ServeForever port) ;;
  match serve_ends os port with
  | Some e => raise e
  | None => ([], inr Forever)
  end.

(** [Path / name] and [str(Path)]: a path is the string it prints as, and
    [name] is relative. The string of a [Path] ends in a slash only when it is
    a root, and the current directory prints as a dot that joining drops. *)
Definition truediv (p name : string) : string :=
  if String.eqb p "." then name
  else if Py.endswith p "/" then p ++ name
  else p ++ "/" ++ name.
Notation "p // name" := (truediv p name) (at level 40, left associativity).

(** The exit status of the interpreter: 0 when [main] returns, the argument of
    [sys.exit], 1 with a traceback for an exception nothing catches (an
    interrupt nothing catches ends the process by SIGINT, which a shell shows
    as 130); none while the server runs. *)
Definition exit_status {A} (r : A + stop) : option Z :=
  match r with
  | inl _ => Some 0
  | inr (SysExit code) => Some code
  | inr (Raised KeyboardInterrupt) => Some 130
  | inr (Raised _) => Some 1
  | inr Forever => None
  end.

(** ** [main] *)

Inductive loop_ctl : Type := Break | Continue.

(** Lines 80-102, one turn of the port loop. *)
Definition try_port (os : OS) (web_dir : string) (port : Z) : proc loop_ctl :=
  try_except
    (with_TCPServer os port
       (print "🎮 Echoes RPG Test Server" ;;
        print (Py.repeat_str "=" 50) ;;
        print ("🌐 Server running at: http://localhost:" ++ Py.str_int port) ;;
        print ("📂 Serving files from: " ++ web_dir) ;;
        print "🔧 WASM and CORS headers configured" ;;
        print (Py.repeat_str "=" 50) ;;
        print ("🎯 Open http://localhost:" ++ Py.str_int port ++ " in your browser to play!") ;;
        print "⏹️  Press Ctrl+C to stop the server" ;;
        print "" ;;
        try_except
          (httpd_serve_forever os port)
          (fun e => match e with
                    | KeyboardInterrupt =>
                        Some (print (Py.nl ++ "🛑 Server stopped by user") ;;
                              ret Break)
                    | _ => None
                    end)))
    (fun e => match e with
              | OSError errno =>
                  Some (if (errno =? 48) || (errno =? 98)  (* Address already in use *)
                        then ret Continue
                        else raise e)
              | _ => None
              end).

(** Lines 79-105, [for port in range(PORT, PORT + 10): ... else: ...]. *)
Fixpoint port_loop (os : OS) (PORT : Z) (web_dir : string) (ports : list Z) : proc unit :=
  match ports with
  | [] =>
      print ("❌ Error: Could not find an available port starting from " ++ Py.str_int PORT) ;;
      sys_exit 1
  | port :: ports' =>
      ctl <- try_port os web_dir port ;;
      match ctl with
      | Break => ret tt
      | Continue => port_loop os PORT web_dir ports'
      end
  end.

Definition required_files : list string :=
  ["index.html"; "pkg/echoes_rpg.js"; "pkg/echoes_rpg_bg.wasm"].

(** Lines 62-66: the loop that collects the missing files. *)
Definition missing_files (os : OS) (web_dir : string) : list string :=
  fold_left
    (fun missing file =>
       if negb (path_exists os (web_dir // file)) then (missing ++ [file])%list else missing)
    required_files [].

(** Lines 48-58: the directory to serve. *)
Definition choose_web_dir (os : OS) : proc string :=
  if path_exists os (script_dir os // "test-deploy") then
    print "📁 Serving from test-deploy directory" ;;
    ret (script_dir os // "test-deploy")
  else if path_exists os (script_dir os // "dist") then
    print "📁 Serving from dist directory" ;;
    ret (script_dir os // "dist")
  else
    print "❌ Error: No built files found!" ;;
    print "   Please run 'wasm-pack build --target web --out-dir pkg --no-typescript' first" ;;
    print "   Then create a deployment directory with index.html and pkg/" ;;
    sys_exit 1.

(** Lines 60-73: the required files. *)
Definition check_required_files (os : OS) (web_dir : string) : proc unit :=
  match missing_files os web_dir with
  | [] => ret tt
  | missing =>
      print "❌ Error: Missing required files:" ;;
      for_each missing (fun file => print ("   - " ++ file)) ;;
      print (Py.nl ++ "   Please ensure you have built the WASM package correctly.") ;;
      sys_exit 1
  end.

Definition PORT : Z := 8080.

(** Lines 60-105: what [main] does once [web_dir] is chosen. *)
Definition serve_from (os : OS) (web_dir : string) : proc unit :=
  check_required_files os web_dir ;;
  os_chdir web_dir ;;
  port_loop os PORT web_dir (Py.range PORT (PORT + 10)).

Definition main (os : OS) : proc unit :=
  web_dir <- choose_web_dir os ;;
  serve_from os web_dir.

(** The trace and the end of a run. *)
Definition trace {A} (m : proc A) : list event := fst m.
Definition outcome {A} (m : proc A) : A + stop := snd m.

(** The ports the run tried to bind, in order. *)
Fixpoint bind_attempts (tr : list event) : list Z :=
  match tr with
  | [] => []
  | Bind port :: tr' => port :: bind_attempts tr'
  | _ :: tr' => bind_attempts tr'
  end.

(** The lines the run printed, in order. *)
Fixpoint printed (tr : list event) : list string :=
  match tr with
  | [] => []
  | Print line :: tr' => line :: printed tr'
  | _ :: tr' => printed tr'
  end.

(** The nine lines of the startup banner (lines 82-90). *)
Definition startup_banner (web_dir : string) (port : Z) : list string :=
  [ "🎮 Echoes RPG Test Server";
    Py.repeat_str "=" 50;
    "🌐 Server running at: http://localhost:" ++ Py.str_int port;
    "📂 Serving files from: " ++ web_dir;
    "🔧 WASM and CORS headers configured";
    Py.repeat_str "=" 50;
    "🎯 Open http://localhost:" ++ Py.str_int port ++ " in your browser to play!";
    "⏹️  Press Ctrl+C to stop the server";
    "" ].

(** The test of line 99. *)
Definition address_in_use (errno : Z) : bool := (errno =? 48) || (errno =? 98).

(** [errno.EADDRINUSE], address already in use: 98 on Linux, 48 on macOS and
    the BSDs. *)
Definition EADDRINUSE_linux : Z := 98.
Definition EADDRINUSE_bsd : Z := 48.

(** A candidate port that another process holds: binding it fails with
    address already in use. *)
Definition port_taken (os : OS) (port : Z) : Prop :=
  exists errno,
    tcp_bind os port = Some errno /\
    (errno = EADDRINUSE_linux \/ errno = EADDRINUSE_bsd).


(** ** Sample environments

    Used to run the definitions and to instantiate the theorems. *)

Module Sample.

Definition base_dir : string := "/home/dev/echoes_rpg".

  (** Everything is built; 8080 is held by another process (Linux errno 98),
      8081 is free, and the developer presses Ctrl-C. *)
Definition os_8080_taken : OS := {|
    script_dir := base_dir;
    path_exists := fun _ => true;
    tcp_bind := fun port => if port =? 8080 then Some 98 else None;
    serve_ends := fun _ => Some KeyboardInterrupt |}.

  (** All ten candidates are held (macOS errno 48). *)
Definition os_all_taken : OS := {|
    script_dir := base_dir;
    path_exists := fun _ => true;
    tcp_bind := fun _ => Some 48;
    serve_ends := fun _ => None |}.

  (** 8080 and 8081 are held, binding 8082 is refused (EACCES, 13). *)
Definition os_denied : OS := {|
    script_dir := base_dir;
    path_exists := fun _ => true;
    tcp_bind := fun port => if port <? 8082 then Some 98
                            else if port =? 8082 then Some 13 else None;
    serve_ends := fun _ => None |}.

  (** Only dist was built. *)
Definition os_dist_only : OS := {|
    script_dir := base_dir;
    path_exists := fun p => negb (Py.startswith p (base_dir // "test-deploy"));
    tcp_bind := fun _ => None;
    serve_ends := fun _ => Some KeyboardInterrupt |}.

  (** Nothing was built. *)
Definition os_unbuilt : OS := {|
    script_dir := base_dir;
    path_exists := fun _ => false;
    tcp_bind := fun _ => None;
    serve_ends := fun _ => None |}.

  (** test-deploy is there, the .wasm file is not. *)
Definition os_no_wasm : OS := {|
    script_dir := base_dir;
    path_exists := fun p => negb (Py.endswith p ".wasm");
    tcp_bind := fun _ => None;
    serve_ends := fun _ => None |}.

End Sample.

(** ** More of the Python library: paths

    [posixpath.join], [posixpath.dirname], [posixpath.splitext] and the
    pure-Python [posixpath.normpath], as the base handler uses them. *)

Module Posixpath.

  (** [s.rfind(c)]: the index of the last [c], or -1 *)
Fixpoint rfind (c : ascii) (s : string) : Z :=
    match s with
    | EmptyString => -1
    | String a s' =>
        let r := rfind c s' in
        if 0 <=? r then r + 1 else if Ascii.eqb a c then 0 else -1
    end.

  (** [s[:n]] and [s[n:]] for [0 <= n] *)
Definition take (n : Z) (s : string) : string := substring 0 (Z.to_nat n) s.
Definition drop (n : Z) (s : string) : string :=
    substring (Z.to_nat n) (String.length s - Z.to_nat n) s.

  (** [s.rstrip(c)] for one character *)
Fixpoint rstrip_char (c : ascii) (s : string) : string :=
    match s with
    | EmptyString => EmptyString
    | String a s' =>
        match rstrip_char c s' with
        | EmptyString => if Ascii.eqb a c then EmptyString else String a EmptyString
        | r => String a r
        end
    end.

  (** [join(a, b)] *)
Definition join (a b : string) : string :=
    if Py.startswith b "/" then b
    else if (String.eqb a "" || Py.endswith a "/")%bool then a ++ b
    else a ++ "/" ++ b.

  (** [dirname(p)] *)
Definition dirname (p : string) : string :=
    let i := rfind "/" p + 1 in
    let head := take i p in
    if (negb (String.eqb head "")
        && negb (String.eqb head (Py.repeat_str "/" (String.length head))))%bool
    then rstrip_char "/" head
    else head.

  (** [splitext(p)] *)
Definition splitext (p : string) : string * string :=
    let sepIndex := rfind "/" p in
    let dotIndex := rfind "." p in
    if (sepIndex <? dotIndex)
       && existsb (fun i => negb (String.eqb (substring (Z.to_nat i) 1 p) "."))
                  (Py.range (sepIndex + 1) dotIndex)
    then (take dotIndex p, drop dotIndex p)
    else (p, "").

  (** The loop of [normpath] over the components. *)
Fixpoint normpath_comps (initial_slashes : nat) (comps new_comps : list string)
    : list string :=
    match comps with
    | [] => new_comps
    | comp :: comps' =>
        if (String.eqb comp "" || String.eqb comp ".")%bool then
          normpath_comps initial_slashes comps' new_comps
        else if (negb (String.eqb comp "..")
                 || (Nat.eqb initial_slashes 0 && Nat.eqb (List.length new_comps) 0)
                 || (negb (Nat.eqb (List.length new_comps) 0)
                     && String.eqb (last new_comps "") ".."))%bool then
          normpath_comps initial_slashes comps' (new_comps ++ [comp])
        else
          normpath_comps initial_slashes comps' (removelast new_comps)
    end.

  (** [normpath(path)] *)
Definition normpath (path : string) : string :=
    if String.eqb path "" then "."
    else
      let initial_slashes :=
        if Py.startswith path "/" then
          if (Py.startswith path "//" && negb (Py.startswith path "///"))%bool
          then 2%nat else 1%nat
        else 0%nat in
      let comps := normpath_comps initial_slashes (Py.split "/" path) [] in
      let path := Py.join "/" comps in
      let path := Py.repeat_str "/" initial_slashes ++ path in
      if String.eqb path "" then "." else path.

End Posixpath.

(** ** More of the Python library: [mimetypes], [shutil] and [list.sort] *)

Module Mimetypes.

  (** [mimetypes.knownfiles]: the tables [mimetypes.init()] looks for. *)
Definition knownfiles : list string :=
    [ "/etc/mime.types";
      "/etc/httpd/mime.types";
      "/etc/httpd/conf/mime.types";
      "/etc/apache/mime.types";
      "/etc/apache2/mime.types";
      "/usr/local/etc/httpd/conf/mime.types";
      "/usr/local/lib/netscape/mime.types";
      "/usr/local/etc/httpd/conf/mime.types";
      "/usr/local/etc/mime.types" ].

End Mimetypes.

Module Shutil.

  (** [COPY_BUFSIZE] where the platform is not Windows. *)
Definition COPY_BUFSIZE : Z := 64 * 1024.

  (** [fsrc.read(length)]: the bytes read and what is left to read. *)
Fixpoint read (length : nat) (data : string) : string * string :=
    match length, data with
    | S length', String a data' =>
        let (buf, rest) := read length' data' in (String a buf, rest)
    | _, _ => ("", data)
    end.

  (** The loop of [copyfileobj]: the blocks written, one for each turn,
      until a read gives nothing. *)
Fixpoint copy_loop (turns length : nat) (data : string) : list string :=
    match turns with
    | O => []
    | S turns' =>
        let (buf, rest) := read length data in
        if String.eqb buf "" then [] else buf :: copy_loop turns' length rest
    end.

  (** [copyfileobj(fsrc, fdst)]: the loop comes to its end within as many
      turns as the file has bytes. *)
Definition copyfileobj (data : string) : list string :=
    copy_loop (String.length data) (Z.to_nat COPY_BUFSIZE) data.

End Shutil.

Module Pylist.

Fixpoint insert_by (key : string -> string) (x : string) (l : list string)
    : list string :=
    match l with
    | [] => [x]
    | y :: l' =>
        if String.leb (key x) (key y) then x :: y :: l'
        else y :: insert_by key x l'
    end.

  (** [l.sort(key=key)]: a stable sort. *)
Definition sort_by (key : string -> string) (l : list string) : list string :=
    fold_right (insert_by key) [] l.

End Pylist.

(** ** The base classes of the handler

    [GameHTTPRequestHandler] inherits everything but [end_headers],
    [do_OPTIONS] and [log_message] from the standard library classes
    [http.server.BaseHTTPRequestHandler] and [SimpleHTTPRequestHandler]
    (CPython 3.11, [Lib/http/server.py], on a POSIX machine). The inherited
    methods are modelled here from the moment the request line is read. They
    call [self.end_headers()] and [self.log_message(...)], which reach the
    subclass, and look the [do_] method up on the object: the base methods
    take the three as arguments.

    A method is a function on the state of the handler object; a method that
    can raise gives a [result]. *)

(** One write of the response: the status line, a header line, the blank
    line that ends the headers, or body bytes. *)
Inductive wire : Type :=
| StatusLine (version : string) (code : Z) (message : string)
| HeaderLine (keyword value : string)
| BlankLine
| Data (bytes : string).

(** What the handler asks of the file system. *)
Inductive fs_call : Type :=
| Isdir (p : string)       (* os.path.isdir(p) *)
| Isfile (p : string)      (* os.path.isfile(p) *)
| Islink (p : string)      (* os.path.islink(p) *)
| Open (p : string)        (* open(p, 'rb') *)
| Fstat (p : string)       (* os.fstat of the file opened at p *)
| Listdir (p : string)     (* os.listdir(p) *)
| OpenText (p : string).   (* open(p, encoding='utf-8'), by mimetypes *)

(** The exceptions that leave the handler. *)
Inductive pyexc : Type :=
| AttributeError (name : string)   (* the object has no attribute [name] *)
| TypeError
| ValueError.                      (* ValueError and its subclass UnicodeEncodeError *)

Record file : Type := {
  content : string;            (* the bytes of the file *)
  last_modified : string       (* date_time_string(st_mtime) *)
}.

(** [open(p, 'rb')] *)
Inductive open_result : Type :=
| Opened (f : file)
| OpenOSError                  (* no such file, permission denied, ... *)
| OpenRaises (e : pyexc).      (* ValueError for a NUL byte in p, UnicodeEncodeError
                                  for a lone surrogate: not an OSError *)

(** [http.client.parse_headers(self.rfile)] *)
Inductive header_read : Type :=
| HeadersParsed (hs : list (string * string))
| HeaderLineTooLong (err : string)   (* LineTooLong, with str(err) *)
| TooManyHeaders (err : string).     (* HTTPException, with str(err) *)

(** The machine the server runs on. *)
Record Host : Type := {
  version_string : string;                          (* self.version_string() *)
  date_time_string : string;                        (* self.date_time_string() *)
  filesystemencoding : string;                      (* sys.getfilesystemencoding() *)
  os_path_isdir : string -> bool;
  os_path_isfile : string -> bool;
  open_rb : string -> open_result;
  os_listdir : string -> option (list string);      (* None: OSError *)
  unquote : string -> string;                       (* urllib.parse.unquote *)
  normpath : string -> string;                      (* posixpath.normpath *)
  urlsplit_path : string -> option string;          (* urllib.parse.urlsplit(p).path;
                                                       None: ValueError *)
  redirect_url : string -> string;                  (* the url with '/' added to its path *)
  mimetypes_loaded : bool;                          (* mimetypes._db is not None: an earlier
                                                       request had its type guessed *)
  mimetypes_guess_type : string -> option string;   (* mimetypes.guess_type(p)[0] *)
  not_modified : list (string * string) -> file -> bool;
                                                    (* lines 705-727 of server.py: the
                                                       If-Modified-Since test *)
  error_page : Z -> string -> string -> string;     (* error_message_format % {...} *)
  listing_page : string -> string -> list string -> string;
                                                    (* the page of list_directory *)
  repr : string -> string;                          (* '%r' % s *)
  py_int : string -> option Z                       (* int(s); None: ValueError *)
}.

(** The handler object while it answers one request, with what it wrote and
    asked so far. *)
Record handler : Type := {
  command : option string;                 (* self.command; None is Python's None *)
  path : option string;                    (* self.path; None: not set yet *)
  request_version : string;                (* self.request_version *)
  requestline : string;                    (* self.requestline *)
  headers : list (string * string);        (* self.headers *)
  directory : string;                      (* self.directory: os.getcwd() *)
  headers_buffer : list wire;              (* self._headers_buffer *)
  wfile : list wire;                       (* what was written to self.wfile *)
  stdout : list string;                    (* the lines printed *)
  fs_log : list fs_call                    (* the file system calls made *)
}.

(** The end of a method call: it returns, or an exception leaves it. Either
    way the handler is in the state the call left it in. *)
Inductive result (A : Type) : Type :=
| Ok (a : A) (h : handler)
| Exc (e : pyexc) (h : handler).

Arguments Ok {A} a h.
Arguments Exc {A} e h.

Definition and_then {A B} (m : result A) (k : A -> handler -> result B) : result B :=
  match m with
  | Ok a h => k a h
  | Exc e h => Exc e h
  end.

Notation "'let*' ( a , h ) ':=' m 'in' k" := (and_then m (fun a h => k))
  (at level 10, a name, h name, m at level 100, k at level 200).

(** The handler after the call, and the exception that left it. *)
Definition state {A} (r : result A) : handler :=
  match r with
  | Ok _ h => h
  | Exc _ h => h
  end.

Definition exception {A} (r : result A) : option pyexc :=
  match r with
  | Ok _ _ => None
  | Exc e _ => Some e
  end.

Definition set_command (c : option string) (h : handler) : handler :=
  {| command := c; path := path h; request_version := request_version h;
     requestline := requestline h; headers := headers h; directory := directory h;
     headers_buffer := headers_buffer h;
     wfile := wfile h; stdout := stdout h; fs_log := fs_log h |}.

Definition set_path (p : string) (h : handler) : handler :=
  {| command := command h; path := Some p; request_version := request_version h;
     requestline := requestline h; headers := headers h; directory := directory h;
     headers_buffer := headers_buffer h;
     wfile := wfile h; stdout := stdout h; fs_log := fs_log h |}.

Definition set_request_version (v : string) (h : handler) : handler :=
  {| command := command h; path := path h; request_version := v;
     requestline := requestline h; headers := headers h; directory := directory h;
     headers_buffer := headers_buffer h;
     wfile := wfile h; stdout := stdout h; fs_log := fs_log h |}.

Definition set_requestline (l : string) (h : handler) : handler :=
  {| command := command h; path := path h; request_version := request_version h;
     requestline := l; headers := headers h; directory := directory h;
     headers_buffer := headers_buffer h;
     wfile := wfile h; stdout := stdout h; fs_log := fs_log h |}.

Definition set_headers (hs : list (string * string)) (h : handler) : handler :=
  {| command := command h; path := path h; request_version := request_version h;
     requestline := requestline h; headers := hs; directory := directory h;
     headers_buffer := headers_buffer h;
     wfile := wfile h; stdout := stdout h; fs_log := fs_log h |}.

Definition buffer_append (w : wire) (h : handler) : handler :=
  {| command := command h; path := path h; request_version := request_version h;
     requestline := requestline h; headers := headers h; directory := directory h;
     headers_buffer := (headers_buffer h ++ [w])%list;
     wfile := wfile h; stdout := stdout h; fs_log := fs_log h |}.

Definition wfile_write (ws : list wire) (h : handler) : handler :=
  {| command := command h; path := path h; request_version := request_version h;
     requestline := requestline h; headers := headers h; directory := directory h;
     headers_buffer := headers_buffer h;
     wfile := (wfile h ++ ws)%list; stdout := stdout h; fs_log := fs_log h |}.

Definition buffer_clear (h : handler) : handler :=
  {| command := command h; path := path h; request_version := request_version h;
     requestline := requestline h; headers := headers h; directory := directory h;
     headers_buffer := [];
     wfile := wfile h; stdout := stdout h; fs_log := fs_log h |}.

Definition stdout_print (line : string) (h : handler) : handler :=
  {| command := command h; path := path h; request_version := request_version h;
     requestline := requestline h; headers := headers h; directory := directory h;
     headers_buffer := headers_buffer h;
     wfile := wfile h; stdout := (stdout h ++ [line])%list; fs_log := fs_log h |}.

Definition fs_record (c : fs_call) (h : handler) : handler :=
  {| command := command h; path := path h; request_version := request_version h;
     requestline := requestline h; headers := headers h; directory := directory h;
     headers_buffer := headers_buffer h;
     wfile := wfile h; stdout := stdout h; fs_log := (fs_log h ++ [c])%list |}.

(** [self.path]: an [AttributeError] while the attribute is not set. *)
Definition self_path (h : handler) : result string :=
  match path h with
  | Some p => Ok p h
  | None => Exc (AttributeError "path") h
  end.

Definition dquote : string := String "034"%char EmptyString.

(** [self.responses[code]]: the entries for the codes the handler sends. *)
Definition responses (code : Z) : option (string * string) :=
  if code =? 200 then Some ("OK", "Request fulfilled, document follows")
  else if code =? 301 then Some ("Moved Permanently", "Object moved permanently -- see URI list")
  else if code =? 304 then Some ("Not Modified", "Document has not changed since given time")
  else if code =? 400 then Some ("Bad Request", "Bad request syntax or unsupported method")
  else if code =? 404 then Some ("Not Found", "Nothing matches the given URI")
  else if code =? 414 then Some ("Request-URI Too Long", "URI is too long")
  else if code =? 431 then
    Some ("Request Header Fields Too Large",
          "The server is unwilling to process the request because its header fields are too large")
  else if code =? 501 then Some ("Not Implemented", "Server does not support this operation")
  else if code =? 505 then Some ("HTTP Version Not Supported", "Cannot fulfill request")
  else None.

Module BaseHTTPRequestHandler.
Section Methods.

Variable host : Host.
Variable self_end_headers : handler -> result unit.
Variable self_log_message : string -> handler -> handler.
Variable self_method : string -> option (handler -> result unit).

  (** The class attributes. With [protocol_version] HTTP/1.0 the connection
      is closed after every request ([close_connection] stays true), and
      [Expect: 100-continue] is not answered. *)
Definition protocol_version : string := "HTTP/1.0".
Definition default_request_version : string := "HTTP/0.9".

Definition send_response_only (code : Z) (message : option string) (h : handler)
    : handler :=
    if negb (String.eqb (request_version h) "HTTP/0.9") then
      let message :=
        match message with
        | Some m => m
        | None => match responses code with
                  | Some (short, _) => short
                  | None => ""
                  end
        end in
      buffer_append (StatusLine protocol_version code message) h
    else h.

Definition send_header (keyword value : string) (h : handler) : handler :=
    if negb (String.eqb (request_version h) "HTTP/0.9") then
      buffer_append (HeaderLine keyword value) h
    else h.

Definition log_request (code : Z) (h : handler) : handler :=
    self_log_message
      (dquote ++ requestline h ++ dquote ++ " " ++ Py.str_int code ++ " -") h.

Definition log_error (message : string) (h : handler) : handler :=
    self_log_message message h.

Definition send_response (code : Z) (message : option string) (h : handler)
    : handler :=
    let h := log_request code h in
    let h := send_response_only code message h in
    let h := send_header "Server" (version_string host) h in
    send_header "Date" (date_time_string host) h.

Definition flush_headers (h : handler) : handler :=
    buffer_clear (wfile_write (headers_buffer h) h).

Definition end_headers (h : handler) : handler :=
    if negb (String.eqb (request_version h) "HTTP/0.9") then
      flush_headers (buffer_append BlankLine h)
    else h.

Definition error_content_type : string := "text/html;charset=utf-8".

Definition send_error (code : Z) (message explain : option string) (h : handler)
    : result unit :=
    let (shortmsg, longmsg) :=
      match responses code with
      | Some sl => sl
      | None => ("???", "???")
      end in
    let message := match message with Some m => m | None => shortmsg end in
    let explain := match explain with Some e => e | None => longmsg end in
    let h := log_error ("code " ++ Py.str_int code ++ ", message " ++ message) h in
    let h := send_response code (Some message) h in
    let h := send_header "Connection" "close" h in
    let with_body :=
      (200 <=? code) && negb ((code =? 204) || (code =? 205) || (code =? 304)) in
    let body := error_page host code message explain in
    let h :=
      if with_body then
        let h := send_header "Content-Type" error_content_type h in
        send_header "Content-Length" (Py.str_int (Z.of_nat (String.length body))) h
      else h in
    let* (_, h) := self_end_headers h in
    if (negb (match command h with
              | Some c => String.eqb c "HEAD"
              | None => false
              end)
        && with_body && negb (String.eqb body ""))%bool
    then Ok tt (wfile_write [Data body] h)
    else Ok tt h.

  (** The [try] block of [parse_request]: the two numbers of a version
      [HTTP/major.minor]; [None] for the [ValueError] and [IndexError] that
      the block catches. *)
Definition version_number (version : string) : option (Z * Z) :=
    if negb (Py.startswith version "HTTP/") then None
    else
      match Py.after_first "/" version with
      | None => None
      | Some base_version_number =>
          match Py.split "." base_version_number with
          | [major; minor] =>
              match py_int host major, py_int host minor with
              | Some major, Some minor => Some (major, minor)
              | _, _ => None
              end
          | _ => None
          end
      end.

  (** [(major, minor) >= (a, b)] *)
Definition version_ge (v : Z * Z) (a b : Z) : bool :=
    (a <? fst v) || ((fst v =? a) && (b <=? snd v)).

  (** Lines 317-359 of server.py: [parse_request] once the version of the
      request line is known. *)
Definition parse_request_words (requestline : string) (words : list string)
      (rfile_headers : header_read) (h : handler) : result bool :=
    if negb ((2 <=? List.length words)%nat && (List.length words <=? 3)%nat) then
      let* (_, h) :=
        send_error 400 (Some ("Bad request syntax (" ++ repr host requestline ++ ")"))
          None h in
      Ok false h
    else
      match words with
      | command :: path :: _ =>
          if ((List.length words =? 2)%nat && negb (String.eqb command "GET"))%bool then
            let* (_, h) :=
              send_error 400
                (Some ("Bad HTTP/0.9 request type (" ++ repr host command ++ ")"))
                None h in
            Ok false h
          else
            let h := set_path path (set_command (Some command) h) in
            let h :=
              if Py.startswith path "//"
              then set_path ("/" ++ Py.lstrip_char "/" path) h  (* Reduce to a single / *)
              else h in
            (* Examine the headers *)
            match rfile_headers with
            | HeaderLineTooLong err =>
                let* (_, h) := send_error 431 (Some "Line too long") (Some err) h in
                Ok false h
            | TooManyHeaders err =>
                let* (_, h) := send_error 431 (Some "Too many headers") (Some err) h in
                Ok false h
            | HeadersParsed hs => Ok true (set_headers hs h)
            end
      | _ => Ok false h
      end.

  (** [parse_request]: [raw_requestline] is the line as read, decoded as
      ISO-8859-1. *)
Definition parse_request (raw_requestline : string) (rfile_headers : header_read)
      (h : handler) : result bool :=
    let h := set_command None h in  (* set in case of error on the first line *)
    let h := set_request_version default_request_version h in
    let requestline := Py.rstrip_chars (String "013" (String "010" "")) raw_requestline in
    let h := set_requestline requestline h in
    let words := Py.split_ws requestline in
    if (List.length words =? 0)%nat then Ok false h
    else if (3 <=? List.length words)%nat then  (* Enough to determine protocol version *)
      let version := last words "" in
      match version_number version with
      | None =>
          let* (_, h) :=
            send_error 400 (Some ("Bad request version (" ++ repr host version ++ ")"))
              None h in
          Ok false h
      | Some number =>
          if version_ge number 2 0 then
            let* (_, h) :=
              send_error 505
                (Some ("Invalid HTTP version ("
                       ++ match Py.after_first "/" version with
                          | Some base_version_number => base_version_number
                          | None => ""
                          end ++ ")"))
                None h in
            Ok false h
          else
            parse_request_words requestline words rfile_headers
              (set_request_version version h)
      end
    else parse_request_words requestline words rfile_headers h.

  (** Lines 410-418 of server.py, the end of [handle_one_request]: the
      method of the command is looked up on the object and called. *)
Definition call_method (h : handler) : result unit :=
    match command h with
    | None => Exc TypeError h
    | Some c =>
        let mname := "do_" ++ c in
        match self_method mname with
        | None =>
            send_error 501 (Some ("Unsupported method (" ++ repr host c ++ ")")) None h
        | Some method => method h
        end
    end.

  (** [handle_one_request], for the line [self.rfile.readline(65537)] gave
      and the header block that follows it. *)
Definition handle_one_request (raw_requestline : string) (rfile_headers : header_read)
      (h : handler) : result unit :=
    if 65536 <? Z.of_nat (String.length raw_requestline) then
      let h := set_requestline "" h in
      let h := set_request_version "" h in
      let h := set_command (Some "") h in
      send_error 414 None None h
    else if String.eqb raw_requestline "" then Ok tt h
    else
      let* (parsed, h) := parse_request raw_requestline rfile_headers h in
      if negb parsed then Ok tt h  (* An error code has been sent, just exit *)
      else call_method h.

End Methods.
End BaseHTTPRequestHandler.

Module SimpleHTTPRequestHandler.
Section Methods.

Variable host : Host.
Variable self_end_headers : handler -> result unit.
Variable self_log_message : string -> handler -> handler.

Let send_response := BaseHTTPRequestHandler.send_response host self_log_message.
Let send_header := BaseHTTPRequestHandler.send_header.
Let send_error :=
    BaseHTTPRequestHandler.send_error host self_end_headers self_log_message.

Definition extensions_map (ext : string) : option string :=
    if String.eqb ext ".gz" then Some "application/gzip"
    else if String.eqb ext ".Z" then Some "application/octet-stream"
    else if String.eqb ext ".bz2" then Some "application/x-bzip2"
    else if String.eqb ext ".xz" then Some "application/x-xz"
    else None.

  (** The loop of [translate_path] over the words of the path. *)
Definition translate_word (path word : string) : string :=
    if (negb (String.eqb (Posixpath.dirname word) "")
        || String.eqb word "." || String.eqb word "..")%bool
    then path   (* Ignore components that are not a simple file/directory name *)
    else Posixpath.join path word.

Definition translate_path (directory path : string) : string :=
    (* abandon query parameters *)
    let path := Py.before_first "?" path in
    let path := Py.before_first "#" path in
    let trailing_slash := Py.endswith (Py.rstrip path) "/" in
    let path := unquote host path in
    let path := normpath host path in
    let words := Py.split "/" path in
    let words := filter (fun w => negb (String.eqb w "")) words in
    let path := fold_left translate_word words directory in
    if trailing_slash then path ++ "/" else path.

  (** [guess_type]: the type it returns. *)
Definition guess_type (path : string) : string :=
    let ext := snd (Posixpath.splitext path) in
    match extensions_map ext with
    | Some t => t
    | None =>
        let ext := Py.lower ext in
        match extensions_map ext with
        | Some t => t
        | None =>
            match mimetypes_guess_type host path with
            | Some guess =>
                if String.eqb guess "" then "application/octet-stream" else guess
            | None => "application/octet-stream"
            end
        end
    end.

  (** [mimetypes.init()]: every known file that is there is read. *)
Definition mimetypes_read (h : handler) (file : string) : handler :=
    let h := fs_record (Isfile file) h in
    if os_path_isfile host file then fs_record (OpenText file) h else h.

Definition mimetypes_init (h : handler) : handler :=
    fold_left mimetypes_read Mimetypes.knownfiles h.

  (** [guess_type]: what it asks of the file system. When neither look-up in
      [extensions_map] answers, [mimetypes.guess_type] is called, and its
      first call in the process loads the tables. *)
Definition guess_type_reads (path : string) (h : handler) : handler :=
    let ext := snd (Posixpath.splitext path) in
    match extensions_map ext with
    | Some _ => h
    | None =>
        match extensions_map (Py.lower ext) with
        | Some _ => h
        | None => if mimetypes_loaded host then h else mimetypes_init h
        end
    end.

  (** The loop of [list_directory] over the entries: what it asks about
      one of them. *)
Definition probe_entry (path : string) (h : handler) (name : string) : handler :=
    let fullname := Posixpath.join path name in
    let h := fs_record (Isdir fullname) h in
    fs_record (Islink fullname) h.

Definition list_directory (path : string) (h : handler) : result (option string) :=
    let h := fs_record (Listdir path) h in
    match os_listdir host path with
    | None =>
        let* (_, h) := send_error 404 (Some "No permission to list directory") None h in
        Ok None h
    | Some list =>
        let list := Pylist.sort_by Py.lower list in
        let* (displaypath, h) := self_path h in
        let enc := filesystemencoding host in
        let h := fold_left (probe_entry path) list h in
        let encoded := listing_page host displaypath path list in
        let h := send_response 200 None h in
        let h := send_header "Content-type" ("text/html; charset=" ++ enc) h in
        let h := send_header "Content-Length"
                   (Py.str_int (Z.of_nat (String.length encoded))) h in
        let* (_, h) := self_end_headers h in
        Ok (Some encoded) h
    end.

  (** [for index in "index.html", "index.htm": ...]: the first index page
      that is a file, with the probes made. *)
Fixpoint find_index (path : string) (pages : list string) (h : handler)
    : option string * handler :=
    match pages with
    | [] => (None, h)
    | index :: pages' =>
        let index := Posixpath.join path index in
        let h := fs_record (Isfile index) h in
        if os_path_isfile host index then (Some index, h)
        else find_index path pages' h
    end.

  (** The part of [send_head] after the directory case: lines 689-736. *)
Definition send_file_head (path : string) (h : handler) : result (option string) :=
    let ctype := guess_type path in
    let h := guess_type_reads path h in
    if Py.endswith path "/" then
      let* (_, h) := send_error 404 (Some "File not found") None h in
      Ok None h
    else
      let h := fs_record (Open path) h in
      match open_rb host path with
      | OpenOSError =>
          let* (_, h) := send_error 404 (Some "File not found") None h in
          Ok None h
      | OpenRaises e => Exc e h
      | Opened f =>
          let h := fs_record (Fstat path) h in
          if not_modified host (headers h) f then
            let h := send_response 304 None h in
            let* (_, h) := self_end_headers h in
            Ok None h
          else
            let h := send_response 200 None h in
            let h := send_header "Content-type" ctype h in
            let h := send_header "Content-Length"
                       (Py.str_int (Z.of_nat (String.length (content f)))) h in
            let h := send_header "Last-Modified" (last_modified f) h in
            let* (_, h) := self_end_headers h in
            Ok (Some (content f)) h
      end.

Definition send_head (h : handler) : result (option string) :=
    let* (request_path, h) := self_path h in
    let path := translate_path (directory h) request_path in
    let h := fs_record (Isdir path) h in
    if os_path_isdir host path then
      match urlsplit_path host request_path with
      | None => Exc ValueError h
      | Some parts_path =>
          if negb (Py.endswith parts_path "/") then
            (* redirect browser - doing basically what apache does *)
            let h := send_response 301 None h in
            let h := send_header "Location" (redirect_url host request_path) h in
            let h := send_header "Content-Length" "0" h in
            let* (_, h) := self_end_headers h in
            Ok None h
          else
            match find_index path ["index.html"; "index.htm"] h with
            | (Some index, h) => send_file_head index h
            | (None, h) => list_directory path h
            end
      end
    else send_file_head path h.

  (** [copyfile(f, self.wfile)]: one write for each block read. *)
Definition copyfile (data : string) (h : handler) : handler :=
    wfile_write (map Data (Shutil.copyfileobj data)) h.

Definition do_GET (h : handler) : result unit :=
    let* (f, h) := send_head h in
    match f with
    | Some data => Ok tt (copyfile data h)
    | None => Ok tt h
    end.

Definition do_HEAD (h : handler) : result unit :=
    let* (f, h) := send_head h in
    Ok tt h.

End Methods.
End SimpleHTTPRequestHandler.

(** ** [GameHTTPRequestHandler] (lines 13-39) *)

Module GameHTTPRequestHandler.
Section Methods.

Variable host : Host.

Definition send_header := BaseHTTPRequestHandler.send_header.

  (** Lines 37-39. *)
Definition log_message (message : string) (h : handler) : handler :=
    stdout_print ("[" ++ date_time_string host ++ "] " ++ message) h.

  (** Lines 16-30. *)
Definition end_headers (h : handler) : result unit :=
    (* Add CORS headers for local development *)
    let h := send_header "Access-Control-Allow-Origin" "*" h in
    let h := send_header "Access-Control-Allow-Methods" "GET, POST, OPTIONS" h in
    let h := send_header "Access-Control-Allow-Headers" "*" h in
    (* Set correct MIME types for WASM and JS files *)
    let* (request_path, h) := self_path h in
    let h :=
      if Py.endswith request_path ".wasm" then
        send_header "Content-Type" "application/wasm" h
      else if Py.endswith request_path ".js" then
        send_header "Content-Type" "application/javascript" h
      else if Py.endswith request_path ".html" then
        send_header "Content-Type" "text/html; charset=utf-8" h
      else h in
    Ok tt (BaseHTTPRequestHandler.end_headers h).

Definition send_response := BaseHTTPRequestHandler.send_response host log_message.
Definition send_error := BaseHTTPRequestHandler.send_error host end_headers log_message.

  (** Lines 32-35. *)
Definition do_OPTIONS (h : handler) : result unit :=
    let h := send_response 200 None h in
    end_headers h.

  (** Inherited, with the overridden methods in place. *)
Definition do_GET := SimpleHTTPRequestHandler.do_GET host end_headers log_message.
Definition do_HEAD := SimpleHTTPRequestHandler.do_HEAD host end_headers log_message.

  (** [getattr(self, mname)]: the [do_] methods of the class. *)
Definition method (mname : string) : option (handler -> result unit) :=
    if String.eqb mname "do_GET" then Some do_GET
    else if String.eqb mname "do_HEAD" then Some do_HEAD
    else if String.eqb mname "do_OPTIONS" then Some do_OPTIONS
    else None.

Definition call_method :=
    BaseHTTPRequestHandler.call_method host end_headers log_message method.

Definition handle_one_request :=
    BaseHTTPRequestHandler.handle_one_request host end_headers log_message method.

End Methods.
End GameHTTPRequestHandler.

(** ** Requests and responses *)

(** The handler object the server creates for a connection: nothing is set
    but the directory, which is the working directory, the one [main]
    changed into. *)
Definition init_handler (web_dir : string) : handler :=
  {| command := None; path := None; request_version := ""; requestline := "";
     headers := []; directory := web_dir;
     headers_buffer := []; wfile := []; stdout := []; fs_log := [] |}.

(** What arrives on a connection: the first line as [readline(65537)] gives
    it, and what reading the header block after it gives. *)
Record arrival : Type := {
  raw_requestline : string;
  rfile_headers : header_read
}.

(** The handler at work on what arrives. *)
Definition handle (host : Host) (web_dir : string) (a : arrival) : result unit :=
  GameHTTPRequestHandler.handle_one_request host
    (raw_requestline a) (rfile_headers a) (init_handler web_dir).

(** What went over the wire. *)
Definition reply (host : Host) (web_dir : string) (a : arrival) : list wire :=
  wfile (state (handle host web_dir a)).

(** The handler object while [parse_request] reads the request line, and
    once it has accepted it. *)
Definition line_handler (web_dir requestline version : string) (cmd : option string)
  : handler :=
  {| command := cmd; path := None; request_version := version;
     requestline := requestline;
     headers := []; directory := web_dir;
     headers_buffer := []; wfile := []; stdout := []; fs_log := [] |}.

Definition parsed_handler (web_dir requestline version c p : string)
    (hs : list (string * string)) : handler :=
  {| command := Some c; path := Some p; request_version := version;
     requestline := requestline;
     headers := hs; directory := web_dir;
     headers_buffer := []; wfile := []; stdout := []; fs_log := [] |}.

(** [requestline.rstrip('\r\n')] *)
Definition strip_line_end (raw_requestline : string) : string :=
  Py.rstrip_chars (String "013" (String "010" "")) raw_requestline.

(** The protocol versions of the spec's wire protocol. *)
Inductive http_version : Type := HTTP_1_0 | HTTP_1_1.

Definition version_text (v : http_version) : string :=
  match v with
  | HTTP_1_0 => "HTTP/1.0"
  | HTTP_1_1 => "HTTP/1.1"
  end.

(** A request with version HTTP/1.0 or HTTP/1.1 that [parse_request]
    accepted: the request line as it came and what [parse_request] took from
    it. *)
Record request : Type := {
  req_line : string;                       (* self.requestline *)
  req_command : string;                    (* self.command *)
  req_path : string;                       (* self.path *)
  req_version : http_version;              (* self.request_version *)
  req_headers : list (string * string)     (* self.headers *)
}.

(** The handler object once [parse_request] has accepted the request. *)
Definition new_handler (web_dir : string) (r : request) : handler :=
  {| command := Some (req_command r); path := Some (req_path r);
     request_version := version_text (req_version r);
     requestline := req_line r;
     headers := req_headers r; directory := web_dir;
     headers_buffer := []; wfile := []; stdout := []; fs_log := [] |}.

(** The handler after it answered the request, and the exception that ended
    the answer, if any. *)
Definition serve (host : Host) (web_dir : string) (r : request) : handler :=
  state (GameHTTPRequestHandler.call_method host (new_handler web_dir r)).

Definition raised (host : Host) (web_dir : string) (r : request) : option pyexc :=
  exception (GameHTTPRequestHandler.call_method host (new_handler web_dir r)).

(** What went over the wire. *)
Definition response (host : Host) (web_dir : string) (r : request) : list wire :=
  wfile (serve host web_dir r).

(** The status codes, the header lines and the body of a response. *)
Fixpoint status_codes (ws : list wire) : list Z :=
  match ws with
  | [] => []
  | StatusLine _ code _ :: ws' => code :: status_codes ws'
  | _ :: ws' => status_codes ws'
  end.

Fixpoint header_lines (ws : list wire) : list (string * string) :=
  match ws with
  | [] => []
  | HeaderLine k v :: ws' => (k, v) :: header_lines ws'
  | _ :: ws' => header_lines ws'
  end.

Fixpoint body (ws : list wire) : string :=
  match ws with
  | [] => ""
  | Data bytes :: ws' => bytes ++ body ws'
  | _ :: ws' => body ws'
  end.

(** The values of the headers of a given name; header names do not
    distinguish upper and lower case. *)
Definition header_values (name : string) (ws : list wire) : list string :=
  map snd (filter (fun kv => String.eqb (Py.lower (fst kv)) (Py.lower name))
                  (header_lines ws)).

(** The path of a file system call. *)
Definition fs_path (c : fs_call) : string :=
  match c with
  | Isdir p | Isfile p | Islink p | Open p | Fstat p | Listdir p | OpenText p => p
  end.

(** ** The shape of a response

    The pieces a response is made of, named so that the theorems can speak
    of them. *)

(** Lines 18-20 of the script. *)
Definition cors_headers : list wire :=
  [ HeaderLine "Access-Control-Allow-Origin" "*";
    HeaderLine "Access-Control-Allow-Methods" "GET, POST, OPTIONS";
    HeaderLine "Access-Control-Allow-Headers" "*" ].

(** Lines 23-28 of the script: the content type chosen from the end of the
    request path. *)
Definition suffix_content_type (path : string) : list string :=
  if Py.endswith path ".wasm" then ["application/wasm"]
  else if Py.endswith path ".js" then ["application/javascript"]
  else if Py.endswith path ".html" then ["text/html; charset=utf-8"]
  else [].

Definition suffix_headers (path : string) : list wire :=
  map (HeaderLine "Content-Type") (suffix_content_type path).

(** What the handler buffers of a status line and of header lines: nothing
    when the request is HTTP/0.9. *)
Definition heads (h : handler) (ws : list wire) : list wire :=
  if String.eqb (request_version h) "HTTP/0.9" then [] else ws.

(** What [send_response] buffers. *)
Definition response_head (host : Host) (code : Z) (message : string) : list wire :=
  [ StatusLine BaseHTTPRequestHandler.protocol_version code message;
    HeaderLine "Server" (version_string host);
    HeaderLine "Date" (date_time_string host) ].

(** The page of [send_error] for a code and a message, with the explanation
    of the code. *)
Definition error_body (host : Host) (code : Z) (message : string) : string :=
  error_page host code message
    match responses code with Some (_, long) => long | None => "???" end.

(** The codes for which [send_error] sends a page, and the explanation on
    the page. *)
Definition has_page (code : Z) : bool :=
  (200 <=? code) && negb ((code =? 204) || (code =? 205) || (code =? 304)).

Definition explanation (code : Z) (explain : option string) : string :=
  match explain with
  | Some e => e
  | None => match responses code with Some (_, long) => long | None => "???" end
  end.

(** What [send_error] buffers for a code that has a page. *)
Definition error_head_of (host : Host) (code : Z) (message page : string) : list wire :=
  (response_head host code message ++
   [ HeaderLine "Connection" "close";
     HeaderLine "Content-Type" BaseHTTPRequestHandler.error_content_type;
     HeaderLine "Content-Length" (Py.str_int (Z.of_nat (String.length page))) ])%list.

Definition error_head (host : Host) (code : Z) (message : string) : list wire :=
  error_head_of host code message (error_body host code message).

(** What [send_error] writes after the headers. *)
Definition error_data_of (command page : string) : list wire :=
  if (negb (String.eqb command "HEAD") && negb (String.eqb page ""))%bool
  then [Data page] else [].

Definition error_data (host : Host) (command : string) (code : Z) (message : string)
  : list wire :=
  error_data_of command (error_body host code message).

(** What [send_head] buffers for a file it serves. *)
Definition file_head (host : Host) (p : string) (f : file) : list wire :=
  (response_head host 200 "OK" ++
   [ HeaderLine "Content-type" (SimpleHTTPRequestHandler.guess_type host p);
     HeaderLine "Content-Length" (Py.str_int (Z.of_nat (String.length (content f))));
     HeaderLine "Last-Modified" (last_modified f) ])%list.

(** What [list_directory] buffers for a page. *)
Definition listing_head (host : Host) (page : string) : list wire :=
  (response_head host 200 "OK" ++
   [ HeaderLine "Content-type" ("text/html; charset=" ++ filesystemencoding host);
     HeaderLine "Content-Length" (Py.str_int (Z.of_nat (String.length page))) ])%list.

Definition redirect_head (host : Host) (path : string) : list wire :=
  (response_head host 301 "Moved Permanently" ++
   [ HeaderLine "Location" (redirect_url host path);
     HeaderLine "Content-Length" "0" ])%list.

(** The body of a GET, one write for each block copied (nothing for HEAD,
    nothing for an empty file). *)
Definition body_data (command data : string) : list wire :=
  if String.eqb command "GET" then map Data (Shutil.copyfileobj data) else [].

(** The bytes written after the headers, one entry per write. *)
Fixpoint data_of (ws : list wire) : list string :=
  match ws with
  | [] => []
  | Data bytes :: ws' => bytes :: data_of ws'
  | _ :: ws' => data_of ws'
  end.

(** The files a run opened to serve them. *)
Fixpoint opens (calls : list fs_call) : list string :=
  match calls with
  | [] => []
  | Open p :: calls' => p :: opens calls'
  | _ :: calls' => opens calls'
  end.

(** A plain file or directory name: not empty, no slash, neither [.] nor
    [..]. *)
Definition simple_name (w : string) : Prop :=
  w <> "" /\ Py.contains "/" w = false /\ w <> "." /\ w <> "..".

(** The paths reached from [root] by going down through plain names. *)
Inductive under (root : string) : string -> Prop :=
| under_root : under root root
| under_name (p w : string) :
    under root p -> simple_name w -> under root (Posixpath.join p w)
| under_slash (p : string) :
    under root p -> under root (p ++ "/").

(** The calls [mimetypes.init()] makes: a probe or a read of a known file. *)
Definition mimetypes_call (c : fs_call) : Prop :=
  exists file, In file Mimetypes.knownfiles /\ (c = Isfile file \/ c = OpenText file).

(** The calls [list_directory] makes on the entries of a directory under
    [root]. *)
Definition entry_call (host : Host) (root : string) (c : fs_call) : Prop :=
  exists dir names name,
    under root dir /\ os_listdir host dir = Some names /\ In name names /\
    (c = Isdir (Posixpath.join dir name) \/ c = Islink (Posixpath.join dir name)).

(** The file system calls of a request: on a path under the served
    directory, on an entry of a directory listed there, or one of
    [mimetypes.init()]. *)
Definition call_ok (host : Host) (root : string) (c : fs_call) : Prop :=
  (under root (fs_path c) /\ forall file, c <> OpenText file) \/
  entry_call host root c \/ mimetypes_call c.

(** The two lines [send_error] and [send_response] log. *)
Definition request_log (host : Host) (h : handler) (code : Z) : string :=
  "[" ++ date_time_string host ++ "] "
      ++ dquote ++ requestline h ++ dquote ++ " " ++ Py.str_int code ++ " -".

Definition error_log (host : Host) (code : Z) (message : string) : string :=
  "[" ++ date_time_string host ++ "] "
      ++ "code " ++ Py.str_int code ++ ", message " ++ message.

(** What a response leaves on stdout: the line of [log_request], after the
    line of [log_error] when the response is an error. *)
Definition log_lines (host : Host) (h : handler) (code : Z) (error : option string)
  : list string :=
  match error with
  | None => [request_log host h code]
  | Some message => [error_log host code message; request_log host h code]
  end.

(** The handler with its buffers replaced. *)
Definition with_io (h : handler) (buf wf : list wire) (out : list string)
    (calls : list fs_call) : handler :=
  {| command := command h; path := path h; request_version := request_version h;
     requestline := requestline h; headers := headers h; directory := directory h;
     headers_buffer := buf; wfile := wf; stdout := out; fs_log := calls |}.

(** How the answer to a request ends: an exception leaves the handler before
    anything is sent, or a response is sent, with a status code, the message
    of the error (if it is one), the head the inherited code buffers before
    [end_headers] and the data written after the headers. *)
Inductive exchange : Type :=
| Failed (e : pyexc)
| Sent (code : Z) (error : option string) (pre data : list wire).

(** The end of the method call that makes the exchange and returns [a], on
    a handler [h] whose path is [p] and whose buffers are empty. *)
Definition exchange_result {A} (host : Host) (h : handler) (p : string) (x : exchange)
    (a : A) (calls : list fs_call) : result A :=
  match x with
  | Failed e => Exc e (with_io h [] [] [] calls)
  | Sent code error pre data =>
      Ok a (with_io h []
              (heads h (pre ++ cors_headers ++ suffix_headers p ++ [BlankLine]) ++ data)%list
              (log_lines host h code error) calls)
  end.

Section Served.

Variable host : Host.
Variable web_dir : string.
Variable c p : string.
Variable hdrs : list (string * string).

Local Abbreviation tp := (SimpleHTTPRequestHandler.translate_path host web_dir p).

  (** [for index in "index.html", "index.htm"]: the first that is a file. *)
Definition first_index (dir : string) : option string :=
    if os_path_isfile host (Posixpath.join dir "index.html")
    then Some (Posixpath.join dir "index.html")
    else if os_path_isfile host (Posixpath.join dir "index.htm")
    then Some (Posixpath.join dir "index.htm")
    else None.

  (** The request path names a directory and ends in a slash. *)
Definition names_directory : Prop :=
    os_path_isdir host tp = true /\
    exists parts_path,
      urlsplit_path host p = Some parts_path /\ Py.endswith parts_path "/" = true.

  (** The file [send_head] looks up for the request path: what
      [translate_path] gives, or the index page of the directory it is. *)
Inductive looks_up : string -> Prop :=
  | looks_up_file : os_path_isdir host tp = false -> looks_up tp
  | looks_up_index (q : string) :
      names_directory -> first_index tp = Some q -> looks_up q.

  (** The exchanges of the handler for a request with command [c], path [p]
      and headers [hdrs]: one rule for each way the code of [call_method]
      and of the method it calls can go, with the file system calls made. *)
Inductive served : exchange -> list fs_call -> Prop :=
  | served_options :
      c = "OPTIONS" ->
      served (Sent 200 None (response_head host 200 "OK") []) []
  | served_unsupported (message : string) :
      c <> "GET" -> c <> "HEAD" -> c <> "OPTIONS" ->
      message = "Unsupported method (" ++ repr host c ++ ")" ->
      served (Sent 501 (Some message) (error_head host 501 message)
                (error_data host c 501 message)) []
  | served_bad_url (calls : list fs_call) :
      c = "GET" \/ c = "HEAD" ->
      os_path_isdir host tp = true -> urlsplit_path host p = None ->
      opens calls = [] ->
      served (Failed ValueError) calls
  | served_redirect (parts_path : string) (calls : list fs_call) :
      c = "GET" \/ c = "HEAD" ->
      os_path_isdir host tp = true ->
      urlsplit_path host p = Some parts_path -> Py.endswith parts_path "/" = false ->
      opens calls = [] ->
      served (Sent 301 None (redirect_head host p) []) calls
  | served_not_found (q : string) (calls : list fs_call) :
      c = "GET" \/ c = "HEAD" ->
      looks_up q ->
      (Py.endswith q "/" = true /\ opens calls = []) \/
      (Py.endswith q "/" = false /\ open_rb host q = OpenOSError /\ opens calls = [q]) ->
      served (Sent 404 (Some "File not found")
                (error_head host 404 "File not found")
                (error_data host c 404 "File not found")) calls
  | served_open_raises (q : string) (e : pyexc) (calls : list fs_call) :
      c = "GET" \/ c = "HEAD" ->
      looks_up q -> Py.endswith q "/" = false ->
      open_rb host q = OpenRaises e -> opens calls = [q] ->
      served (Failed e) calls
  | served_not_modified (q : string) (f : file) (calls : list fs_call) :
      c = "GET" \/ c = "HEAD" ->
      looks_up q -> Py.endswith q "/" = false ->
      open_rb host q = Opened f -> not_modified host hdrs f = true ->
      opens calls = [q] ->
      served (Sent 304 None (response_head host 304 "Not Modified") []) calls
  | served_file (q : string) (f : file) (calls : list fs_call) :
      c = "GET" \/ c = "HEAD" ->
      looks_up q -> Py.endswith q "/" = false ->
      open_rb host q = Opened f -> not_modified host hdrs f = false ->
      opens calls = [q] ->
      served (Sent 200 None (file_head host q f) (body_data c (content f))) calls
  | served_list_denied (calls : list fs_call) :
      c = "GET" \/ c = "HEAD" ->
      names_directory -> first_index tp = None ->
      os_listdir host tp = None ->
      opens calls = [] ->
      served (Sent 404 (Some "No permission to list directory")
                (error_head host 404 "No permission to list directory")
                (error_data host c 404 "No permission to list directory")) calls
  | served_listing (names : list string) (page : string) (calls : list fs_call) :
      c = "GET" \/ c = "HEAD" ->
      names_directory -> first_index tp = None ->
      os_listdir host tp = Some names ->
      page = listing_page host p tp (Pylist.sort_by Py.lower names) ->
      opens calls = [] ->
      served (Sent 200 None (listing_head host page) (body_data c page)) calls.

End Served.

(** The exchange of [send_head] once the caller has copied the file that
    [send_head] returned. *)
Definition with_file (c : string) (file : option string) (x : exchange) : exchange :=
  match x with
  | Failed e => Failed e
  | Sent code error pre data =>
      Sent code error pre
        (data ++ match file with
                 | Some d => body_data c d
                 | None => []
                 end)%list
  end.

(** The end of a call of the inherited GET/HEAD code on a handler with empty
    buffers: it is one of the exchanges of [served], and its file system
    calls are the ones of [call_ok]. *)
Definition answered (host : Host) (web_dir c p : string) (h : handler)
    (res : result (option string)) : Prop :=
  exists (x : exchange) (file : option string) (calls : list fs_call),
    res = exchange_result host h p x file calls /\
    Forall (call_ok host web_dir) calls /\
    served host web_dir c p (headers h) (with_file c file x) calls.

(** Header lines from (name, value) pairs. *)
Definition header_wires (hs : list (string * string)) : list wire :=
  map (fun kv => HeaderLine (fst kv) (snd kv)) hs.

(** The data part of a response: writes of bytes, nothing else. *)
Definition only_data (ws : list wire) : Prop :=
  exists blocks, ws = map Data blocks.

(** What every exchange that sends a response has: the head the inherited
    code buffers is the status line with the code, Server, Date and further
    headers, none of them a CORS header; the data are writes of bytes; the
    exchange logs an error exactly when the code is 400 or more. *)
Definition sent_ok (host : Host) (code : Z) (error : option string)
    (pre data : list wire) : Prop :=
  (exists message hs,
     pre = (response_head host code message ++ header_wires hs)%list /\
     header_values "Access-Control-Allow-Origin" (header_wires hs) = [] /\
     header_values "Access-Control-Allow-Methods" (header_wires hs) = [] /\
     header_values "Access-Control-Allow-Headers" (header_wires hs) = []) /\
  only_data data /\
  match error with
  | Some _ => 400 <=? code
  | None => negb (400 <=? code)
  end = true.



(** ** A sample machine

    A Linux development machine with CPython 3.11: the deployment directory
    holds index.html, app.wasm and pkg/ with the two build artifacts,
    [mimetypes] knows .html, .js and .wasm and has its tables loaded. *)

Module SampleHost.

Definition root : string := "/home/dev/echoes_rpg/test-deploy".

Definition index_html : file :=
    {| content := "<!DOCTYPE html><title>Echoes RPG</title>";
       last_modified := "Mon, 02 Nov 2026 09:00:00 GMT" |}.

Definition wasm_file : file :=
    {| content := "asm-bytes";
       last_modified := "Mon, 02 Nov 2026 09:00:00 GMT" |}.

Definition js_file : file :=
    {| content := "export default init;";
       last_modified := "Mon, 02 Nov 2026 09:00:00 GMT" |}.

Definition nul : ascii := "000"%char.

Definition files (p : string) : option file :=
    if String.eqb p (root ++ "/index.html") then Some index_html
    else if String.eqb p (root ++ "/app.wasm") then Some wasm_file
    else if String.eqb p (root ++ "/pkg/echoes_rpg_bg.wasm") then Some wasm_file
    else if String.eqb p (root ++ "/pkg/echoes_rpg.js") then Some js_file
    else None.

  (** A path with a NUL byte is no path: [open] raises [ValueError]. *)
Definition open_file (p : string) : open_result :=
    if Py.contains nul p then OpenRaises ValueError
    else match files p with
         | Some f => Opened f
         | None => OpenOSError
         end.

Definition is_dir (p : string) : bool :=
    (String.eqb p root || String.eqb p (root ++ "/")
     || String.eqb p (root ++ "/pkg") || String.eqb p (root ++ "/pkg/"))%bool.

Definition hex_digit (c : ascii) : option N :=
    let n := N_of_ascii c in
    if ((48 <=? n) && (n <=? 57))%N then Some (n - 48)%N
    else if ((65 <=? n) && (n <=? 70))%N then Some (n - 55)%N
    else if ((97 <=? n) && (n <=? 102))%N then Some (n - 87)%N
    else None.

  (** [urllib.parse.unquote] on escapes of single bytes. *)
Fixpoint unquote_bytes (s : string) : string :=
    match s with
    | EmptyString => EmptyString
    | String c s' =>
        if Ascii.eqb c "%" then
          match s' with
          | String a (String b rest) =>
              match hex_digit a, hex_digit b with
              | Some x, Some y => String (ascii_of_N (16 * x + y)) (unquote_bytes rest)
              | _, _ => String c (unquote_bytes s')
              end
          | _ => String c (unquote_bytes s')
          end
        else String c (unquote_bytes s')
    end.

  (** [int] on a string of decimal digits. *)
Definition int_of_digits (s : string) : option Z :=
    if String.eqb s "" then None
    else option_map Z.of_uint (NilZero.uint_of_string s).

Definition host : Host := {|
    version_string := "SimpleHTTP/0.6 Python/3.11.2";
    date_time_string := "Tue, 03 Nov 2026 12:00:00 GMT";
    filesystemencoding := "utf-8";
    os_path_isdir := is_dir;
    os_path_isfile := fun p => match files p with Some _ => true | None => false end;
    open_rb := open_file;
    os_listdir := fun p => if is_dir p then Some ["echoes_rpg_bg.wasm"; "echoes_rpg.js"]
                           else None;
    unquote := unquote_bytes;
    normpath := Posixpath.normpath;
    urlsplit_path := fun s => Some (Py.before_first "#" (Py.before_first "?" s));
    redirect_url := fun s => Py.before_first "?" s ++ "/";
    mimetypes_loaded := true;
    mimetypes_guess_type := fun p =>
      if Py.endswith p ".wasm" then Some "application/wasm"
      else if Py.endswith p ".html" then Some "text/html"
      else if Py.endswith p ".js" then Some "application/javascript"
      else None;
    not_modified := fun _ _ => false;
    error_page := fun code message explain =>
      "<h1>Error response</h1><p>Message: " ++ message ++ ".</p>";
    listing_page := fun _ p names => "<h1>Directory listing for " ++ p ++ "</h1>";
    repr := fun s => "'" ++ s ++ "'";
    py_int := int_of_digits |}.

  (** The same machine when the server has just started: [mimetypes] has
      not loaded its tables yet, and /etc/mime.types is there. *)
Definition fresh_host : Host := {|
    version_string := version_string host;
    date_time_string := date_time_string host;
    filesystemencoding := filesystemencoding host;
    os_path_isdir := os_path_isdir host;
    os_path_isfile := fun p => (String.eqb p "/etc/mime.types" || os_path_isfile host p)%bool;
    open_rb := open_rb host;
    os_listdir := os_listdir host;
    unquote := unquote host;
    normpath := normpath host;
    urlsplit_path := urlsplit_path host;
    redirect_url := redirect_url host;
    mimetypes_loaded := false;
    mimetypes_guess_type := mimetypes_guess_type host;
    not_modified := not_modified host;
    error_page := error_page host;
    listing_page := listing_page host;
    repr := repr host;
    py_int := py_int host |}.

Definition get (p : string) : request :=
    {| req_line := "GET " ++ p ++ " HTTP/1.1";
       req_command := "GET"; req_path := p; req_version := HTTP_1_1;
       req_headers := [] |}.

Definition options (p : string) : request :=
    {| req_line := "OPTIONS " ++ p ++ " HTTP/1.1";
       req_command := "OPTIONS"; req_path := p; req_version := HTTP_1_1;
       req_headers := [] |}.

  (** A request line with its line end, followed by an empty header block. *)
Definition line (l : string) : arrival :=
    {| raw_requestline := l ++ String "013" (String "010" "");
       rfile_headers := HeadersParsed [] |}.

End SampleHost.

(** ** More on runs and responses

    Projections of a run and of a response used by the further properties
    below. *)

(** The servers the run closed, in order. *)
Fixpoint server_closes (tr : list event) : list Z :=
  match tr with
  | [] => []
  | ServerClose port :: tr' => port :: server_closes tr'
  | _ :: tr' => server_closes tr'
  end.

(** The directories the run changed into, in order. *)
Fixpoint chdirs (tr : list event) : list string :=
  match tr with
  | [] => []
  | Chdir dir :: tr' => dir :: chdirs tr'
  | _ :: tr' => chdirs tr'
  end.

(** The ports the run served on, in order. *)
Fixpoint serve_starts (tr : list event) : list Z :=
  match tr with
  | [] => []
  | ServeForever port :: tr' => port :: serve_starts tr'
  | _ :: tr' => serve_starts tr'
  end.

(** The [TCPServer] constructor succeeds on the port. *)
Definition binds (os : OS) (port : Z) : bool :=
  match tcp_bind os port with
  | None => true
  | Some _ => false
  end.

(** The runs of the port loop over a list of candidate ports: the effects
    and the end, one rule per way a turn of the loop (lines 80-102) can go. *)
Inductive loop_run (os : OS) (web_dir : string)
  : list Z -> list event -> unit + stop -> Prop :=
| run_exhausted :
    loop_run os web_dir []
      [Print ("❌ Error: Could not find an available port starting from "
              ++ Py.str_int PORT)]
      (inr (SysExit 1))
| run_taken port ports errno tr r :
    tcp_bind os port = Some errno -> address_in_use errno = true ->
    loop_run os web_dir ports tr r ->
    loop_run os web_dir (port :: ports) (Bind port :: tr) r
| run_bind_error port ports errno :
    tcp_bind os port = Some errno -> address_in_use errno = false ->
    loop_run os web_dir (port :: ports) [Bind port] (inr (Raised (OSError errno)))
| run_forever port ports :
    tcp_bind os port = None -> serve_ends os port = None ->
    loop_run os web_dir (port :: ports)
      (Bind port :: map Print (startup_banner web_dir port) ++ [ServeForever port])%list
      (inr Forever)
| run_interrupted port ports :
    tcp_bind os port = None -> serve_ends os port = Some KeyboardInterrupt ->
    loop_run os web_dir (port :: ports)
      (Bind port :: map Print (startup_banner web_dir port)
         ++ [ServeForever port; Print (Py.nl ++ "🛑 Server stopped by user");
             ServerClose port])%list
      (inl tt)
| run_serve_in_use port ports errno tr r :
    tcp_bind os port = None -> serve_ends os port = Some (OSError errno) ->
    address_in_use errno = true ->
    loop_run os web_dir ports tr r ->
    loop_run os web_dir (port :: ports)
      (Bind port :: map Print (startup_banner web_dir port)
         ++ ServeForever port :: ServerClose port :: tr)%list
      r
| run_serve_error port ports e :
    tcp_bind os port = None -> serve_ends os port = Some e ->
    e <> KeyboardInterrupt ->
    (forall errno, e = OSError errno -> address_in_use errno = false) ->
    loop_run os web_dir (port :: ports)
      (Bind port :: map Print (startup_banner web_dir port)
         ++ [ServeForever port; ServerClose port])%list
      (inr (Raised e)).

Module SampleExtra.

  (** 8080 binds, serving there ends with EADDRINUSE (98); 8081 binds and the
      developer presses Ctrl-C. *)
Definition os_serve_in_use : OS := {|
    script_dir := Sample.base_dir;
    path_exists := fun _ => true;
    tcp_bind := fun _ => None;
    serve_ends := fun port => if port =? 8080 then Some (OSError 98)
                              else Some KeyboardInterrupt |}.

  (** 8080 binds, serving there ends with an I/O error (EIO, 5). *)
Definition os_serve_fails : OS := {|
    script_dir := Sample.base_dir;
    path_exists := fun _ => true;
    tcp_bind := fun _ => None;
    serve_ends := fun _ => Some (OSError 5) |}.

  (** test-deploy was copied without the .wasm file; dist is complete. *)
Definition os_stale_test_deploy : OS := {|
    script_dir := Sample.base_dir;
    path_exists := fun p =>
      negb (String.eqb p (Sample.base_dir // "test-deploy" // "pkg/echoes_rpg_bg.wasm"));
    tcp_bind := fun _ => None;
    serve_ends := fun _ => Some KeyboardInterrupt |}.

Definition post (p : string) : request :=
    {| req_line := "POST " ++ p ++ " HTTP/1.1";
       req_command := "POST"; req_path := p; req_version := HTTP_1_1;
       req_headers := [] |}.

End SampleExtra.
(** ** Startup: lemmas on the run of [main] *)

Section Startup.

Variable os : OS.



Lemma proc_eta {A} (m : proc A) : m = (trace m, outcome m).
  Proof. destruct m; reflexivity. Qed.

  (** The loop of lines 64-66 keeps the required files that do not exist, in
      the order of the list. *)
Lemma missing_files_filter (web_dir : string) :
    missing_files os web_dir =
    filter (fun file => negb (path_exists os (web_dir // file))) required_files.
  Proof.
    unfold missing_files.
    assert (G : forall files acc,
      fold_left (fun missing file =>
                   if negb (path_exists os (web_dir // file))
                   then (missing ++ [file])%list else missing) files acc
      = (acc ++ filter (fun file => negb (path_exists os (web_dir // file))) files)%list).
    { induction files as [|f files IH]; intros acc; simpl.
      - now rewrite app_nil_r.
      - rewrite IH. destruct (negb (path_exists os (web_dir // f))); simpl.
        + now rewrite <- app_assoc.
        + reflexivity. }
    now rewrite G.
  Qed.

Lemma for_each_print (f : string -> string) (xs : list string) :
    for_each xs (fun x => print (f x)) = (map (fun x => Print (f x)) xs, inl tt).
  Proof.
    induction xs as [|x xs IH]; simpl; [reflexivity|].
    rewrite IH. reflexivity.
  Qed.

  (** One turn of the loop on a port that is taken: nothing but the attempt. *)
Lemma try_port_taken (web_dir : string) (port : Z) :
    port_taken os port -> try_port os web_dir port = ([Bind port], inl Continue).
  Proof.
    intros (errno & Hb & Hu). unfold try_port, with_TCPServer.
    rewrite Hb. destruct Hu as [->| ->]; reflexivity.
  Qed.

  (** One turn on a port whose bind fails for another reason: the error leaves
      the loop. *)
Lemma try_port_fatal (web_dir : string) (port errno : Z) :
    tcp_bind os port = Some errno -> address_in_use errno = false ->
    try_port os web_dir port = ([Bind port], inr (Raised (OSError errno))).
  Proof.
    intros Hb Hu. unfold try_port, with_TCPServer.
    rewrite Hb. simpl. unfold address_in_use in Hu. rewrite Hu. reflexivity.
  Qed.

  (** One turn on a port that binds: the banner, then serving. *)
Lemma try_port_bound (web_dir : string) (port : Z) :
    tcp_bind os port = None ->
    exists rest,
      trace (try_port os web_dir port) =
      (Bind port :: map Print (startup_banner web_dir port) ++ ServeForever port :: rest)%list.
  Proof.
    intros Hb. unfold try_port, with_TCPServer, httpd_serve_forever.
    rewrite Hb. simpl.
    destruct (serve_ends os port) as [[errno| |name]|]; simpl.
    - destruct ((errno =? 48) || (errno =? 98)); simpl; eexists; reflexivity.
    - eexists; reflexivity.
    - eexists; reflexivity.
    - eexists; reflexivity.
  Qed.

  (** One turn on a port that binds, when Ctrl-C ends the serving. *)
Lemma try_port_interrupted (web_dir : string) (port : Z) :
    tcp_bind os port = None -> serve_ends os port = Some KeyboardInterrupt ->
    try_port os web_dir port =
    ((Bind port :: map Print (startup_banner web_dir port) ++
      [ServeForever port; Print (Py.nl ++ "🛑 Server stopped by user"); ServerClose port])%list,
     inl Break).
  Proof.
    intros Hb Hs. unfold try_port, with_TCPServer, httpd_serve_forever.
    rewrite Hb, Hs. reflexivity.
  Qed.

  (** The loop passes over the ports that are taken, one attempt each. *)
Lemma port_loop_skip (P : Z) (web_dir : string) (busy ports : list Z) :
    Forall (port_taken os) busy ->
    port_loop os P web_dir (busy ++ ports) =
    ((map Bind busy ++ trace (port_loop os P web_dir ports))%list,
     outcome (port_loop os P web_dir ports)).
  Proof.
    induction 1 as [|port busy Hp _ IH]; simpl.
    - apply proc_eta.
    - rewrite (try_port_taken web_dir port Hp). simpl.
      rewrite IH. reflexivity.
  Qed.

End Startup.

Section StartupRun.

Variable os : OS.

Local Open Scope list_scope.

Lemma bind_attempts_app (a b : list event) :
    bind_attempts (a ++ b) = bind_attempts a ++ bind_attempts b.
  Proof.
    induction a as [|e a IH]; simpl; [reflexivity|].
    destruct e; simpl; now rewrite IH.
  Qed.

Lemma bind_attempts_binds (ports : list Z) : bind_attempts (map Bind ports) = ports.
  Proof. induction ports; simpl; congruence. Qed.

Lemma check_required_files_none (web_dir : string) :
    missing_files os web_dir = [] -> check_required_files os web_dir = ([], inl tt).
  Proof. unfold check_required_files. now intros ->. Qed.

Lemma check_required_files_some (web_dir : string) :
    missing_files os web_dir <> [] ->
    check_required_files os web_dir =
    (Print "❌ Error: Missing required files:"
       :: map (fun file => Print ("   - " ++ file)%string) (missing_files os web_dir)
       ++ [Print (Py.nl ++ "   Please ensure you have built the WASM package correctly.")%string],
     inr (SysExit 1)).
  Proof.
    unfold check_required_files. destruct (missing_files os web_dir) as [|f fs] eqn:E.
    - congruence.
    - intros _.
      rewrite (for_each_print (fun file => "   - " ++ file)%string (f :: fs)).
      reflexivity.
  Qed.

  (** With the directory chosen and nothing missing, [main] changes into the
      directory and runs the port loop. *)
Lemma main_reaches_port_loop (line web_dir : string) :
    choose_web_dir os = ([Print line], inl web_dir) ->
    missing_files os web_dir = [] ->
    main os =
    (Print line :: Chdir web_dir
       :: trace (port_loop os PORT web_dir (Py.range PORT (PORT + 10))),
     outcome (port_loop os PORT web_dir (Py.range PORT (PORT + 10)))).
  Proof.
    intros Hc Hm. unfold main, serve_from. rewrite Hc. unfold bind at 1.
    rewrite (check_required_files_none web_dir Hm).
    generalize (port_loop os PORT web_dir (Py.range PORT (PORT + 10))).
    intros [tr r]. reflexivity.
  Qed.

Lemma trace_bind_prefix {A B} (m : proc A) (k : A -> proc B) :
    exists rest, trace (bind m k) = trace m ++ rest.
  Proof.
    destruct m as [tr [a|s]]; simpl.
    - destruct (k a) as [tr' r]. simpl. now exists tr'.
    - exists []. now rewrite app_nil_r.
  Qed.

  (** The loop up to the first port that binds. *)
Lemma port_loop_first_bound (web_dir : string) (busy later : list Z) (port : Z) :
    Forall (port_taken os) busy -> tcp_bind os port = None ->
    exists rest,
      trace (port_loop os PORT web_dir (busy ++ port :: later)) =
      map Bind busy ++ Bind port :: map Print (startup_banner web_dir port)
        ++ ServeForever port :: rest.
  Proof.
    intros Hbusy Hb. rewrite (port_loop_skip os PORT web_dir busy _ Hbusy).
    unfold trace at 1. cbn [fst].
    destruct (try_port_bound os web_dir port Hb) as [rest Hrest].
    cbn [port_loop].
    match goal with
    | |- context [trace (bind ?m ?k)] => destruct (trace_bind_prefix m k) as [rest' ->]
    end.
    rewrite Hrest. exists (rest ++ rest').
    cbn [app]. rewrite <- app_assoc. reflexivity.
  Qed.

Lemma port_loop_interrupted (web_dir : string) (busy later : list Z) (port : Z) :
    Forall (port_taken os) busy -> tcp_bind os port = None ->
    serve_ends os port = Some KeyboardInterrupt ->
    port_loop os PORT web_dir (busy ++ port :: later) =
    (map Bind busy ++ Bind port :: map Print (startup_banner web_dir port)
       ++ [ServeForever port; Print (Py.nl ++ "🛑 Server stopped by user")%string;
           ServerClose port],
     inl tt).
  Proof.
    intros Hbusy Hb Hs. rewrite (port_loop_skip os PORT web_dir busy _ Hbusy).
    simpl port_loop. rewrite (try_port_interrupted os web_dir port Hb Hs).
    cbn [bind trace outcome fst snd ret]. rewrite app_nil_r. reflexivity.
  Qed.

Lemma other_errno (errno : Z) :
    errno <> EADDRINUSE_linux -> errno <> EADDRINUSE_bsd ->
    address_in_use errno = false.
  Proof.
    unfold address_in_use, EADDRINUSE_linux, EADDRINUSE_bsd. intros Hl Hb.
    apply Z.eqb_neq in Hl, Hb. now rewrite Hl, Hb.
  Qed.

Lemma port_loop_fatal (web_dir : string) (busy later : list Z) (port errno : Z) :
    Forall (port_taken os) busy ->
    tcp_bind os port = Some errno -> address_in_use errno = false ->
    port_loop os PORT web_dir (busy ++ port :: later) =
    (map Bind busy ++ [Bind port], inr (Raised (OSError errno))).
  Proof.
    intros Hbusy Hb Hu. rewrite (port_loop_skip os PORT web_dir busy _ Hbusy).
    simpl port_loop. rewrite (try_port_fatal os web_dir port errno Hb Hu).
    reflexivity.
  Qed.

Lemma port_loop_exhausted (web_dir : string) (ports : list Z) :
    Forall (port_taken os) ports ->
    port_loop os PORT web_dir ports =
    (map Bind ports ++
       [Print "❌ Error: Could not find an available port starting from 8080"],
     inr (SysExit 1)).
  Proof.
    intros H. rewrite <- (app_nil_r ports) at 1.
    rewrite (port_loop_skip os PORT web_dir ports [] H). reflexivity.
  Qed.

End StartupRun.

(** ** Startup: the claims *)

Section StartupClaims.

Local Open Scope list_scope.

Lemma choose_web_dir_unbuilt (os : OS) :
    path_exists os (script_dir os // "test-deploy") = false ->
    path_exists os (script_dir os // "dist") = false ->
    main os =
    ([Print "❌ Error: No built files found!";
      Print "   Please run 'wasm-pack build --target web --out-dir pkg --no-typescript' first";
      Print "   Then create a deployment directory with index.html and pkg/"],
     inr (SysExit 1)).
  Proof.
    intros Ht Hd. unfold main, choose_web_dir. rewrite Ht, Hd. reflexivity.
  Qed.

Lemma main_missing (os : OS) (line web_dir : string) :
    choose_web_dir os = ([Print line], inl web_dir) ->
    missing_files os web_dir <> [] ->
    main os =
    (Print line :: Print "❌ Error: Missing required files:"
       :: map (fun file => Print ("   - " ++ file)%string) (missing_files os web_dir)
       ++ [Print (Py.nl ++ "   Please ensure you have built the WASM package correctly.")%string],
     inr (SysExit 1)).
  Proof.
    intros Hc Hm. unfold main, serve_from. rewrite Hc. unfold bind at 1.
    rewrite (check_required_files_some os web_dir Hm). reflexivity.
  Qed.

Lemma choose_test_deploy (os : OS) :
    path_exists os (script_dir os // "test-deploy") = true ->
    choose_web_dir os =
    ([Print "📁 Serving from test-deploy directory"], inl (script_dir os // "test-deploy")).
  Proof. intros H. unfold choose_web_dir. rewrite H. reflexivity. Qed.

Lemma choose_dist (os : OS) :
    path_exists os (script_dir os // "test-deploy") = false ->
    path_exists os (script_dir os // "dist") = true ->
    choose_web_dir os =
    ([Print "📁 Serving from dist directory"], inl (script_dir os // "dist")).
  Proof. intros Ht Hd. unfold choose_web_dir. rewrite Ht, Hd. reflexivity. Qed.

Lemma main_chosen (os : OS) (line web_dir : string) :
    choose_web_dir os = ([Print line], inl web_dir) ->
    main os = (Print line :: trace (serve_from os web_dir), outcome (serve_from os web_dir)).
  Proof.
    intros Hc. unfold main. rewrite Hc. unfold bind. cbv beta iota.
    generalize (serve_from os web_dir). intros [tr r]. reflexivity.
  Qed.

Lemma missing_wasm (os : OS) (web_dir : string) :
    path_exists os (web_dir // "pkg/echoes_rpg_bg.wasm") = false ->
    In "pkg/echoes_rpg_bg.wasm" (missing_files os web_dir).
  Proof.
    intros H. rewrite missing_files_filter. apply filter_In. split.
    - simpl. auto.
    - now rewrite H.
  Qed.

  (** C6: at startup [main] serves from test-deploy when that subdirectory of
      the script's directory exists, otherwise from dist when it exists, each
      time after a status line that names the directory: the rest of the run
      is the one of [serve_from] on that directory, and when no required file
      is missing its next effect is [os.chdir] into that directory; when
      neither exists it prints the no-built-files message with the build
      guidance and exits with status 1. *)
Theorem C6_directory_resolver (os : OS) :
    (path_exists os (script_dir os // "test-deploy") = true ->
     main os =
     (Print "📁 Serving from test-deploy directory"
        :: trace (serve_from os (script_dir os // "test-deploy")),
      outcome (serve_from os (script_dir os // "test-deploy"))) /\
     (missing_files os (script_dir os // "test-deploy") = [] ->
      exists rest,
        trace (main os) =
        Print "📁 Serving from test-deploy directory"
          :: Chdir (script_dir os // "test-deploy") :: rest)) /\
    (path_exists os (script_dir os // "test-deploy") = false ->
     path_exists os (script_dir os // "dist") = true ->
     main os =
     (Print "📁 Serving from dist directory"
        :: trace (serve_from os (script_dir os // "dist")),
      outcome (serve_from os (script_dir os // "dist"))) /\
     (missing_files os (script_dir os // "dist") = [] ->
      exists rest,
        trace (main os) =
        Print "📁 Serving from dist directory"
          :: Chdir (script_dir os // "dist") :: rest)) /\
    (path_exists os (script_dir os // "test-deploy") = false ->
     path_exists os (script_dir os // "dist") = false ->
     main os =
     ([Print "❌ Error: No built files found!";
       Print "   Please run 'wasm-pack build --target web --out-dir pkg --no-typescript' first";
       Print "   Then create a deployment directory with index.html and pkg/"],
      inr (SysExit 1)) /\
     exit_status (outcome (main os)) = Some 1).
  Proof.
    split; [|split].
    - intros H. split; [apply main_chosen, choose_test_deploy, H|].
      intros Hm. rewrite (main_reaches_port_loop os _ _ (choose_test_deploy os H) Hm).
      eexists. reflexivity.
    - intros Ht Hd. split; [apply main_chosen, choose_dist; assumption|].
      intros Hm. rewrite (main_reaches_port_loop os _ _ (choose_dist os Ht Hd) Hm).
      eexists. reflexivity.
    - intros Ht Hd. rewrite (choose_web_dir_unbuilt os Ht Hd). split; reflexivity.
  Qed.

  (** C7: the validator looks for index.html, pkg/echoes_rpg.js and
      pkg/echoes_rpg_bg.wasm under the chosen directory and for nothing else.
      When some are missing it prints a header, one line per missing path and
      the guidance, and exits with status 1 before any [os.chdir] or bind; a
      test-deploy without pkg/echoes_rpg_bg.wasm gets that path listed. When
      none is missing it prints nothing and the run goes on with [os.chdir]. *)
Theorem C7_artifact_validator (os : OS) (web_dir : string) :
    missing_files os web_dir =
      filter (fun file => negb (path_exists os (web_dir // file)))
             ["index.html"; "pkg/echoes_rpg.js"; "pkg/echoes_rpg_bg.wasm"] /\
    (forall os' : OS,
       (forall file, In file ["index.html"; "pkg/echoes_rpg.js"; "pkg/echoes_rpg_bg.wasm"] ->
                     path_exists os' (web_dir // file) = path_exists os (web_dir // file)) ->
       check_required_files os' web_dir = check_required_files os web_dir) /\
    (missing_files os web_dir <> [] ->
     serve_from os web_dir =
     (Print "❌ Error: Missing required files:"
        :: map (fun file => Print ("   - " ++ file)%string) (missing_files os web_dir)
        ++ [Print (Py.nl ++ "   Please ensure you have built the WASM package correctly.")%string],
      inr (SysExit 1)) /\
     exit_status (outcome (serve_from os web_dir)) = Some 1) /\
    (path_exists os (script_dir os // "test-deploy") = true ->
     path_exists os (script_dir os // "test-deploy" // "pkg/echoes_rpg_bg.wasm") = false ->
     In (Print "   - pkg/echoes_rpg_bg.wasm") (trace (main os)) /\
     exit_status (outcome (main os)) = Some 1) /\
    (missing_files os web_dir = [] ->
     check_required_files os web_dir = ([], inl tt) /\
     serve_from os web_dir =
     (Chdir web_dir :: trace (port_loop os PORT web_dir (Py.range PORT (PORT + 10))),
      outcome (port_loop os PORT web_dir (Py.range PORT (PORT + 10))))).
  Proof.
    split; [apply missing_files_filter|].
    split.
    { intros os' Hagree. unfold check_required_files.
      assert (E : missing_files os' web_dir = missing_files os web_dir).
      { rewrite !missing_files_filter. apply filter_ext_in.
        intros file Hin. now rewrite (Hagree file Hin). }
      now rewrite E. }
    split.
    { intros Hm. unfold serve_from.
      rewrite (check_required_files_some os web_dir Hm). split; reflexivity. }
    split.
    { intros Ht Hw.
      assert (Hin := missing_wasm os _ Hw).
      assert (Hm : missing_files os (script_dir os // "test-deploy") <> []).
      { intros E. rewrite E in Hin. exact Hin. }
      rewrite (main_missing os _ _ (choose_test_deploy os Ht) Hm). split; [|reflexivity].
      simpl. right. right. apply in_or_app. left.
      apply (in_map (fun file => Print ("   - " ++ file)%string)) in Hin. exact Hin. }
    intros Hm. split.
    - apply check_required_files_none, Hm.
    - unfold serve_from. rewrite (check_required_files_none os web_dir Hm).
      generalize (port_loop os PORT web_dir (Py.range PORT (PORT + 10))).
      intros [tr r]. reflexivity.
  Qed.

  (** C4: with the directory chosen and nothing missing, the candidates are
      8080, 8081, ..., 8089 in this order. Ports that are in use are passed
      over one attempt each; at the first port that binds the banner for that
      port is printed and serving starts, and when Ctrl-C ends the serving no
      other port was tried. With 8080 taken and 8081 free the server binds
      8081 and the banner says 8081. When all ten are in use the run prints
      the diagnostic that names 8080 and exits with status 1. *)
Theorem C4_port_binder (os : OS) (line web_dir : string) :
    choose_web_dir os = ([Print line], inl web_dir) ->
    missing_files os web_dir = [] ->
    Py.range PORT (PORT + 10) =
      [8080; 8081; 8082; 8083; 8084; 8085; 8086; 8087; 8088; 8089]%Z /\
    (forall (busy later : list Z) (port : Z),
       Py.range PORT (PORT + 10) = busy ++ port :: later ->
       Forall (port_taken os) busy ->
       tcp_bind os port = None ->
       (exists rest,
          trace (main os) =
          Print line :: Chdir web_dir :: map Bind busy ++ Bind port
            :: map Print (startup_banner web_dir port) ++ ServeForever port :: rest) /\
       (serve_ends os port = Some KeyboardInterrupt ->
        bind_attempts (trace (main os)) = busy ++ [port])) /\
    (port_taken os 8080 -> tcp_bind os 8081 = None ->
     exists rest,
       trace (main os) =
       Print line :: Chdir web_dir :: Bind 8080 :: Bind 8081
         :: map Print (startup_banner web_dir 8081) ++ ServeForever 8081 :: rest /\
       In "🌐 Server running at: http://localhost:8081"%string
          (startup_banner web_dir 8081)) /\
    (Forall (port_taken os) (Py.range PORT (PORT + 10)) ->
     main os =
     (Print line :: Chdir web_dir :: map Bind (Py.range PORT (PORT + 10))
        ++ [Print "❌ Error: Could not find an available port starting from 8080"],
      inr (SysExit 1)) /\
     exit_status (outcome (main os)) = Some 1).
  Proof.
    intros Hc Hm. rewrite (main_reaches_port_loop os line web_dir Hc Hm).
    split; [reflexivity|]. split; [|split].
    - intros busy later port Hr Hbusy Hb. rewrite Hr. split.
      + destruct (port_loop_first_bound os web_dir busy later port Hbusy Hb) as [rest E].
        exists rest. cbn [trace fst]. f_equal. f_equal. exact E.
      + intros Hs. rewrite (port_loop_interrupted os web_dir busy later port Hbusy Hb Hs).
        cbn [trace fst bind_attempts].
        rewrite bind_attempts_app, bind_attempts_binds. reflexivity.
    - intros H0 H1.
      destruct (port_loop_first_bound os web_dir [8080] (Py.range 8082 8090) 8081
                  (Forall_cons _ H0 (Forall_nil _)) H1) as [rest E].
      exists rest. split.
      + cbn [trace fst]. f_equal. f_equal. exact E.
      + simpl. auto.
    - intros Hall. rewrite (port_loop_exhausted os web_dir _ Hall). split; reflexivity.
  Qed.

  (** C8: while the ports are scanned, a bind that fails with an error other
      than address-in-use ends the run at once: the [OSError] leaves [main]
      uncaught (exit status 1) and the failed attempt is the last event of
      the run, so no later candidate is tried. *)
Theorem C8_fatal_bind_error (os : OS) (line web_dir : string)
      (busy later : list Z) (port errno : Z) :
    choose_web_dir os = ([Print line], inl web_dir) ->
    missing_files os web_dir = [] ->
    Py.range PORT (PORT + 10) = busy ++ port :: later ->
    Forall (port_taken os) busy ->
    tcp_bind os port = Some errno ->
    errno <> EADDRINUSE_linux -> errno <> EADDRINUSE_bsd ->
    main os =
      (Print line :: Chdir web_dir :: map Bind busy ++ [Bind port],
       inr (Raised (OSError errno))) /\
    bind_attempts (trace (main os)) = busy ++ [port] /\
    exit_status (outcome (main os)) = Some 1.
  Proof.
    intros Hc Hm Hr Hbusy Hb Hl Hd.
    rewrite (main_reaches_port_loop os line web_dir Hc Hm), Hr.
    rewrite (port_loop_fatal os web_dir busy later port errno Hbusy Hb
               (other_errno errno Hl Hd)).
    split; [reflexivity|]. split; [|reflexivity].
    cbn [trace fst bind_attempts]. rewrite bind_attempts_app, bind_attempts_binds.
    reflexivity.
  Qed.

  (** C9: when Ctrl-C reaches the running server, the run leaves
      [serve_forever], prints the shutdown notice, closes the server and
      [main] returns, so the exit status is 0. Each startup failure (no build
      directory, a required file missing, all ten ports in use, a bind error
      other than address-in-use) gives exit status 1. *)
Theorem C9_exit_status (os : OS) :
    (forall (line web_dir : string) (busy later : list Z) (port : Z),
       choose_web_dir os = ([Print line], inl web_dir) ->
       missing_files os web_dir = [] ->
       Py.range PORT (PORT + 10) = busy ++ port :: later ->
       Forall (port_taken os) busy ->
       tcp_bind os port = None ->
       serve_ends os port = Some KeyboardInterrupt ->
       (exists before,
          trace (main os) =
          before ++ [ServeForever port;
                     Print (Py.nl ++ "🛑 Server stopped by user")%string;
                     ServerClose port]) /\
       outcome (main os) = inl tt /\
       exit_status (outcome (main os)) = Some 0) /\
    (path_exists os (script_dir os // "test-deploy") = false ->
     path_exists os (script_dir os // "dist") = false ->
     exit_status (outcome (main os)) = Some 1) /\
    (forall line web_dir : string,
       choose_web_dir os = ([Print line], inl web_dir) ->
       missing_files os web_dir <> [] ->
       exit_status (outcome (main os)) = Some 1) /\
    (forall line web_dir : string,
       choose_web_dir os = ([Print line], inl web_dir) ->
       missing_files os web_dir = [] ->
       Forall (port_taken os) (Py.range PORT (PORT + 10)) ->
       exit_status (outcome (main os)) = Some 1) /\
    (forall (line web_dir : string) (busy later : list Z) (port errno : Z),
       choose_web_dir os = ([Print line], inl web_dir) ->
       missing_files os web_dir = [] ->
       Py.range PORT (PORT + 10) = busy ++ port :: later ->
       Forall (port_taken os) busy ->
       tcp_bind os port = Some errno ->
       errno <> EADDRINUSE_linux -> errno <> EADDRINUSE_bsd ->
       exit_status (outcome (main os)) = Some 1).
  Proof.
    split; [|split; [|split; [|split]]].
    - intros line web_dir busy later port Hc Hm Hr Hbusy Hb Hs.
      rewrite (main_reaches_port_loop os line web_dir Hc Hm), Hr.
      rewrite (port_loop_interrupted os web_dir busy later port Hbusy Hb Hs).
      split; [|split; reflexivity].
      exists (Print line :: Chdir web_dir :: map Bind busy ++ Bind port
                :: map Print (startup_banner web_dir port)).
      cbn [trace fst]. rewrite <- !app_comm_cons. f_equal. f_equal.
      rewrite <- app_assoc. reflexivity.
    - intros Ht Hd. rewrite (choose_web_dir_unbuilt os Ht Hd). reflexivity.
    - intros line web_dir Hc Hm. rewrite (main_missing os line web_dir Hc Hm). reflexivity.
    - intros line web_dir Hc Hm Hall.
      rewrite (main_reaches_port_loop os line web_dir Hc Hm).
      rewrite (port_loop_exhausted os web_dir _ Hall). reflexivity.
    - intros line web_dir busy later port errno Hc Hm Hr Hbusy Hb Hl Hd.
      rewrite (main_reaches_port_loop os line web_dir Hc Hm), Hr.
      rewrite (port_loop_fatal os web_dir busy later port errno Hbusy Hb
                 (other_errno errno Hl Hd)).
      reflexivity.
  Qed.

  (** *** The claims on sample environments *)

Lemma taken_8080 : port_taken Sample.os_8080_taken 8080.
  Proof. exists 98. split; [reflexivity | now left]. Qed.

Lemma all_taken : Forall (port_taken Sample.os_all_taken) (Py.range PORT (PORT + 10)).
  Proof. repeat constructor; exists 48; (split; [reflexivity | now right]). Qed.

Lemma denied_busy : Forall (port_taken Sample.os_denied) [8080; 8081]%Z.
  Proof. repeat constructor; exists 98; (split; [reflexivity | now left]). Qed.

Lemma C6_directory_resolver_witness :
    (path_exists Sample.os_8080_taken (Sample.base_dir // "test-deploy") = true /\
     printed (trace (main Sample.os_8080_taken)) <> []) /\
    (path_exists Sample.os_dist_only (Sample.base_dir // "dist") = true /\
     hd_error (trace (main Sample.os_dist_only)) = Some (Print "📁 Serving from dist directory")) /\
    (path_exists Sample.os_unbuilt (Sample.base_dir // "dist") = false /\
     exit_status (outcome (main Sample.os_unbuilt)) = Some 1).
  Proof.
    split; [|split].
    - split; [reflexivity|].
      rewrite (proj1 (proj1 (C6_directory_resolver Sample.os_8080_taken) eq_refl)).
      discriminate.
    - split; [reflexivity|].
      rewrite (proj1 (proj1 (proj2 (C6_directory_resolver Sample.os_dist_only))
                              eq_refl eq_refl)).
      reflexivity.
    - split; [reflexivity|].
      exact (proj2 (proj2 (proj2 (C6_directory_resolver Sample.os_unbuilt)) eq_refl eq_refl)).
  Defined.

Lemma C7_artifact_validator_witness :
    (missing_files Sample.os_no_wasm (Sample.base_dir // "test-deploy")
       = ["pkg/echoes_rpg_bg.wasm"%string] /\
     In (Print "   - pkg/echoes_rpg_bg.wasm") (trace (main Sample.os_no_wasm)) /\
     exit_status (outcome (main Sample.os_no_wasm)) = Some 1) /\
    (missing_files Sample.os_8080_taken (Sample.base_dir // "test-deploy") = [] /\
     check_required_files Sample.os_8080_taken (Sample.base_dir // "test-deploy")
       = ([], inl tt)).
  Proof.
    split.
    - split; [reflexivity|].
      exact (proj1 (proj2 (proj2 (proj2
               (C7_artifact_validator Sample.os_no_wasm (Sample.base_dir // "test-deploy")))))
               eq_refl eq_refl).
    - split; [reflexivity|].
      exact (proj1 (proj2 (proj2 (proj2 (proj2
               (C7_artifact_validator Sample.os_8080_taken (Sample.base_dir // "test-deploy")))))
               eq_refl)).
  Defined.

Lemma C4_port_binder_witness :
    (port_taken Sample.os_8080_taken 8080 /\
     tcp_bind Sample.os_8080_taken 8081 = None /\
     bind_attempts (trace (main Sample.os_8080_taken)) = [8080; 8081]%Z) /\
    (Forall (port_taken Sample.os_all_taken) (Py.range PORT (PORT + 10)) /\
     exit_status (outcome (main Sample.os_all_taken)) = Some 1).
  Proof.
    split.
    - split; [exact taken_8080|]. split; [reflexivity|].
      destruct (C4_port_binder Sample.os_8080_taken
                  "📁 Serving from test-deploy directory"
                  (Sample.base_dir // "test-deploy") eq_refl eq_refl)
        as (_ & Hfirst & _ & _).
      exact (proj2 (Hfirst [8080%Z] (Py.range 8082 8090) 8081 eq_refl
                      (Forall_cons _ taken_8080 (Forall_nil _)) eq_refl) eq_refl).
    - split; [exact all_taken|].
      destruct (C4_port_binder Sample.os_all_taken
                  "📁 Serving from test-deploy directory"
                  (Sample.base_dir // "test-deploy") eq_refl eq_refl)
        as (_ & _ & _ & Hall).
      exact (proj2 (Hall all_taken)).
  Defined.

Lemma C8_fatal_bind_error_witness :
    tcp_bind Sample.os_denied 8082 = Some 13 /\
    13 <> EADDRINUSE_linux /\ 13 <> EADDRINUSE_bsd /\
    bind_attempts (trace (main Sample.os_denied)) = [8080; 8081; 8082]%Z /\
    outcome (main Sample.os_denied) = inr (Raised (OSError 13)).
  Proof.
    split; [reflexivity|]. split; [discriminate|]. split; [discriminate|].
    destruct (C8_fatal_bind_error Sample.os_denied
                "📁 Serving from test-deploy directory"
                (Sample.base_dir // "test-deploy")
                [8080; 8081]%Z (Py.range 8083 8090) 8082 13
                eq_refl eq_refl eq_refl denied_busy eq_refl
                ltac:(discriminate) ltac:(discriminate))
      as (Hrun & Hports & _).
    split; [exact Hports|]. rewrite Hrun. reflexivity.
  Defined.

Lemma C9_exit_status_witness :
    (serve_ends Sample.os_8080_taken 8081 = Some KeyboardInterrupt /\
     exit_status (outcome (main Sample.os_8080_taken)) = Some 0) /\
    exit_status (outcome (main Sample.os_unbuilt)) = Some 1 /\
    exit_status (outcome (main Sample.os_no_wasm)) = Some 1 /\
    exit_status (outcome (main Sample.os_all_taken)) = Some 1 /\
    exit_status (outcome (main Sample.os_denied)) = Some 1.
  Proof.
    split; [split; [reflexivity|]|split; [|split; [|split]]].
    - destruct (C9_exit_status Sample.os_8080_taken) as (Hint & _).
      exact (proj2 (proj2 (Hint "📁 Serving from test-deploy directory"%string
                             (Sample.base_dir // "test-deploy")
                             [8080%Z] (Py.range 8082 8090) 8081
                             eq_refl eq_refl eq_refl
                             (Forall_cons _ taken_8080 (Forall_nil _)) eq_refl eq_refl))).
    - destruct (C9_exit_status Sample.os_unbuilt) as (_ & Hdir & _).
      exact (Hdir eq_refl eq_refl).
    - destruct (C9_exit_status Sample.os_no_wasm) as (_ & _ & Hmiss & _).
      apply (Hmiss "📁 Serving from test-deploy directory"%string
                   (Sample.base_dir // "test-deploy") eq_refl).
      discriminate.
    - destruct (C9_exit_status Sample.os_all_taken) as (_ & _ & _ & Hports & _).
      exact (Hports "📁 Serving from test-deploy directory"%string
                    (Sample.base_dir // "test-deploy") eq_refl eq_refl all_taken).
    - destruct (C9_exit_status Sample.os_denied) as (_ & _ & _ & _ & Hfatal).
      exact (Hfatal "📁 Serving from test-deploy directory"%string
                    (Sample.base_dir // "test-deploy")
                    [8080; 8081]%Z (Py.range 8083 8090) 8082 13
                    eq_refl eq_refl eq_refl denied_busy eq_refl
                    ltac:(discriminate) ltac:(discriminate)).
  Defined.

End StartupClaims.

(** ** The handler: what each method does to the handler object

    Every method leaves the request alone and adds to the header buffer, to
    the bytes written, to the lines printed and to the file system calls:
    on a handler [with_io h b w o c] it gives [with_io h b' w' o' c']. What
    is buffered is [heads h ...]: nothing when the request is HTTP/0.9. *)

Section HandlerRun.

Variable host : Host.

Local Open Scope list_scope.

Lemma with_io_ext (h : handler) (b w w' : list wire) (o : list string)
      (c c' : list fs_call) :
    w = w' -> c = c' -> with_io h b w o c = with_io h b w' o c'.
  Proof. now intros -> ->. Qed.

Lemma with_io_eq_full (h : handler) (b w w' : list wire) (o o' : list string)
      (c : list fs_call) :
    w = w' -> o = o' -> with_io h b w o c = with_io h b w' o' c.
  Proof. now intros -> ->. Qed.

Lemma with_io_self (h : handler) :
    h = with_io h (headers_buffer h) (wfile h) (stdout h) (fs_log h).
  Proof. now destruct h. Qed.

Lemma heads_nil (h : handler) : heads h [] = [].
  Proof. unfold heads. now destruct (String.eqb _ _). Qed.

Lemma heads_app (h : handler) (a b : list wire) :
    heads h (a ++ b) = heads h a ++ heads h b.
  Proof. unfold heads. now destruct (String.eqb _ _). Qed.

Lemma heads_with_io (h : handler) b w o c (ws : list wire) :
    heads (with_io h b w o c) ws = heads h ws.
  Proof. reflexivity. Qed.

Lemma path_with_io (h : handler) b w o c : path (with_io h b w o c) = path h.
  Proof. reflexivity. Qed.

Lemma command_with_io (h : handler) b w o c : command (with_io h b w o c) = command h.
  Proof. reflexivity. Qed.

Lemma headers_with_io (h : handler) b w o c : headers (with_io h b w o c) = headers h.
  Proof. reflexivity. Qed.

Lemma directory_with_io (h : handler) b w o c :
    directory (with_io h b w o c) = directory h.
  Proof. reflexivity. Qed.

Lemma with_io_with_io (h : handler) b w o c b' w' o' c' :
    with_io (with_io h b w o c) b' w' o' c' = with_io h b' w' o' c'.
  Proof. reflexivity. Qed.

Lemma send_header_io (keyword value : string) (h : handler) b0 w o c :
    BaseHTTPRequestHandler.send_header keyword value (with_io h (heads h b0) w o c) =
    with_io h (heads h (b0 ++ [HeaderLine keyword value])) w o c.
  Proof.
    unfold BaseHTTPRequestHandler.send_header, heads.
    change (request_version (with_io h ?b ?w' ?o' ?c')) with (request_version h).
    destruct (String.eqb (request_version h) "HTTP/0.9"); reflexivity.
  Qed.

Lemma fs_record_io (call : fs_call) (h : handler) b w o c :
    fs_record call (with_io h b w o c) = with_io h b w o (c ++ [call]).
  Proof. reflexivity. Qed.

Lemma wfile_write_io (ws : list wire) (h : handler) b w o c :
    wfile_write ws (with_io h b w o c) = with_io h b (w ++ ws) o c.
  Proof. reflexivity. Qed.

Lemma base_end_headers_io (h : handler) b0 w o c :
    BaseHTTPRequestHandler.end_headers (with_io h (heads h b0) w o c) =
    with_io h [] (w ++ heads h (b0 ++ [BlankLine])) o c.
  Proof.
    unfold BaseHTTPRequestHandler.end_headers, heads.
    change (request_version (with_io h ?b ?w' ?o' ?c')) with (request_version h).
    destruct (String.eqb (request_version h) "HTTP/0.9"); cbn [negb].
    - now rewrite app_nil_r.
    - reflexivity.
  Qed.

  (** [send_response] buffers the status line, Server and Date, and logs the
      request. *)
Lemma send_response_io (code : Z) (message : string) (h : handler) b0 w o c :
    BaseHTTPRequestHandler.send_response host (GameHTTPRequestHandler.log_message host)
      code (Some message) (with_io h (heads h b0) w o c) =
    with_io h (heads h (b0 ++ response_head host code message)) w
      (o ++ [request_log host h code]) c.
  Proof.
    unfold BaseHTTPRequestHandler.send_response, BaseHTTPRequestHandler.log_request,
      GameHTTPRequestHandler.log_message.
    change (stdout_print ?line (with_io h ?b ?w' ?o' ?c'))
      with (with_io h b w' (o' ++ [line]) c').
    change (requestline (with_io h ?b ?w' ?o' ?c')) with (requestline h).
    cbv zeta.
    assert (E : forall b1 o1,
               BaseHTTPRequestHandler.send_response_only code (Some message)
                 (with_io h (heads h b1) w o1 c) =
               with_io h (heads h (b1 ++ [StatusLine BaseHTTPRequestHandler.protocol_version
                                            code message])) w o1 c).
    { intros b1 o1. unfold BaseHTTPRequestHandler.send_response_only, heads.
      change (request_version (with_io h ?b ?w' ?o' ?c')) with (request_version h).
      destruct (String.eqb (request_version h) "HTTP/0.9"); reflexivity. }
    rewrite E, !send_header_io.
    unfold request_log, response_head. rewrite <- !app_assoc. reflexivity.
  Qed.

Lemma send_response_default (code : Z) (short long : string) (h : handler) :
    responses code = Some (short, long) ->
    BaseHTTPRequestHandler.send_response host (GameHTTPRequestHandler.log_message host)
      code None h =
    BaseHTTPRequestHandler.send_response host (GameHTTPRequestHandler.log_message host)
      code (Some short) h.
  Proof.
    intros E. unfold BaseHTTPRequestHandler.send_response,
      BaseHTTPRequestHandler.send_response_only.
    now rewrite E.
  Qed.

  (** The overriding [end_headers] adds the three CORS headers and the
      content type chosen from the request path to what is buffered, then the
      blank line, and writes the buffer out. *)
Lemma end_headers_io (p : string) (h : handler) b0 w o c :
    path h = Some p ->
    GameHTTPRequestHandler.end_headers (with_io h (heads h b0) w o c) =
    Ok tt (with_io h []
             (w ++ heads h (b0 ++ cors_headers ++ suffix_headers p ++ [BlankLine])) o c).
  Proof.
    intros Hp.
    unfold GameHTTPRequestHandler.end_headers, GameHTTPRequestHandler.send_header.
    rewrite !send_header_io. cbv zeta. unfold self_path.
    rewrite path_with_io, Hp. cbn [and_then].
    unfold suffix_headers, suffix_content_type.
    destruct (Py.endswith p ".wasm");
      [|destruct (Py.endswith p ".js");
        [|destruct (Py.endswith p ".html")]];
      rewrite ?send_header_io, base_end_headers_io;
      (apply f_equal; apply with_io_ext; [|reflexivity]);
      unfold cors_headers; cbn [map]; rewrite <- ?app_assoc; reflexivity.
  Qed.

  (** While [self.path] is not set, the overriding [end_headers] raises
      [AttributeError] after it buffered the three CORS headers: nothing is
      written. *)
Lemma end_headers_unset (h : handler) b0 w o c :
    path h = None ->
    GameHTTPRequestHandler.end_headers (with_io h (heads h b0) w o c) =
    Exc (AttributeError "path") (with_io h (heads h (b0 ++ cors_headers)) w o c).
  Proof.
    intros Hp.
    unfold GameHTTPRequestHandler.end_headers, GameHTTPRequestHandler.send_header.
    rewrite !send_header_io. cbv zeta. unfold self_path.
    rewrite path_with_io, Hp. cbn [and_then].
    unfold cors_headers. rewrite <- ?app_assoc. reflexivity.
  Qed.

Lemma and_then_ext {A B} (m : result A) (k k' : A -> handler -> result B) :
    (forall a h, k a h = k' a h) -> and_then m k = and_then m k'.
  Proof. intros E. destruct m; [apply E | reflexivity]. Qed.

Lemma send_error_unfold (code : Z) (message : string) (explain : option string)
      (h : handler) :
    has_page code = true ->
    BaseHTTPRequestHandler.send_error host GameHTTPRequestHandler.end_headers
      (GameHTTPRequestHandler.log_message host) code (Some message) explain h =
    let page := error_page host code message (explanation code explain) in
    let h := GameHTTPRequestHandler.log_message host
               ("code " ++ Py.str_int code ++ ", message " ++ message) h in
    let h := BaseHTTPRequestHandler.send_response host
               (GameHTTPRequestHandler.log_message host) code (Some message) h in
    let h := BaseHTTPRequestHandler.send_header "Connection" "close" h in
    let h := BaseHTTPRequestHandler.send_header "Content-Type"
               BaseHTTPRequestHandler.error_content_type h in
    let h := BaseHTTPRequestHandler.send_header "Content-Length"
               (Py.str_int (Z.of_nat (String.length page))) h in
    and_then (GameHTTPRequestHandler.end_headers h)
      (fun _ h =>
         if (negb match command h with
                  | Some c => String.eqb c "HEAD"
                  | None => false
                  end && negb (String.eqb page ""))%bool
         then Ok tt (wfile_write [Data page] h) else Ok tt h).
  Proof.
    intros Hbody. unfold has_page in Hbody.
    unfold BaseHTTPRequestHandler.send_error, explanation,
      BaseHTTPRequestHandler.log_error.
    revert Hbody.
    generalize ((200 <=? code) && negb ((code =? 204) || (code =? 205) || (code =? 304))).
    intros with_body ->.
    destruct (responses code) as [[s l]|]; destruct explain; cbv zeta;
      apply and_then_ext; intros _ h'; now rewrite andb_true_r.
  Qed.

  (** [send_error] for a code that comes with a page, once the path of the
      request is known. *)
Lemma send_error_io (p cmd : string) (code : Z) (message : string)
      (explain : option string) (h : handler) b0 w o c :
    path h = Some p -> command h = Some cmd ->
    has_page code = true ->
    BaseHTTPRequestHandler.send_error host GameHTTPRequestHandler.end_headers
      (GameHTTPRequestHandler.log_message host) code (Some message) explain
      (with_io h (heads h b0) w o c) =
    Ok tt
      (with_io h []
         ((w ++ heads h (b0 ++ error_head_of host code message
                                 (error_page host code message (explanation code explain))
                            ++ cors_headers ++ suffix_headers p ++ [BlankLine]))
          ++ error_data_of cmd (error_page host code message (explanation code explain)))
         (o ++ [error_log host code message; request_log host h code]) c).
  Proof.
    intros Hp Hc Hbody.
    rewrite send_error_unfold by exact Hbody. cbv zeta.
    unfold GameHTTPRequestHandler.log_message.
    change (stdout_print ?line (with_io h ?b ?w' ?o' ?c'))
      with (with_io h b w' (o' ++ [line]) c').
    rewrite send_response_io, !send_header_io, (end_headers_io p) by exact Hp.
    cbn [and_then]. rewrite command_with_io, Hc.
    unfold error_data_of.
    set (page := error_page host code message (explanation code explain)).
    destruct (String.eqb cmd "HEAD"); destruct (String.eqb page "");
      cbn [negb andb]; rewrite ?wfile_write_io, ?app_nil_r;
      (apply f_equal; apply with_io_eq_full;
       [ unfold error_head_of; rewrite <- ?app_assoc; cbn [app]; reflexivity
       | unfold error_log, request_log; rewrite <- ?app_assoc; reflexivity ]).
  Qed.

  (** [send_error] while [self.path] is not set: the two lines are logged,
      the exception of [end_headers] leaves the method, nothing is written. *)
Lemma send_error_unset (code : Z) (message : string) (explain : option string)
      (h : handler) b0 w o c :
    path h = None -> has_page code = true ->
    exists buf,
      BaseHTTPRequestHandler.send_error host GameHTTPRequestHandler.end_headers
        (GameHTTPRequestHandler.log_message host) code (Some message) explain
        (with_io h (heads h b0) w o c) =
      Exc (AttributeError "path")
        (with_io h buf w
           (o ++ [error_log host code message; request_log host h code]) c).
  Proof.
    intros Hp Hbody.
    rewrite send_error_unfold by exact Hbody. cbv zeta.
    unfold GameHTTPRequestHandler.log_message.
    change (stdout_print ?line (with_io h ?b ?w' ?o' ?c'))
      with (with_io h b w' (o' ++ [line]) c').
    rewrite send_response_io, !send_header_io, end_headers_unset by exact Hp.
    cbn [and_then]. eexists. apply f_equal. apply with_io_eq_full; [reflexivity|].
    unfold error_log, request_log. rewrite <- ?app_assoc. reflexivity.
  Qed.

  (** [do_OPTIONS]: status 200 and the headers, nothing else. *)
Lemma do_OPTIONS_io (p : string) (h : handler) b0 w o c :
    path h = Some p ->
    GameHTTPRequestHandler.do_OPTIONS host (with_io h (heads h b0) w o c) =
    Ok tt
      (with_io h []
         (w ++ heads h (b0 ++ response_head host 200 "OK"
                          ++ cors_headers ++ suffix_headers p ++ [BlankLine]))
         (o ++ [request_log host h 200]) c).
  Proof.
    intros Hp.
    unfold GameHTTPRequestHandler.do_OPTIONS, GameHTTPRequestHandler.send_response.
    rewrite (send_response_default 200 "OK" "Request fulfilled, document follows" _ eq_refl).
    rewrite send_response_io, (end_headers_io p) by exact Hp.
    apply f_equal. apply with_io_eq_full; [|reflexivity].
    rewrite <- ?app_assoc. reflexivity.
  Qed.

End HandlerRun.

(** ** The handler: the inherited GET and HEAD *)

Section HandlerServed.

Variable host : Host.

Local Open Scope list_scope.

  (** *** [translate_path] stays under the served directory *)

Lemma split_no_sep (sep : ascii) (s w : string) :
    In w (Py.split sep s) -> Py.contains sep w = false.
  Proof.
    revert w. induction s as [|a s IH]; simpl; intros w Hin.
    - destruct Hin as [<-|[]]. reflexivity.
    - destruct (Ascii.eqb a sep) eqn:E.
      + destruct Hin as [<-|Hin]; [reflexivity|]. now apply IH.
      + destruct (Py.split sep s) as [|w0 ws] eqn:Es.
        * destruct Hin as [<-|[]]. simpl. now rewrite E.
        * destruct Hin as [<-|Hin].
          -- simpl. rewrite E. simpl. apply IH. now left.
          -- apply IH. now right.
  Qed.

Lemma translate_word_under (root p w : string) :
    under root p -> w <> ""%string -> Py.contains "/" w = false ->
    under root (SimpleHTTPRequestHandler.translate_word p w).
  Proof.
    intros Hp Hne Hsl. unfold SimpleHTTPRequestHandler.translate_word.
    destruct (negb (Posixpath.dirname w =? "")%string); [exact Hp|].
    destruct (w =? ".")%string eqn:E1; [exact Hp|].
    destruct (w =? "..")%string eqn:E2; [exact Hp|].
    simpl. apply under_name; [exact Hp|].
    apply String.eqb_neq in E1, E2. repeat split; assumption.
  Qed.

Lemma translate_words_under (root : string) (words : list string) (p : string) :
    under root p ->
    Forall (fun w => w <> ""%string /\ Py.contains "/" w = false) words ->
    under root (fold_left SimpleHTTPRequestHandler.translate_word words p).
  Proof.
    intros Hp Hw. revert p Hp.
    induction Hw as [|w words [Hne Hsl] _ IH]; intros p Hp; simpl.
    - exact Hp.
    - apply IH. now apply translate_word_under.
  Qed.

  (** Whatever the request path, [translate_path] gives a path reached from
      the served directory through plain names: [..] segments and absolute
      parts never take it anywhere else. *)
Lemma translate_path_under (web_dir request_path : string) :
    under web_dir (SimpleHTTPRequestHandler.translate_path host web_dir request_path).
  Proof.
    unfold SimpleHTTPRequestHandler.translate_path.
    set (words := filter _ _).
    assert (Hw : Forall (fun w => w <> ""%string /\ Py.contains "/" w = false) words).
    { apply Forall_forall. intros w Hin. apply filter_In in Hin.
      destruct Hin as [Hin Hne]. split.
      - intros ->. discriminate.
      - eapply split_no_sep; eassumption. }
    pose proof (translate_words_under web_dir words web_dir (under_root _) Hw) as Hu.
    destruct (Py.endswith _ "/"); [apply under_slash|]; exact Hu.
  Qed.

Lemma first_index_under (web_dir dir q : string) :
    under web_dir dir -> first_index host dir = Some q -> under web_dir q.
  Proof.
    intros Hd. unfold first_index.
    destruct (os_path_isfile host (Posixpath.join dir "index.html")).
    { intros [= <-]. apply under_name; [exact Hd|]. repeat split; discriminate. }
    destruct (os_path_isfile host (Posixpath.join dir "index.htm")); [|discriminate].
    intros [= <-]. apply under_name; [exact Hd|]. repeat split; discriminate.
  Qed.

  (** The file looked up for a request path is under the served directory. *)
Lemma looks_up_under (web_dir p q : string) :
    looks_up host web_dir p q -> under web_dir q.
  Proof.
    destruct 1 as [_|q _ Hi].
    - apply translate_path_under.
    - eapply first_index_under; [apply translate_path_under | exact Hi].
  Qed.

  (** *** The file system calls *)

Lemma opens_app (a b : list fs_call) : opens (a ++ b) = opens a ++ opens b.
  Proof.
    induction a as [|c a IH]; simpl; [reflexivity|].
    destruct c; simpl; now rewrite IH.
  Qed.

Lemma call_ok_under (web_dir : string) (call : fs_call) :
    under web_dir (fs_path call) -> (forall file, call <> OpenText file) ->
    call_ok host web_dir call.
  Proof. intros Hu Hn. left. now split. Qed.

Lemma find_index_io (web_dir dir : string) (h : handler) b w o c :
    under web_dir dir ->
    exists probes,
      SimpleHTTPRequestHandler.find_index host dir ["index.html"; "index.htm"]%string
        (with_io h b w o c) =
        (first_index host dir, with_io h b w o (c ++ probes)) /\
      opens probes = [] /\
      Forall (call_ok host web_dir) probes.
  Proof.
    intros Hd.
    assert (H1 : call_ok host web_dir (Isfile (Posixpath.join dir "index.html"))).
    { apply call_ok_under; [|discriminate].
      apply under_name; [exact Hd|]. repeat split; discriminate. }
    assert (H2 : call_ok host web_dir (Isfile (Posixpath.join dir "index.htm"))).
    { apply call_ok_under; [|discriminate].
      apply under_name; [exact Hd|]. repeat split; discriminate. }
    cbn [SimpleHTTPRequestHandler.find_index]. unfold first_index.
    rewrite fs_record_io.
    destruct (os_path_isfile host (Posixpath.join dir "index.html")).
    { exists [Isfile (Posixpath.join dir "index.html")].
      split; [reflexivity|]. split; [reflexivity|].
      constructor; [assumption | constructor]. }
    rewrite fs_record_io.
    destruct (os_path_isfile host (Posixpath.join dir "index.htm")).
    - exists [Isfile (Posixpath.join dir "index.html");
              Isfile (Posixpath.join dir "index.htm")].
      rewrite <- app_assoc. split; [reflexivity|]. split; [reflexivity|].
      constructor; [assumption | constructor; [assumption | constructor]].
    - exists [Isfile (Posixpath.join dir "index.html");
              Isfile (Posixpath.join dir "index.htm")].
      rewrite <- app_assoc. split; [reflexivity|]. split; [reflexivity|].
      constructor; [assumption | constructor; [assumption | constructor]].
  Qed.

Lemma mimetypes_reads_io (web_dir : string) (files : list string) (h : handler) b w o c :
    incl files Mimetypes.knownfiles ->
    exists reads,
      fold_left (SimpleHTTPRequestHandler.mimetypes_read host) files (with_io h b w o c) =
      with_io h b w o (c ++ reads) /\
      opens reads = [] /\
      Forall (call_ok host web_dir) reads.
  Proof.
    revert c. induction files as [|file files IH]; intros c Hin.
    - exists []. rewrite app_nil_r. repeat split. constructor.
    - assert (Hf : In file Mimetypes.knownfiles) by (apply Hin; now left).
      assert (Hfs : incl files Mimetypes.knownfiles).
      { intros x Hx. apply Hin. now right. }
      assert (Hi : call_ok host web_dir (Isfile file)).
      { right. right. exists file. split; [exact Hf | now left]. }
      assert (Ho : call_ok host web_dir (OpenText file)).
      { right. right. exists file. split; [exact Hf | now right]. }
      cbn [fold_left]. unfold SimpleHTTPRequestHandler.mimetypes_read at 2.
      cbv zeta. rewrite fs_record_io.
      destruct (os_path_isfile host file).
      + rewrite fs_record_io.
        destruct (IH ((c ++ [Isfile file]) ++ [OpenText file]) Hfs)
          as (reads & E & Hop & Hok).
        exists (Isfile file :: OpenText file :: reads).
        rewrite E, <- !app_assoc. split; [reflexivity|]. split; [exact Hop|].
        constructor; [assumption | constructor; assumption].
      + destruct (IH (c ++ [Isfile file]) Hfs) as (reads & E & Hop & Hok).
        exists (Isfile file :: reads).
        rewrite E, <- !app_assoc. split; [reflexivity|]. split; [exact Hop|].
        constructor; assumption.
  Qed.

Lemma guess_type_reads_io (web_dir q : string) (h : handler) b w o c :
    exists reads,
      SimpleHTTPRequestHandler.guess_type_reads host q (with_io h b w o c) =
      with_io h b w o (c ++ reads) /\
      opens reads = [] /\
      Forall (call_ok host web_dir) reads.
  Proof.
    assert (Hnone : exists reads,
               with_io h b w o c = with_io h b w o (c ++ reads) /\
               opens reads = [] /\ Forall (call_ok host web_dir) reads).
    { exists []. rewrite app_nil_r. repeat split. constructor. }
    unfold SimpleHTTPRequestHandler.guess_type_reads. cbv zeta.
    destruct (SimpleHTTPRequestHandler.extensions_map _); [exact Hnone|].
    destruct (SimpleHTTPRequestHandler.extensions_map _); [exact Hnone|].
    destruct (mimetypes_loaded host); [exact Hnone|].
    apply mimetypes_reads_io. intros x Hx. exact Hx.
  Qed.

Lemma in_insert_by (key : string -> string) (x y : string) (l : list string) :
    In y (Pylist.insert_by key x l) <-> y = x \/ In y l.
  Proof.
    induction l as [|z l IH]; simpl.
    - intuition.
    - destruct (String.leb (key x) (key z)); simpl; [intuition|].
      rewrite IH. intuition.
  Qed.

Lemma in_sort_by (key : string -> string) (y : string) (l : list string) :
    In y (Pylist.sort_by key l) <-> In y l.
  Proof.
    induction l as [|x l IH]; simpl; [tauto|].
    rewrite in_insert_by, IH. intuition.
  Qed.

Lemma entries_io (web_dir dir : string) (names entries : list string)
      (h : handler) b w o c :
    under web_dir dir -> os_listdir host dir = Some names ->
    incl entries names ->
    exists probes,
      fold_left (SimpleHTTPRequestHandler.probe_entry dir) entries (with_io h b w o c) =
      with_io h b w o (c ++ probes) /\
      opens probes = [] /\
      Forall (call_ok host web_dir) probes.
  Proof.
    intros Hd Hl. revert c. induction entries as [|name entries IH]; intros c Hin.
    - exists []. rewrite app_nil_r. repeat split. constructor.
    - assert (Hn : In name names) by (apply Hin; now left).
      assert (Hes : incl entries names).
      { intros x Hx. apply Hin. now right. }
      cbn [fold_left]. unfold SimpleHTTPRequestHandler.probe_entry at 2.
      cbv zeta. rewrite !fs_record_io.
      destruct (IH ((c ++ [Isdir (Posixpath.join dir name)])
                      ++ [Islink (Posixpath.join dir name)]) Hes)
        as (probes & E & Hop & Hok).
      exists (Isdir (Posixpath.join dir name) :: Islink (Posixpath.join dir name)
                :: probes).
      rewrite E, <- !app_assoc. split; [reflexivity|]. split; [exact Hop|].
      constructor; [|constructor; [|exact Hok]].
      + right. left. exists dir, names, name. repeat split; try assumption. now left.
      + right. left. exists dir, names, name. repeat split; try assumption. now right.
  Qed.

  (** *** [send_head] *)

Lemma start_io (h : handler) w o c :
    with_io h [] w o c = with_io h (heads h []) w o c.
  Proof. now rewrite heads_nil. Qed.

Lemma send_error_answered (web_dir c p : string) (message : string) (h : handler)
      (calls : list fs_call) :
    command h = Some c -> path h = Some p ->
    Forall (call_ok host web_dir) calls ->
    served host web_dir c p (headers h)
      (Sent 404 (Some message) (error_head host 404 message)
         (error_data host c 404 message)) calls ->
    answered host web_dir c p h
      (and_then
         (BaseHTTPRequestHandler.send_error host GameHTTPRequestHandler.end_headers
            (GameHTTPRequestHandler.log_message host) 404 (Some message) None
            (with_io h [] [] [] calls))
         (fun _ h' => Ok None h')).
  Proof.
    intros Hc Hp Hok Hs.
    rewrite start_io, (send_error_io host p c) by (assumption || reflexivity).
    cbn [and_then app].
    exists (Sent 404 (Some message) (error_head host 404 message)
              (error_data host c 404 message)), None, calls.
    split; [reflexivity|]. split; [exact Hok|].
    cbn [with_file]. now rewrite app_nil_r.
  Qed.

Lemma send_file_head_answered (web_dir c p q : string) (h : handler)
      (c0 : list fs_call) :
    command h = Some c -> path h = Some p -> c = "GET"%string \/ c = "HEAD"%string ->
    looks_up host web_dir p q ->
    opens c0 = [] -> Forall (call_ok host web_dir) c0 ->
    answered host web_dir c p h
      (SimpleHTTPRequestHandler.send_file_head host
         GameHTTPRequestHandler.end_headers (GameHTTPRequestHandler.log_message host)
         q (with_io h [] [] [] c0)).
  Proof.
    intros Hc Hp Hgh Hq Ho Hok.
    pose proof (looks_up_under _ _ _ Hq) as Hu.
    unfold SimpleHTTPRequestHandler.send_file_head. cbv zeta.
    destruct (guess_type_reads_io web_dir q h [] [] [] c0) as (reads & -> & Hor & Hokr).
    assert (Ho1 : opens (c0 ++ reads) = []) by now rewrite opens_app, Ho, Hor.
    assert (Hok1 : Forall (call_ok host web_dir) (c0 ++ reads)).
    { apply Forall_app. now split. }
    destruct (Py.endswith q "/") eqn:Eslash.
    { apply send_error_answered; try assumption.
      eapply served_not_found; [exact Hgh | exact Hq |]. left. now split. }
    rewrite fs_record_io.
    assert (Ho2 : opens ((c0 ++ reads) ++ [Open q]) = [q]) by now rewrite opens_app, Ho1.
    assert (Hok2 : Forall (call_ok host web_dir) ((c0 ++ reads) ++ [Open q])).
    { apply Forall_app. split; [exact Hok1|].
      constructor; [|constructor]. apply call_ok_under; [exact Hu | discriminate]. }
    destruct (open_rb host q) as [f| |e] eqn:Eopen.
    - rewrite fs_record_io, headers_with_io.
      assert (Ho3 : opens (((c0 ++ reads) ++ [Open q]) ++ [Fstat q]) = [q]).
      { now rewrite opens_app, Ho2. }
      assert (Hok3 : Forall (call_ok host web_dir)
                       (((c0 ++ reads) ++ [Open q]) ++ [Fstat q])).
      { apply Forall_app. split; [exact Hok2|].
        constructor; [|constructor]. apply call_ok_under; [exact Hu | discriminate]. }
      destruct (not_modified host (headers h) f) eqn:Enm.
      + rewrite (send_response_default host 304 "Not Modified"
                   "Document has not changed since given time" _ eq_refl).
        rewrite start_io, send_response_io, (end_headers_io p) by exact Hp.
        cbn [and_then app].
        exists (Sent 304 None (response_head host 304 "Not Modified") []), None,
               (((c0 ++ reads) ++ [Open q]) ++ [Fstat q]).
        split; [cbn [exchange_result]; now rewrite app_nil_r|].
        split; [exact Hok3|].
        cbn [with_file app]. eapply served_not_modified; eassumption.
      + rewrite (send_response_default host 200 "OK"
                   "Request fulfilled, document follows" _ eq_refl).
        rewrite start_io, send_response_io, !send_header_io, (end_headers_io p)
          by exact Hp.
        cbn [and_then app].
        exists (Sent 200 None (file_head host q f) []), (Some (content f)),
               (((c0 ++ reads) ++ [Open q]) ++ [Fstat q]).
        split.
        { cbn [exchange_result]. rewrite app_nil_r. unfold file_head.
          rewrite <- ?app_assoc. reflexivity. }
        split; [exact Hok3|].
        cbn [with_file app]. eapply served_file; eassumption.
    - apply send_error_answered; try assumption.
      eapply served_not_found; [exact Hgh | exact Hq |]. right. now repeat split.
    - exists (Failed e), None, ((c0 ++ reads) ++ [Open q]).
      split; [reflexivity|]. split; [exact Hok2|].
      cbn [with_file]. eapply served_open_raises; eassumption.
  Qed.

Lemma list_directory_answered (web_dir c p : string) (h : handler)
      (c0 : list fs_call) :
    command h = Some c -> path h = Some p -> c = "GET"%string \/ c = "HEAD"%string ->
    names_directory host web_dir p ->
    first_index host (SimpleHTTPRequestHandler.translate_path host web_dir p) = None ->
    opens c0 = [] -> Forall (call_ok host web_dir) c0 ->
    answered host web_dir c p h
      (SimpleHTTPRequestHandler.list_directory host
         GameHTTPRequestHandler.end_headers (GameHTTPRequestHandler.log_message host)
         (SimpleHTTPRequestHandler.translate_path host web_dir p)
         (with_io h [] [] [] c0)).
  Proof.
    intros Hc Hp Hgh Hnd Hfi Ho Hok.
    pose proof (translate_path_under web_dir p) as Hu.
    set (tp := SimpleHTTPRequestHandler.translate_path host web_dir p) in *.
    unfold SimpleHTTPRequestHandler.list_directory. cbv zeta.
    rewrite fs_record_io.
    assert (Ho1 : opens (c0 ++ [Listdir tp]) = []) by now rewrite opens_app, Ho.
    assert (Hok1 : Forall (call_ok host web_dir) (c0 ++ [Listdir tp])).
    { apply Forall_app. split; [exact Hok|].
      constructor; [|constructor]. apply call_ok_under; [exact Hu | discriminate]. }
    destruct (os_listdir host tp) as [names|] eqn:El.
    - unfold self_path. rewrite path_with_io, Hp. cbn [and_then].
      destruct (entries_io web_dir tp names (Pylist.sort_by Py.lower names)
                  h [] [] [] (c0 ++ [Listdir tp]) Hu El)
        as (probes & -> & Hop & Hokp).
      { intros x Hx. now apply in_sort_by in Hx. }
      rewrite (send_response_default host 200 "OK"
                 "Request fulfilled, document follows" _ eq_refl).
      rewrite start_io, send_response_io, !send_header_io, (end_headers_io p)
        by exact Hp.
      cbn [and_then app].
      set (page := listing_page host p tp (Pylist.sort_by Py.lower names)).
      exists (Sent 200 None (listing_head host page) []), (Some page),
             ((c0 ++ [Listdir tp]) ++ probes).
      split.
      { cbn [exchange_result]. rewrite app_nil_r. unfold listing_head.
        rewrite <- ?app_assoc. reflexivity. }
      split; [apply Forall_app; now split|].
      cbn [with_file app]. eapply served_listing; try eassumption; try reflexivity.
      now rewrite opens_app, Ho1, Hop.
    - apply send_error_answered; try assumption.
      eapply served_list_denied; eassumption.
  Qed.

Lemma send_head_answered (c p : string) (h : handler) :
    command h = Some c -> path h = Some p -> c = "GET"%string \/ c = "HEAD"%string ->
    answered host (directory h) c p h
      (SimpleHTTPRequestHandler.send_head host
         GameHTTPRequestHandler.end_headers (GameHTTPRequestHandler.log_message host)
         (with_io h [] [] [] [])).
  Proof.
    intros Hc Hp Hgh.
    unfold SimpleHTTPRequestHandler.send_head. cbv zeta.
    unfold self_path. rewrite path_with_io, Hp. cbn [and_then].
    rewrite fs_record_io, !directory_with_io.
    set (web_dir := directory h).
    pose proof (translate_path_under web_dir p) as Htp.
    set (tp := SimpleHTTPRequestHandler.translate_path host web_dir p) in *.
    assert (Hok : Forall (call_ok host web_dir) ([] ++ [Isdir tp])).
    { constructor; [|constructor]. apply call_ok_under; [exact Htp | discriminate]. }
    destruct (os_path_isdir host tp) eqn:Edir.
    2:{ apply send_file_head_answered; try assumption; [|reflexivity].
        now apply looks_up_file. }
    destruct (urlsplit_path host p) as [parts_path|] eqn:Eurl.
    2:{ exists (Failed ValueError), None, ([] ++ [Isdir tp]).
        split; [reflexivity|]. split; [exact Hok|].
        cbn [with_file]. now apply served_bad_url. }
    destruct (Py.endswith parts_path "/") eqn:Eslash; cbn [negb].
    2:{ rewrite (send_response_default host 301 "Moved Permanently"
                   "Object moved permanently -- see URI list" _ eq_refl).
        rewrite start_io, send_response_io, !send_header_io, (end_headers_io p)
          by exact Hp.
        cbn [and_then app].
        exists (Sent 301 None (redirect_head host p) []), None, [Isdir tp].
        split.
        { cbn [exchange_result]. rewrite app_nil_r. unfold redirect_head.
          rewrite <- ?app_assoc. reflexivity. }
        split; [exact Hok|].
        cbn [with_file app]. eapply served_redirect; try eassumption. reflexivity. }
    assert (Hnd : names_directory host web_dir p).
    { split; [exact Edir|]. exists parts_path. now split. }
    destruct (find_index_io web_dir tp h [] [] [] ([] ++ [Isdir tp]) Htp)
      as (probes & -> & Hop & Hokp).
    assert (Hok' : Forall (call_ok host web_dir) (([] ++ [Isdir tp]) ++ probes)).
    { apply Forall_app. now split. }
    assert (Ho' : opens (([] ++ [Isdir tp]) ++ probes) = []).
    { now rewrite opens_app, Hop. }
    destruct (first_index host tp) as [index|] eqn:Ei.
    - apply send_file_head_answered; try assumption.
      now apply looks_up_index.
    - apply list_directory_answered; assumption.
  Qed.

  (** *** The whole exchange *)

Lemma method_lookup (c : string) :
    GameHTTPRequestHandler.method host ("do_" ++ c) =
    if (c =? "GET")%string then Some (GameHTTPRequestHandler.do_GET host)
    else if (c =? "HEAD")%string then Some (GameHTTPRequestHandler.do_HEAD host)
    else if (c =? "OPTIONS")%string then Some (GameHTTPRequestHandler.do_OPTIONS host)
    else None.
  Proof. reflexivity. Qed.

  (** The exchange for a request that [parse_request] accepted: the response
      is the head the inherited code (or [do_OPTIONS]) buffered, then the
      three CORS headers, then the content type chosen from the request path,
      the blank line and the data, or an exception leaves the handler before
      anything is written; the file system calls are the ones of
      [call_ok]. *)
Theorem call_method_served (c p : string) (h : handler) :
    command h = Some c -> path h = Some p ->
    exists (x : exchange) (calls : list fs_call),
      GameHTTPRequestHandler.call_method host (with_io h [] [] [] []) =
        exchange_result host h p x tt calls /\
      Forall (call_ok host (directory h)) calls /\
      served host (directory h) c p (headers h) x calls.
  Proof.
    intros Hc Hp.
    unfold GameHTTPRequestHandler.call_method, BaseHTTPRequestHandler.call_method.
    rewrite command_with_io, Hc. cbv zeta. rewrite method_lookup.
    destruct (c =? "GET")%string eqn:Eget.
    { apply String.eqb_eq in Eget.
      unfold GameHTTPRequestHandler.do_GET, SimpleHTTPRequestHandler.do_GET.
      destruct (send_head_answered c p h Hc Hp (or_introl Eget))
        as (x & file & calls & -> & Hok & Hs).
      exists (with_file c file x), calls. split; [|split; assumption].
      destruct x as [e|code error pre data]; [reflexivity|].
      cbn [exchange_result and_then with_file].
      destruct file as [d|].
      - unfold SimpleHTTPRequestHandler.copyfile, body_data.
        rewrite wfile_write_io, Eget. cbn [String.eqb Ascii.eqb Bool.eqb].
        now rewrite <- app_assoc.
      - now rewrite app_nil_r. }
    destruct (c =? "HEAD")%string eqn:Ehead.
    { apply String.eqb_eq in Ehead.
      unfold GameHTTPRequestHandler.do_HEAD, SimpleHTTPRequestHandler.do_HEAD.
      destruct (send_head_answered c p h Hc Hp (or_intror Ehead))
        as (x & file & calls & -> & Hok & Hs).
      exists (with_file c file x), calls. split; [|split; assumption].
      destruct x as [e|code error pre data]; [reflexivity|].
      cbn [exchange_result and_then with_file].
      destruct file as [d|].
      - unfold body_data. rewrite Ehead. cbn [String.eqb Ascii.eqb Bool.eqb].
        now rewrite app_nil_r.
      - now rewrite app_nil_r. }
    destruct (c =? "OPTIONS")%string eqn:Eopt.
    { apply String.eqb_eq in Eopt.
      rewrite start_io, (do_OPTIONS_io host p) by exact Hp.
      exists (Sent 200 None (response_head host 200 "OK") []), [].
      split; [|split; [constructor | now apply served_options]].
      cbn [exchange_result app]. now rewrite app_nil_r. }
    apply String.eqb_neq in Eget, Ehead, Eopt.
    rewrite start_io, (send_error_io host p c) by (assumption || reflexivity).
    cbn [app].
    exists (Sent 501 (Some ("Unsupported method (" ++ repr host c ++ ")")%string)
              (error_head host 501 ("Unsupported method (" ++ repr host c ++ ")"))
              (error_data host c 501 ("Unsupported method (" ++ repr host c ++ ")"))),
           [].
    split; [reflexivity|]. split; [constructor | now apply served_unsupported].
  Qed.

End HandlerServed.

(** ** The handler: from the request line on *)

Section HandlerHandle.

Variable host : Host.

Local Open Scope list_scope.

Lemma fresh_io (h : handler) :
    headers_buffer h = [] -> wfile h = [] -> stdout h = [] -> fs_log h = [] ->
    h = with_io h (heads h []) [] [] [].
  Proof.
    intros Hb Hw Ho Hc. rewrite heads_nil.
    destruct h. cbn in Hb, Hw, Ho, Hc. subst. reflexivity.
  Qed.

Lemma send_error_default (code : Z) (short long : string) (explain : option string)
      (h : handler) :
    responses code = Some (short, long) ->
    BaseHTTPRequestHandler.send_error host GameHTTPRequestHandler.end_headers
      (GameHTTPRequestHandler.log_message host) code None explain h =
    BaseHTTPRequestHandler.send_error host GameHTTPRequestHandler.end_headers
      (GameHTTPRequestHandler.log_message host) code (Some short) explain h.
  Proof.
    intros E. unfold BaseHTTPRequestHandler.send_error. now rewrite E.
  Qed.

  (** An error sent while [self.path] is not set: the two lines are logged
      and [AttributeError] leaves the handler; nothing is written. *)
Lemma send_error_rejected (code : Z) (message : string) (explain : option string)
      (h : handler) :
    headers_buffer h = [] -> wfile h = [] -> stdout h = [] -> fs_log h = [] ->
    path h = None -> has_page code = true ->
    exists buf,
      BaseHTTPRequestHandler.send_error host GameHTTPRequestHandler.end_headers
        (GameHTTPRequestHandler.log_message host) code (Some message) explain h =
      Exc (AttributeError "path")
        (with_io h buf [] [error_log host code message; request_log host h code] []).
  Proof.
    intros Hb Hw Ho Hc Hp Hbody.
    destruct (send_error_unset host code message explain h [] [] [] [] Hp Hbody)
      as (buf & E).
    rewrite <- (fresh_io h Hb Hw Ho Hc) in E.
    exists buf. exact E.
  Qed.

  (** An error sent once the request line is accepted. *)
Lemma send_error_parsed (web_dir rl v c p : string) (code : Z) (message explain : string) :
    has_page code = true ->
    BaseHTTPRequestHandler.send_error host GameHTTPRequestHandler.end_headers
      (GameHTTPRequestHandler.log_message host) code (Some message) (Some explain)
      (parsed_handler web_dir rl v c p []) =
    exchange_result host (parsed_handler web_dir rl v c p []) p
      (Sent code (Some message)
         (error_head_of host code message (error_page host code message explain))
         (error_data_of c (error_page host code message explain))) tt [].
  Proof.
    intros Hbody.
    rewrite (fresh_io (parsed_handler web_dir rl v c p [])) at 1 by reflexivity.
    rewrite (send_error_io host p c) by (reflexivity || exact Hbody).
    reflexivity.
  Qed.

  (** [parse_request] once the version is known, followed by the call of
      the method: the line is rejected, the header block is too large, or
      the request is one for [call_method]. *)
Lemma parse_request_words_cases (web_dir rl v : string) (words : list string)
      (hdrs : header_read) :
    words <> [] ->
    let res :=
      and_then
        (BaseHTTPRequestHandler.parse_request_words host
           GameHTTPRequestHandler.end_headers (GameHTTPRequestHandler.log_message host)
           rl words hdrs (line_handler web_dir rl v None))
        (fun parsed h =>
           if negb parsed then Ok tt h
           else GameHTTPRequestHandler.call_method host h) in
    (exists h0 code message buf,
       path h0 = None /\ (400 <=? code) = true /\
       res =
       Exc (AttributeError "path")
         (with_io h0 buf []
            [error_log host code message; request_log host h0 code] [])) \/
    (exists c p message explain,
       res =
       exchange_result host (parsed_handler web_dir rl v c p []) p
         (Sent 431 (Some message)
            (error_head_of host 431 message (error_page host 431 message explain))
            (error_data_of c (error_page host 431 message explain))) tt []) \/
    (exists c p hs,
       hdrs = HeadersParsed hs /\
       res = GameHTTPRequestHandler.call_method host (parsed_handler web_dir rl v c p hs)).
  Proof.
    intros Hne res. subst res.
    assert (Hbad : forall message (k : bool -> handler -> result unit),
      exists h0 code message' buf,
        path h0 = None /\ (400 <=? code) = true /\
        and_then
          (and_then
             (BaseHTTPRequestHandler.send_error host GameHTTPRequestHandler.end_headers
                (GameHTTPRequestHandler.log_message host) 400 (Some message) None
                (line_handler web_dir rl v None))
             (fun _ h => Ok false h)) k =
        Exc (AttributeError "path")
          (with_io h0 buf []
             [error_log host code message'; request_log host h0 code] [])).
    { intros message k.
      destruct (send_error_rejected 400 message None (line_handler web_dir rl v None)
                  eq_refl eq_refl eq_refl eq_refl eq_refl eq_refl) as (buf & E).
      rewrite E. cbn [and_then].
      exists (line_handler web_dir rl v None), 400, message, buf.
      now repeat split. }
    unfold BaseHTTPRequestHandler.parse_request_words.
    destruct words as [|c [|p [|x [|y words]]]].
    - now destruct Hne.
    - left. cbn [List.length Nat.leb andb negb]. apply Hbad.
    - cbn [List.length Nat.leb Nat.eqb andb negb].
      destruct (String.eqb c "GET"); cbn [negb].
      2:{ left. apply Hbad. }
      right.
      change (set_path p (set_command (Some c) (line_handler web_dir rl v None)))
        with (parsed_handler web_dir rl v c p []).
      change (set_path ?q (parsed_handler web_dir rl v c p []))
        with (parsed_handler web_dir rl v c q []).
      destruct (Py.startswith p "//"); destruct hdrs as [hs|err|err];
        try (left; do 4 eexists; rewrite send_error_parsed by reflexivity;
             reflexivity);
        right; do 3 eexists; (split; [reflexivity|]); reflexivity.
    - cbn [List.length Nat.leb Nat.eqb andb negb].
      right.
      change (set_path p (set_command (Some c) (line_handler web_dir rl v None)))
        with (parsed_handler web_dir rl v c p []).
      change (set_path ?q (parsed_handler web_dir rl v c p []))
        with (parsed_handler web_dir rl v c q []).
      destruct (Py.startswith p "//"); destruct hdrs as [hs|err|err];
        try (left; do 4 eexists; rewrite send_error_parsed by reflexivity;
             reflexivity);
        right; do 3 eexists; (split; [reflexivity|]); reflexivity.
    - left. cbn [List.length Nat.leb andb negb]. apply Hbad.
  Qed.

  (** How [handle_one_request] goes for what arrives. Nothing happens for an
      empty or blank line. A line that is too long or that [parse_request]
      rejects is logged as an error, and the exception of [end_headers]
      leaves the handler. A header block that is too large is answered 431.
      Everything else is a request for [call_method]. *)
Theorem handle_cases (web_dir : string) (a : arrival) :
    (exists h',
       handle host web_dir a = Ok tt h' /\
       wfile h' = [] /\ stdout h' = [] /\ fs_log h' = [] /\
       Py.split_ws (strip_line_end (raw_requestline a)) = []) \/
    (exists h0 code message buf,
       path h0 = None /\ (400 <=? code) = true /\
       handle host web_dir a =
       Exc (AttributeError "path")
         (with_io h0 buf []
            [error_log host code message; request_log host h0 code] [])) \/
    (exists v c p message explain,
       Py.split_ws (strip_line_end (raw_requestline a)) <> [] /\
       handle host web_dir a =
       exchange_result host
         (parsed_handler web_dir (strip_line_end (raw_requestline a)) v c p []) p
         (Sent 431 (Some message)
            (error_head_of host 431 message (error_page host 431 message explain))
            (error_data_of c (error_page host 431 message explain))) tt []) \/
    (exists v c p hs,
       Py.split_ws (strip_line_end (raw_requestline a)) <> [] /\
       rfile_headers a = HeadersParsed hs /\
       handle host web_dir a =
       GameHTTPRequestHandler.call_method host
         (parsed_handler web_dir (strip_line_end (raw_requestline a)) v c p hs)).
  Proof.
    unfold handle, GameHTTPRequestHandler.handle_one_request,
      BaseHTTPRequestHandler.handle_one_request.
    destruct a as [raw hdrs]. cbn [raw_requestline rfile_headers]. cbv zeta.
    destruct (65536 <? Z.of_nat (String.length raw)).
    { right. left.
      change (set_command (Some ""%string)
                (set_request_version "" (set_requestline "" (init_handler web_dir))))
        with (line_handler web_dir "" "" (Some ""%string)).
      rewrite (send_error_default 414 "Request-URI Too Long" "URI is too long" _ _ eq_refl).
      destruct (send_error_rejected 414 "Request-URI Too Long" None
                  (line_handler web_dir "" "" (Some ""%string))
                  eq_refl eq_refl eq_refl eq_refl eq_refl eq_refl) as (buf & E).
      exists (line_handler web_dir "" "" (Some ""%string)), 414,
             "Request-URI Too Long"%string, buf.
      split; [reflexivity|]. split; [reflexivity | exact E]. }
    destruct (String.eqb raw "") eqn:Eraw.
    { left. apply String.eqb_eq in Eraw. subst raw.
      exists (init_handler web_dir). repeat split. }
    unfold BaseHTTPRequestHandler.parse_request. cbv zeta.
    change (Py.rstrip_chars _ raw) with (strip_line_end raw).
    set (rl := strip_line_end raw).
    change (set_requestline rl
              (set_request_version BaseHTTPRequestHandler.default_request_version
                 (set_command None (init_handler web_dir))))
      with (line_handler web_dir rl "HTTP/0.9" None).
    change (set_request_version ?v (line_handler web_dir rl "HTTP/0.9" None))
      with (line_handler web_dir rl v None).
    fold (GameHTTPRequestHandler.call_method host).
    destruct (Py.split_ws rl) as [|w0 ws] eqn:Ew.
    { left. cbn [List.length Nat.eqb and_then negb].
      exists (line_handler web_dir rl "HTTP/0.9" None). repeat split. }
    assert (Hne : w0 :: ws <> []) by discriminate.
    clear Ew. generalize dependent (w0 :: ws). intros words Hne.
    right.
    assert (Hlift : forall v res,
      (exists h0 code message buf,
         path h0 = None /\ (400 <=? code) = true /\
         res =
         Exc (AttributeError "path")
           (with_io h0 buf []
              [error_log host code message; request_log host h0 code] [])) \/
      (exists c p message explain,
         res =
         exchange_result host (parsed_handler web_dir rl v c p []) p
           (Sent 431 (Some message)
              (error_head_of host 431 message (error_page host 431 message explain))
              (error_data_of c (error_page host 431 message explain))) tt []) \/
      (exists c p hs,
         hdrs = HeadersParsed hs /\
         res = GameHTTPRequestHandler.call_method host
                 (parsed_handler web_dir rl v c p hs)) ->
      (exists h0 code message buf,
         path h0 = None /\ (400 <=? code) = true /\
         res =
         Exc (AttributeError "path")
           (with_io h0 buf []
              [error_log host code message; request_log host h0 code] [])) \/
      (exists v c p message explain,
         words <> [] /\
         res =
         exchange_result host (parsed_handler web_dir rl v c p []) p
           (Sent 431 (Some message)
              (error_head_of host 431 message (error_page host 431 message explain))
              (error_data_of c (error_page host 431 message explain))) tt []) \/
      (exists v c p hs,
         words <> [] /\
         hdrs = HeadersParsed hs /\
         res = GameHTTPRequestHandler.call_method host
                 (parsed_handler web_dir rl v c p hs))).
    { intros v res [H|[(c & p & m & e & H)|(c & p & hs & H)]].
      - now left.
      - right. left. exists v, c, p, m, e. split; [exact Hne | exact H].
      - right. right. exists v, c, p, hs. split; [exact Hne | exact H]. }
    destruct (List.length words =? 0)%nat eqn:El.
    { destruct words; [now destruct Hne | discriminate El]. }
    destruct (3 <=? List.length words)%nat.
    2:{ apply (Hlift "HTTP/0.9"%string).
        apply (parse_request_words_cases web_dir rl "HTTP/0.9" words hdrs Hne). }
    destruct (BaseHTTPRequestHandler.version_number host (last words ""%string))
      as [number|].
    2:{ left.
        destruct (send_error_rejected 400
                    ("Bad request version (" ++ repr host (last words "") ++ ")") None
                    (line_handler web_dir rl "HTTP/0.9" None)
                    eq_refl eq_refl eq_refl eq_refl eq_refl eq_refl) as (buf & E).
        rewrite E. cbn [and_then].
        exists (line_handler web_dir rl "HTTP/0.9" None), 400,
               ("Bad request version (" ++ repr host (last words "") ++ ")")%string, buf.
        now repeat split. }
    destruct (BaseHTTPRequestHandler.version_ge number 2 0).
    { left.
      match goal with
      | |- context [BaseHTTPRequestHandler.send_error _ _ _ 505 (Some ?m) None _] =>
          destruct (send_error_rejected 505 m None
                      (line_handler web_dir rl "HTTP/0.9" None)
                      eq_refl eq_refl eq_refl eq_refl eq_refl eq_refl) as (buf & E);
          rewrite E; cbn [and_then];
          exists (line_handler web_dir rl "HTTP/0.9" None), 505, m, buf
      end.
      now repeat split. }
    apply (Hlift (last words ""%string)).
    apply (parse_request_words_cases web_dir rl (last words "") words hdrs Hne).
  Qed.

End HandlerHandle.

(** ** The handler: facts on responses *)

Section ResponseFacts.

Local Open Scope list_scope.

Lemma header_lines_app (a b : list wire) :
    header_lines (a ++ b) = header_lines a ++ header_lines b.
  Proof.
    induction a as [|x a IH]; simpl; [reflexivity|].
    destruct x; simpl; now rewrite IH.
  Qed.

Lemma header_values_app (name : string) (a b : list wire) :
    header_values name (a ++ b) = header_values name a ++ header_values name b.
  Proof.
    unfold header_values. now rewrite header_lines_app, filter_app, map_app.
  Qed.

Lemma status_codes_app (a b : list wire) :
    status_codes (a ++ b) = status_codes a ++ status_codes b.
  Proof.
    induction a as [|x a IH]; simpl; [reflexivity|].
    destruct x; simpl; now rewrite IH.
  Qed.

Lemma data_of_app (a b : list wire) : data_of (a ++ b) = data_of a ++ data_of b.
  Proof.
    induction a as [|x a IH]; simpl; [reflexivity|].
    destruct x; simpl; now rewrite IH.
  Qed.

Lemma append_assoc (a b c : string) : ((a ++ b) ++ c = a ++ (b ++ c))%string.
  Proof. induction a as [|x a IH]; simpl; [reflexivity|]. now rewrite IH. Qed.


Lemma body_app (a b : list wire) : body (a ++ b) = (body a ++ body b)%string.
  Proof.
    induction a as [|x a IH]; simpl; [reflexivity|].
    destruct x; simpl; rewrite IH; try reflexivity.
    now rewrite append_assoc.
  Qed.

  (** *** The data *)

Lemma only_data_plain (ws : list wire) :
    only_data ws ->
    status_codes ws = [] /\ header_lines ws = [] /\
    forall name, header_values name ws = [].
  Proof.
    intros [blocks ->].
    assert (H : status_codes (map Data blocks) = [] /\
                header_lines (map Data blocks) = []).
    { induction blocks as [|b blocks [IH1 IH2]]; simpl; now split. }
    destruct H as [H1 H2]. repeat split; try assumption.
    intros name. unfold header_values. now rewrite H2.
  Qed.

Lemma only_data_nil : only_data [].
  Proof. now exists []. Qed.

Lemma only_data_app (a b : list wire) : only_data a -> only_data b -> only_data (a ++ b).
  Proof. intros [x ->] [y ->]. exists (x ++ y). now rewrite map_app. Qed.

Lemma error_data_of_only (cmd page : string) : only_data (error_data_of cmd page).
  Proof.
    unfold error_data_of.
    destruct (negb (cmd =? "HEAD")%string && negb (page =? "")%string).
    - now exists [page].
    - apply only_data_nil.
  Qed.

Lemma body_data_only (cmd data : string) : only_data (body_data cmd data).
  Proof.
    unfold body_data. destruct (cmd =? "GET")%string.
    - now eexists.
    - apply only_data_nil.
  Qed.

  (** *** [copyfileobj]: the blocks written make up the file *)

Lemma read_app (n : nat) (s : string) :
    (fst (Shutil.read n s) ++ snd (Shutil.read n s))%string = s.
  Proof.
    revert s. induction n as [|n IH]; intros s; [reflexivity|].
    destruct s as [|a s]; [reflexivity|].
    cbn [Shutil.read]. specialize (IH s).
    destruct (Shutil.read n s) as [buf rest]. cbn [fst snd append] in *.
    now rewrite IH.
  Qed.

Lemma read_length (n : nat) (s : string) :
    (String.length (fst (Shutil.read n s)) <= n)%nat /\
    (String.length (fst (Shutil.read n s)) + String.length (snd (Shutil.read n s))
     = String.length s)%nat /\
    (fst (Shutil.read n s) = ""%string -> n = 0%nat \/ s = ""%string).
  Proof.
    revert s. induction n as [|n IH]; intros s.
    - cbn. repeat split; auto; lia.
    - destruct s as [|a s].
      + cbn. repeat split; auto; lia.
      + cbn [Shutil.read]. specialize (IH s).
        destruct (Shutil.read n s) as [buf rest]. cbn [fst snd String.length] in *.
        destruct IH as (H1 & H2 & _). repeat split; try lia. discriminate.
  Qed.

Lemma copy_loop_concat (length turns : nat) (s : string) :
    (1 <= length)%nat -> (String.length s <= turns)%nat ->
    body (map Data (Shutil.copy_loop turns length s)) = s /\
    Forall (fun block => block <> ""%string /\ (String.length block <= length)%nat)
           (Shutil.copy_loop turns length s).
  Proof.
    intros Hl. revert s. induction turns as [|turns IH]; intros s Hs.
    - destruct s; [|cbn in Hs; lia]. split; [reflexivity | constructor].
    - cbn [Shutil.copy_loop].
      pose proof (read_app length s) as Happ.
      pose proof (read_length length s) as (Hlen1 & Hlen2 & Hempty).
      destruct (Shutil.read length s) as [buf rest]. cbn [fst snd] in *.
      destruct (String.eqb_spec buf "") as [->|Hne].
      + destruct (Hempty eq_refl) as [->| ->]; [lia|].
        split; [reflexivity | constructor].
      + assert (Hpos : (1 <= String.length buf)%nat).
        { destruct buf; [congruence | cbn; lia]. }
        destruct (IH rest) as [IH1 IH2]; [lia|].
        split.
        * cbn [map body]. now rewrite IH1.
        * constructor; [now split | exact IH2].
  Qed.

  (** A file is copied in blocks of at most 64 KiB, none of them empty, that
      together are the file. *)
Lemma copyfileobj_blocks (data : string) :
    body (map Data (Shutil.copyfileobj data)) = data /\
    Forall (fun block => block <> ""%string /\
                         Z.of_nat (String.length block) <= Shutil.COPY_BUFSIZE)
           (Shutil.copyfileobj data).
  Proof.
    unfold Shutil.copyfileobj.
    assert (Hpos : (1 <= Z.to_nat Shutil.COPY_BUFSIZE)%nat).
    { unfold Shutil.COPY_BUFSIZE. lia. }
    destruct (copy_loop_concat (Z.to_nat Shutil.COPY_BUFSIZE) (String.length data) data
                Hpos (le_n _)) as [H1 H2].
    split; [exact H1|].
    eapply Forall_impl; [|exact H2]. intros block [Hne Hle]. split; [exact Hne|].
    unfold Shutil.COPY_BUFSIZE in *. lia.
  Qed.



  (** *** The content type chosen from the path *)

Lemma suffix_headers_values (p : string) :
    header_values "Content-Type" (suffix_headers p) = suffix_content_type p.
  Proof.
    unfold suffix_headers, suffix_content_type.
    destruct (Py.endswith p ".wasm"); [reflexivity|].
    destruct (Py.endswith p ".js"); [reflexivity|].
    destruct (Py.endswith p ".html"); reflexivity.
  Qed.

Lemma suffix_headers_plain (p : string) :
    status_codes (suffix_headers p) = [] /\ body (suffix_headers p) = ""%string /\
    data_of (suffix_headers p) = [] /\
    header_values "Access-Control-Allow-Origin" (suffix_headers p) = [] /\
    header_values "Access-Control-Allow-Methods" (suffix_headers p) = [] /\
    header_values "Access-Control-Allow-Headers" (suffix_headers p) = [].
  Proof.
    unfold suffix_headers, suffix_content_type.
    destruct (Py.endswith p ".wasm"); [repeat split|].
    destruct (Py.endswith p ".js"); [repeat split|].
    destruct (Py.endswith p ".html"); repeat split.
  Qed.

Lemma last_char_nonempty (s : string) : s <> ""%string -> Py.last_char s <> None.
  Proof.
    destruct s as [|a s]; [congruence|]. intros _. simpl.
    destruct (Py.last_char s); discriminate.
  Qed.

Lemma endswith_last_char (s suffix : string) :
    Py.endswith s suffix = true -> suffix <> ""%string ->
    Py.last_char s = Py.last_char suffix.
  Proof.
    intros H Hne. induction s as [|a s IH].
    - destruct suffix; [congruence|discriminate].
    - cbn [Py.endswith] in H.
      destruct (String.eqb_spec (String a s) suffix) as [E|E]; [now subst|].
      specialize (IH H). simpl. rewrite IH.
      destruct (Py.last_char suffix) eqn:El; [reflexivity|].
      now apply last_char_nonempty in El.
  Qed.

Lemma endswith_app (s suffix : string) : Py.endswith (s ++ suffix) suffix = true.
  Proof.
    induction s as [|a s IH].
    - destruct suffix as [|c suffix]; [reflexivity|].
      cbn [append Py.endswith]. now rewrite String.eqb_refl.
    - cbn [append Py.endswith]. rewrite IH. now destruct (String.eqb _ _).
  Qed.

Lemma suffix_js (p : string) :
    Py.endswith p ".js" = true -> suffix_content_type p = ["application/javascript"%string].
  Proof.
    intros H. unfold suffix_content_type. rewrite H.
    destruct (Py.endswith p ".wasm") eqn:E; [|reflexivity].
    apply endswith_last_char in E, H; try discriminate. rewrite E in H. discriminate.
  Qed.

Lemma suffix_html (p : string) :
    Py.endswith p ".html" = true ->
    suffix_content_type p = ["text/html; charset=utf-8"%string].
  Proof.
    intros H. unfold suffix_content_type. rewrite H.
    destruct (Py.endswith p ".wasm") eqn:E.
    { apply endswith_last_char in E, H; try discriminate. rewrite E in H. discriminate. }
    destruct (Py.endswith p ".js") eqn:E'; [|reflexivity].
    apply endswith_last_char in E', H; try discriminate. rewrite E' in H. discriminate.
  Qed.

Lemma suffix_wasm (p : string) :
    Py.endswith p ".wasm" = true -> suffix_content_type p = ["application/wasm"%string].
  Proof. intros H. unfold suffix_content_type. now rewrite H. Qed.

  (** *** What is sent *)

Lemma error_head_ok (host : Host) (code : Z) (message page cmd : string) :
    (400 <=? code) = true ->
    sent_ok host code (Some message) (error_head_of host code message page)
      (error_data_of cmd page).
  Proof.
    intros Hc. split; [|split; [apply error_data_of_only | exact Hc]].
    exists message,
      [("Connection", "close");
       ("Content-Type", BaseHTTPRequestHandler.error_content_type);
       ("Content-Length", Py.str_int (Z.of_nat (String.length page)))]%string.
    repeat split.
  Qed.

  (** Every exchange of [served] that sends something is well formed. *)
Lemma served_sent_ok (host : Host) (web_dir c p : string) hdrs code error pre data calls :
    served host web_dir c p hdrs (Sent code error pre data) calls ->
    sent_ok host code error pre data.
  Proof.
    intros H. inversion H; subst; clear H;
      try (apply error_head_ok; reflexivity).
    - split; [|split; [apply only_data_nil | reflexivity]].
      exists "OK"%string, []. repeat split.
    - split; [|split; [apply only_data_nil | reflexivity]].
      exists "Moved Permanently"%string,
        [("Location", redirect_url host p); ("Content-Length", "0")]%string.
      repeat split.
    - split; [|split; [apply only_data_nil | reflexivity]].
      exists "Not Modified"%string, []. repeat split.
    - split; [|split; [apply body_data_only | reflexivity]].
      exists "OK"%string,
        [("Content-type", SimpleHTTPRequestHandler.guess_type host q);
         ("Content-Length", Py.str_int (Z.of_nat (String.length (content f))));
         ("Last-Modified", last_modified f)]%string.
      repeat split.
    - split; [|split; [apply body_data_only | reflexivity]].
      eexists "OK"%string,
        [("Content-type", ("text/html; charset=" ++ filesystemencoding host)%string);
         ("Content-Length", _)]%string.
      repeat split.
  Qed.

Lemma header_wires_plain (hs : list (string * string)) :
    status_codes (header_wires hs) = [] /\ data_of (header_wires hs) = [] /\
    body (header_wires hs) = ""%string.
  Proof. induction hs as [|kv hs (H1 & H2 & H3)]; simpl; repeat split; assumption. Qed.

  (** The head of a response that is sent: its status code, no CORS header
      and no data. *)
Lemma sent_ok_head (host : Host) code error pre data :
    sent_ok host code error pre data ->
    status_codes pre = [code] /\
    header_values "Access-Control-Allow-Origin" pre = [] /\
    header_values "Access-Control-Allow-Methods" pre = [] /\
    header_values "Access-Control-Allow-Headers" pre = [] /\
    data_of pre = [] /\ body pre = ""%string.
  Proof.
    intros ((message & hs & -> & Ho & Hm & Hh) & _).
    destruct (header_wires_plain hs) as (Hs & Hd & Hb).
    rewrite status_codes_app, !header_values_app, data_of_app, body_app.
    rewrite Hs, Ho, Hm, Hh, Hd, Hb. repeat split.
  Qed.

  (** *** The response to a request *)

Lemma new_handler_heads (web_dir : string) (r : request) (ws : list wire) :
    heads (new_handler web_dir r) ws = ws.
  Proof. unfold heads. now destruct r as [l c p [|] hs]. Qed.

  (** The response and the file system calls of a request, from
      [call_method_served]. *)
Lemma response_served (host : Host) (web_dir : string) (r : request) :
    exists (x : exchange) (calls : list fs_call),
      served host web_dir (req_command r) (req_path r) (req_headers r) x calls /\
      Forall (call_ok host web_dir) calls /\
      fs_log (serve host web_dir r) = calls /\
      match x with
      | Failed e =>
          raised host web_dir r = Some e /\
          response host web_dir r = [] /\ stdout (serve host web_dir r) = []
      | Sent code error pre data =>
          raised host web_dir r = None /\
          response host web_dir r =
            pre ++ cors_headers ++ suffix_headers (req_path r) ++ [BlankLine] ++ data /\
          stdout (serve host web_dir r) = log_lines host (new_handler web_dir r) code error /\
          headers_buffer (serve host web_dir r) = []
      end.
  Proof.
    destruct (call_method_served host (req_command r) (req_path r)
                (new_handler web_dir r) eq_refl eq_refl)
      as (x & calls & E & Hok & Hs).
    change (with_io (new_handler web_dir r) [] [] [] []) with (new_handler web_dir r) in E.
    exists x, calls. split; [exact Hs|]. split; [exact Hok|].
    unfold response, serve, raised. rewrite E.
    destruct x as [e|code error pre data]; cbn [exchange_result state exception].
    - repeat split.
    - rewrite new_handler_heads. cbn [fs_log wfile stdout headers_buffer with_io].
      repeat split. now rewrite <- !app_assoc.
  Qed.

  (** The status code, the CORS headers and the Content-Type headers of a
      response that is sent. *)
Lemma sent_response (host : Host) (p : string) code error pre data :
    sent_ok host code error pre data ->
    let resp := pre ++ cors_headers ++ suffix_headers p ++ [BlankLine] ++ data in
    status_codes resp = [code] /\
    header_values "Access-Control-Allow-Origin" resp = ["*"%string] /\
    header_values "Access-Control-Allow-Methods" resp = ["GET, POST, OPTIONS"%string] /\
    header_values "Access-Control-Allow-Headers" resp = ["*"%string] /\
    header_values "Content-Type" resp =
      header_values "Content-Type" pre ++ suffix_content_type p /\
    data_of resp = data_of data /\
    body resp = body data.
  Proof.
    intros Hok resp. subst resp.
    destruct (sent_ok_head _ _ _ _ _ Hok) as (Hs & Ho & Hm & Hh & Hd & Hb).
    destruct Hok as (_ & Hdata & _).
    destruct (only_data_plain _ Hdata) as (Ds & _ & Dh).
    destruct (suffix_headers_plain p) as (Ss & Sb & Sd & So & Sm & Sh).
    rewrite !status_codes_app, !header_values_app, !data_of_app, !body_app.
    rewrite Hs, Ho, Hm, Hh, Hd, Hb, Ds, !Dh, Ss, Sb, Sd, So, Sm, Sh, suffix_headers_values.
    cbn. rewrite !app_nil_r. repeat split.
  Qed.

Lemma in_opens (p : string) (calls : list fs_call) :
    In (Open p) calls -> In p (opens calls).
  Proof.
    induction calls as [|c calls IH]; simpl; [tauto|].
    intros [->|Hin]; [now left|]. destruct c; simpl; auto.
  Qed.

End ResponseFacts.

(** ** The handler: the claims *)

Section HandlerClaims.

Local Open Scope list_scope.

Lemma served_options_inv (host : Host) (web_dir c p : string) hdrs x calls :
    served host web_dir c p hdrs x calls -> c = "OPTIONS"%string ->
    x = Sent 200 None (response_head host 200 "OK") [] /\ calls = [].
  Proof.
    intros H E. inversion H; subst; clear H;
      try match goal with
          | H : _ = _ \/ _ = _ |- _ => destruct H; discriminate
          end.
    - now split.
    - contradiction.
  Qed.

  (** A request answered 200 that opened a file is a served file. *)
Lemma served_file_inv (host : Host) (web_dir c p : string) hdrs
      error pre data calls (q : string) :
    served host web_dir c p hdrs (Sent 200 error pre data) calls ->
    In (Open q) calls ->
    exists f, open_rb host q = Opened f /\ looks_up host web_dir p q /\
              pre = file_head host q f /\ data = body_data c (content f).
  Proof.
    intros H Hin. apply in_opens in Hin.
    inversion H; subst; clear H;
      try match goal with
          | H : opens _ = [] |- _ => rewrite H in Hin; destruct Hin
          end.
    - destruct Hin.
    - match goal with H : opens _ = [_] |- _ => rewrite H in Hin end.
      destruct Hin as [<-|[]]. eexists. repeat split; eassumption.
  Qed.

Lemma served_status_404 (host : Host) (web_dir c p : string) hdrs
      error pre data calls :
    served host web_dir c p hdrs (Sent 404 error pre data) calls ->
    header_values "Content-Type" pre = ["text/html;charset=utf-8"%string].
  Proof. intros H. inversion H; subst; reflexivity. Qed.

  (** The codes of the inherited GET and HEAD. *)
Lemma served_codes (host : Host) (web_dir c p : string) hdrs
      code error pre data calls :
    served host web_dir c p hdrs (Sent code error pre data) calls ->
    c = "GET"%string \/ c = "HEAD"%string ->
    code = 200 \/ code = 301 \/ code = 304 \/ code = 404.
  Proof.
    intros H Hgh. inversion H; subst; clear H; auto.
    match goal with
    | H1 : ?c <> "GET"%string, H2 : ?c <> "HEAD"%string |- _ => destruct Hgh; contradiction
    end.
  Qed.






  (** C5: an OPTIONS request is answered at once with status 200, the
      Server and Date headers, the three CORS headers (and the content type
      chosen from the path, if any), the blank line and no body; handling it
      makes no file system call. *)
Theorem C5_options_preflight (host : Host) (web_dir : string) (r : request) :
    req_command r = "OPTIONS"%string ->
    response host web_dir r =
      response_head host 200 "OK" ++ cors_headers
        ++ suffix_headers (req_path r) ++ [BlankLine] /\
    status_codes (response host web_dir r) = [200] /\
    body (response host web_dir r) = ""%string /\
    data_of (response host web_dir r) = [] /\
    header_values "Access-Control-Allow-Origin" (response host web_dir r)
      = ["*"%string] /\
    header_values "Access-Control-Allow-Methods" (response host web_dir r)
      = ["GET, POST, OPTIONS"%string] /\
    header_values "Access-Control-Allow-Headers" (response host web_dir r)
      = ["*"%string] /\
    fs_log (serve host web_dir r) = [].
  Proof.
    intros Hopt.
    destruct (response_served host web_dir r) as (x & calls & Hs & _ & Hc & Hx).
    pose proof Hs as Hs'.
    destruct (served_options_inv _ _ _ _ _ _ _ Hs Hopt) as (-> & ->).
    destruct Hx as (_ & E & _).
    destruct (sent_response host (req_path r) _ _ _ _ (served_sent_ok _ _ _ _ _ _ _ _ _ _ Hs'))
      as (Hst & Ho & Hm & Hh & _ & Hd & Hb).
    rewrite E. cbv zeta in *.
    split; [now rewrite app_nil_r|].
    repeat split; assumption.
  Qed.

Lemma C5_options_preflight_witness :
    req_command (SampleHost.options "/pkg/echoes_rpg_bg.wasm") = "OPTIONS"%string /\
    status_codes (response SampleHost.host SampleHost.root
                    (SampleHost.options "/pkg/echoes_rpg_bg.wasm")) = [200] /\
    fs_log (serve SampleHost.host SampleHost.root
              (SampleHost.options "/pkg/echoes_rpg_bg.wasm")) = [].
  Proof.
    split; [reflexivity|].
    destruct (C5_options_preflight SampleHost.host SampleHost.root
                (SampleHost.options "/pkg/echoes_rpg_bg.wasm") eq_refl)
      as (_ & Hst & _ & _ & _ & _ & _ & Hfs).
    split; [exact Hst | exact Hfs].
  Defined.

Lemma guess_type_cases (host : Host) (p : string) :
    let ext := snd (Posixpath.splitext p) in
    (forall t, SimpleHTTPRequestHandler.extensions_map ext = Some t ->
               SimpleHTTPRequestHandler.guess_type host p = t) /\
    (SimpleHTTPRequestHandler.extensions_map ext = None ->
     forall t, SimpleHTTPRequestHandler.extensions_map (Py.lower ext) = Some t ->
               SimpleHTTPRequestHandler.guess_type host p = t) /\
    (SimpleHTTPRequestHandler.extensions_map ext = None ->
     SimpleHTTPRequestHandler.extensions_map (Py.lower ext) = None ->
     forall guess, mimetypes_guess_type host p = Some guess -> guess <> ""%string ->
                   SimpleHTTPRequestHandler.guess_type host p = guess) /\
    (SimpleHTTPRequestHandler.extensions_map ext = None ->
     SimpleHTTPRequestHandler.extensions_map (Py.lower ext) = None ->
     mimetypes_guess_type host p = None ->
     SimpleHTTPRequestHandler.guess_type host p = "application/octet-stream"%string).
  Proof.
    intros ext. unfold SimpleHTTPRequestHandler.guess_type. fold ext.
    repeat split.
    - now intros t ->.
    - now intros -> t ->.
    - intros -> -> guess -> Hne. apply String.eqb_neq in Hne. now rewrite Hne.
    - now intros -> -> ->.
  Qed.

  (** What a response with a status line is: the exchange that was sent. *)
Lemma response_sent (host : Host) (web_dir : string) (r : request) (code : Z) :
    status_codes (response host web_dir r) = [code] ->
    exists error pre data calls,
      served host web_dir (req_command r) (req_path r) (req_headers r)
        (Sent code error pre data) calls /\
      fs_log (serve host web_dir r) = calls /\
      raised host web_dir r = None /\
      response host web_dir r =
        pre ++ cors_headers ++ suffix_headers (req_path r) ++ [BlankLine] ++ data /\
      header_values "Content-Type" (response host web_dir r) =
        header_values "Content-Type" pre ++ suffix_content_type (req_path r) /\
      body (response host web_dir r) = body data /\
      data_of (response host web_dir r) = data_of data.
  Proof.
    intros Hst.
    destruct (response_served host web_dir r) as (x & calls & Hs & _ & Hc & Hx).
    destruct x as [e|code' error pre data].
    - destruct Hx as (_ & E & _). rewrite E in Hst. discriminate.
    - destruct Hx as (Hr & E & _).
      destruct (sent_response host (req_path r) _ _ _ _
                  (served_sent_ok _ _ _ _ _ _ _ _ _ _ Hs))
        as (Hst' & _ & _ & _ & Hct & Hd & Hb). cbv zeta in *.
      rewrite E, Hst' in Hst. injection Hst as <-.
      exists error, pre, data, calls. rewrite E. repeat split; assumption.
  Qed.

Lemma in_suffix_header (host : Host) (web_dir : string) (r : request) (code : Z)
      (v : string) :
    status_codes (response host web_dir r) = [code] ->
    suffix_content_type (req_path r) = [v] ->
    In (HeaderLine "Content-Type" v) (response host web_dir r).
  Proof.
    intros Hst E.
    destruct (response_sent host web_dir r code Hst)
      as (error & pre & data & calls & _ & _ & _ & -> & _).
    unfold suffix_headers. rewrite E.
    apply in_or_app. right. apply in_or_app. right. now left.
  Qed.

  (** C1, as the code has it: the content type of lines 23-28 goes by the
      request target as it came, query string included. A GET answered 200
      whose target ends in .wasm carries the header Content-Type:
      application/wasm, in .js Content-Type: application/javascript, in
      .html Content-Type: text/html; charset=utf-8. When the target ends in
      none of them and a file was served, whatever the name of that file,
      the one content type of the response is the inherited [guess_type] of
      the file: the type the extension tables or [mimetypes] give, and
      application/octet-stream when they know nothing. *)
Theorem C1_content_type (host : Host) (web_dir : string) (r : request) :
    req_command r = "GET"%string ->
    status_codes (response host web_dir r) = [200] ->
    (Py.endswith (req_path r) ".wasm" = true ->
     In (HeaderLine "Content-Type" "application/wasm") (response host web_dir r)) /\
    (Py.endswith (req_path r) ".js" = true ->
     In (HeaderLine "Content-Type" "application/javascript") (response host web_dir r)) /\
    (Py.endswith (req_path r) ".html" = true ->
     In (HeaderLine "Content-Type" "text/html; charset=utf-8") (response host web_dir r)) /\
    (Py.endswith (req_path r) ".wasm" = false ->
     Py.endswith (req_path r) ".js" = false ->
     Py.endswith (req_path r) ".html" = false ->
     forall p, In (Open p) (fs_log (serve host web_dir r)) ->
       header_values "Content-Type" (response host web_dir r) =
         [SimpleHTTPRequestHandler.guess_type host p] /\
       (SimpleHTTPRequestHandler.extensions_map (snd (Posixpath.splitext p)) = None ->
        SimpleHTTPRequestHandler.extensions_map (Py.lower (snd (Posixpath.splitext p)))
          = None ->
        (forall guess, mimetypes_guess_type host p = Some guess -> guess <> ""%string ->
                       SimpleHTTPRequestHandler.guess_type host p = guess) /\
        (mimetypes_guess_type host p = None ->
         SimpleHTTPRequestHandler.guess_type host p = "application/octet-stream"%string))).
  Proof.
    intros Hget H200.
    split; [intros H; apply (in_suffix_header _ _ _ 200 _ H200), suffix_wasm, H|].
    split; [intros H; apply (in_suffix_header _ _ _ 200 _ H200), suffix_js, H|].
    split; [intros H; apply (in_suffix_header _ _ _ 200 _ H200), suffix_html, H|].
    intros Hw Hj Hh p Hopen.
    destruct (response_sent host web_dir r 200 H200)
      as (error & pre & data & calls & Hs & Hc & _ & _ & Hct & _).
    rewrite Hc in Hopen.
    destruct (served_file_inv _ _ _ _ _ _ _ _ _ p Hs Hopen) as (f & Hf & _ & Hpre & _).
    split.
    - rewrite Hct, Hpre. unfold suffix_content_type. rewrite Hw, Hj, Hh. reflexivity.
    - intros E1 E2. destruct (guess_type_cases host p) as (_ & _ & G3 & G4).
      split; [intros guess; apply G3 | apply G4]; assumption.
  Qed.

Lemma C1_content_type_witness :
    (Py.endswith (req_path (SampleHost.get "/pkg/echoes_rpg_bg.wasm")) ".wasm" = true /\
     In (HeaderLine "Content-Type" "application/wasm")
        (response SampleHost.host SampleHost.root
           (SampleHost.get "/pkg/echoes_rpg_bg.wasm"))) /\
    (Py.endswith (req_path (SampleHost.get "/pkg/echoes_rpg.js")) ".js" = true /\
     In (HeaderLine "Content-Type" "application/javascript")
        (response SampleHost.host SampleHost.root (SampleHost.get "/pkg/echoes_rpg.js"))) /\
    (In (Open (SampleHost.root ++ "/index.html")%string)
        (fs_log (serve SampleHost.host SampleHost.root (SampleHost.get "/"))) /\
     header_values "Content-Type"
        (response SampleHost.host SampleHost.root (SampleHost.get "/"))
     = [SimpleHTTPRequestHandler.guess_type SampleHost.host
          (SampleHost.root ++ "/index.html")%string]).
  Proof.
    split; [|split].
    - split; [reflexivity|].
      exact (proj1 (C1_content_type SampleHost.host SampleHost.root
                      (SampleHost.get "/pkg/echoes_rpg_bg.wasm") eq_refl eq_refl)
                   eq_refl).
    - split; [reflexivity|].
      exact (proj1 (proj2 (C1_content_type SampleHost.host SampleHost.root
                             (SampleHost.get "/pkg/echoes_rpg.js") eq_refl eq_refl))
                   eq_refl).
    - assert (Hin : In (Open (SampleHost.root ++ "/index.html")%string)
                       (fs_log (serve SampleHost.host SampleHost.root
                                  (SampleHost.get "/")))).
      { vm_compute. right. right. now left. }
      split; [exact Hin|].
      exact (proj1 (proj2 (proj2 (proj2
               (C1_content_type SampleHost.host SampleHost.root
                  (SampleHost.get "/") eq_refl eq_refl)))
               eq_refl eq_refl eq_refl _ Hin)).
  Defined.

  (** C1 as it was stated, read with the file that is served, fails: on
      the sample machine GET /index.html?v=1 and GET / are answered 200 with
      index.html, a file whose name ends in .html, and the only content type
      of the response is the inherited text/html; the header Content-Type:
      text/html; charset=utf-8 is not there. *)
Lemma C1_counterexample :
    (status_codes (response SampleHost.host SampleHost.root
                     (SampleHost.get "/index.html?v=1")) = [200] /\
     opens (fs_log (serve SampleHost.host SampleHost.root
                      (SampleHost.get "/index.html?v=1")))
     = [(SampleHost.root ++ "/index.html")%string] /\
     Py.endswith (SampleHost.root ++ "/index.html") ".html" = true /\
     body (response SampleHost.host SampleHost.root (SampleHost.get "/index.html?v=1"))
     = content SampleHost.index_html /\
     header_values "Content-Type"
       (response SampleHost.host SampleHost.root (SampleHost.get "/index.html?v=1"))
     = ["text/html"%string]) /\
    (status_codes (response SampleHost.host SampleHost.root (SampleHost.get "/")) = [200] /\
     opens (fs_log (serve SampleHost.host SampleHost.root (SampleHost.get "/")))
     = [(SampleHost.root ++ "/index.html")%string] /\
     header_values "Content-Type"
       (response SampleHost.host SampleHost.root (SampleHost.get "/"))
     = ["text/html"%string]).
  Proof. repeat split; vm_compute; reflexivity. Qed.

  (** C10, as the code has it: the content type of lines 23-28 is chosen from
      the request path as it came, query string included, and [end_headers]
      adds it to every response that is sent for such a path (404 and OPTIONS
      responses too) after whatever Content-Type header the inherited code
      buffered, so a GET that serves a .wasm, .js or .html file has two
      Content-Type headers. A path like /app.wasm?v=1 gets no header from
      this rule; the only Content-Type header of its response is the
      inherited one, for a served file [guess_type] of the file. Nothing is
      sent when an exception ends the handler. *)
Theorem C10_suffix_content_type (host : Host) (web_dir : string) (r : request) :
    ((exists e, raised host web_dir r = Some e /\ response host web_dir r = []) \/
     (raised host web_dir r = None /\
      exists pre data,
        response host web_dir r =
          pre ++ cors_headers
            ++ map (HeaderLine "Content-Type") (suffix_content_type (req_path r))
            ++ [BlankLine] ++ data /\
        only_data data /\
        header_values "Content-Type" (response host web_dir r) =
          header_values "Content-Type" pre ++ suffix_content_type (req_path r))) /\
    (status_codes (response host web_dir r) = [404] ->
     header_values "Content-Type" (response host web_dir r) =
       "text/html;charset=utf-8"%string :: suffix_content_type (req_path r)) /\
    (req_command r = "OPTIONS"%string ->
     header_values "Content-Type" (response host web_dir r) =
       suffix_content_type (req_path r)) /\
    (forall p,
       req_command r = "GET"%string ->
       status_codes (response host web_dir r) = [200] ->
       In (Open p) (fs_log (serve host web_dir r)) ->
       header_values "Content-Type" (response host web_dir r) =
         SimpleHTTPRequestHandler.guess_type host p :: suffix_content_type (req_path r) /\
       (Py.endswith (req_path r) ".wasm" = true \/
        Py.endswith (req_path r) ".js" = true \/
        Py.endswith (req_path r) ".html" = true ->
        List.length (header_values "Content-Type" (response host web_dir r)) = 2%nat) /\
       (req_path r = "/app.wasm?v=1"%string ->
        header_values "Content-Type" (response host web_dir r) =
          [SimpleHTTPRequestHandler.guess_type host p])) /\
    suffix_content_type "/app.wasm?v=1" = [] /\
    (forall stem, suffix_content_type (stem ++ "?file=a.wasm")
                  = ["application/wasm"%string]).
  Proof.
    split; [|split; [|split; [|split; [|split]]]].
    - destruct (response_served host web_dir r) as (x & calls & Hs & _ & Hc & Hx).
      destruct x as [e|code error pre data].
      + left. exists e. destruct Hx as (Hr & E & _). now split.
      + right. destruct Hx as (Hr & E & _). split; [exact Hr|].
        pose proof (served_sent_ok _ _ _ _ _ _ _ _ _ _ Hs) as Hok.
        destruct (sent_response host (req_path r) _ _ _ _ Hok)
          as (_ & _ & _ & _ & Hct & _). cbv zeta in Hct.
        exists pre, data. split; [exact E|]. split; [apply Hok|].
        now rewrite E.
    - intros H404.
      destruct (response_sent host web_dir r 404 H404)
        as (error & pre & data & calls & Hs & _ & _ & _ & Hct & _).
      rewrite Hct, (served_status_404 _ _ _ _ _ _ _ _ _ Hs). reflexivity.
    - intros Hopt.
      destruct (response_served host web_dir r) as (x & calls & Hs & _ & _ & Hx).
      pose proof Hs as Hs'.
      destruct (served_options_inv _ _ _ _ _ _ _ Hs Hopt) as (-> & ->).
      destruct Hx as (_ & E & _).
      destruct (sent_response host (req_path r) _ _ _ _
                  (served_sent_ok _ _ _ _ _ _ _ _ _ _ Hs'))
        as (_ & _ & _ & _ & Hct & _). cbv zeta in Hct.
      rewrite E, Hct. reflexivity.
    - intros p Hget H200 Hopen.
      destruct (response_sent host web_dir r 200 H200)
        as (error & pre & data & calls & Hs & Hc & _ & _ & Hct & _).
      rewrite Hc in Hopen.
      destruct (served_file_inv _ _ _ _ _ _ _ _ _ p Hs Hopen) as (f & _ & _ & -> & _).
      rewrite Hct.
      change (header_values "Content-Type" (file_head host p f))
        with [SimpleHTTPRequestHandler.guess_type host p].
      split; [reflexivity|]. split.
      + intros [H|[H|H]];
          [rewrite (suffix_wasm _ H) | rewrite (suffix_js _ H) | rewrite (suffix_html _ H)];
          reflexivity.
      + intros ->. reflexivity.
    - reflexivity.
    - intros stem. apply suffix_wasm.
      change "?file=a.wasm"%string with ("?file=a" ++ ".wasm")%string.
      rewrite <- append_assoc. apply endswith_app.
  Qed.

Lemma C10_suffix_content_type_witness :
    (status_codes (response SampleHost.host SampleHost.root
                     (SampleHost.get "/missing.js")) = [404] /\
     header_values "Content-Type"
       (response SampleHost.host SampleHost.root (SampleHost.get "/missing.js"))
     = ["text/html;charset=utf-8"%string; "application/javascript"%string]) /\
    (req_command (SampleHost.options "/index.html") = "OPTIONS"%string /\
     header_values "Content-Type"
       (response SampleHost.host SampleHost.root (SampleHost.options "/index.html"))
     = ["text/html; charset=utf-8"%string]) /\
    (In (Open (SampleHost.root ++ "/index.html")%string)
        (fs_log (serve SampleHost.host SampleHost.root (SampleHost.get "/index.html"))) /\
     List.length
       (header_values "Content-Type"
          (response SampleHost.host SampleHost.root (SampleHost.get "/index.html")))
     = 2%nat).
  Proof.
    split; [|split].
    - split; [reflexivity|].
      exact (proj1 (proj2 (C10_suffix_content_type SampleHost.host SampleHost.root
                             (SampleHost.get "/missing.js"))) eq_refl).
    - split; [reflexivity|].
      exact (proj1 (proj2 (proj2 (C10_suffix_content_type SampleHost.host SampleHost.root
                                    (SampleHost.options "/index.html")))) eq_refl).
    - assert (Hin : In (Open (SampleHost.root ++ "/index.html")%string)
                       (fs_log (serve SampleHost.host SampleHost.root
                                  (SampleHost.get "/index.html")))).
      { vm_compute. right. now left. }
      split; [exact Hin|].
      exact (proj1 (proj2 (proj1 (proj2 (proj2 (proj2
               (C10_suffix_content_type SampleHost.host SampleHost.root
                  (SampleHost.get "/index.html")))))
               _ eq_refl eq_refl Hin))
               (or_intror (or_intror eq_refl))).
  Defined.

  (** C10 as it was stated fails on its last clause: on the sample machine,
      where [mimetypes] knows .wasm as CPython 3.8 and later do, the response
      to GET /app.wasm?v=1 has status 200 and carries the inherited header
      Content-type: application/wasm. *)
Lemma C10_counterexample :
    status_codes (response SampleHost.host SampleHost.root
                    (SampleHost.get "/app.wasm?v=1")) = [200] /\
    In (HeaderLine "Content-type" "application/wasm")
       (response SampleHost.host SampleHost.root (SampleHost.get "/app.wasm?v=1")) /\
    header_values "Content-Type"
      (response SampleHost.host SampleHost.root (SampleHost.get "/app.wasm?v=1"))
    = ["application/wasm"%string].
  Proof.
    split; [vm_compute; reflexivity|]. split; [|vm_compute; reflexivity].
    vm_compute. do 3 right. now left.
  Qed.

  (** *** Every request *)

  (** What arrives is ignored (an empty or blank line), rejected with an
      exception before anything is written, or answered by an exchange. *)
Lemma handle_exchange (host : Host) (web_dir : string) (a : arrival) :
    (exists h',
       handle host web_dir a = Ok tt h' /\
       wfile h' = [] /\ stdout h' = [] /\ fs_log h' = [] /\
       Py.split_ws (strip_line_end (raw_requestline a)) = []) \/
    (exists h0 code message buf,
       path h0 = None /\ (400 <=? code) = true /\
       handle host web_dir a =
       Exc (AttributeError "path")
         (with_io h0 buf []
            [error_log host code message; request_log host h0 code] [])) \/
    (exists h0 p x calls,
       Py.split_ws (strip_line_end (raw_requestline a)) <> [] /\
       path h0 = Some p /\ directory h0 = web_dir /\
       requestline h0 = strip_line_end (raw_requestline a) /\
       handle host web_dir a = exchange_result host h0 p x tt calls /\
       Forall (call_ok host web_dir) calls /\
       match x with
       | Failed _ => True
       | Sent code error pre data => sent_ok host code error pre data
       end).
  Proof.
    destruct (handle_cases host web_dir a)
      as [H|[H|[(v & c & p & m & e & Hw & E)|(v & c & p & hs & Hw & Hh & E)]]].
    - now left.
    - right. now left.
    - right. right.
      exists (parsed_handler web_dir (strip_line_end (raw_requestline a)) v c p []), p,
        (Sent 431 (Some m) (error_head_of host 431 m (error_page host 431 m e))
           (error_data_of c (error_page host 431 m e))), [].
      repeat split; try assumption; try constructor.
      + exists m, [("Connection", "close");
                   ("Content-Type", BaseHTTPRequestHandler.error_content_type);
                   ("Content-Length",
                    Py.str_int (Z.of_nat (String.length (error_page host 431 m e))))]%string.
        repeat split.
      + apply error_data_of_only.
    - right. right.
      destruct (call_method_served host c p
                  (parsed_handler web_dir (strip_line_end (raw_requestline a)) v c p hs)
                  eq_refl eq_refl)
        as (x & calls & E' & Hok & Hs).
      change (with_io (parsed_handler ?w ?l ?v' ?c' ?p' ?h') [] [] [] [])
        with (parsed_handler w l v' c' p' h') in E'.
      exists (parsed_handler web_dir (strip_line_end (raw_requestline a)) v c p hs), p,
        x, calls.
      rewrite E, E'. repeat split; try assumption.
      destruct x as [e|code error pre data]; [exact I|].
      exact (served_sent_ok _ _ _ _ _ _ _ _ _ _ Hs).
  Qed.

  (** C2, as the code has it: whatever arrives (any method, any path, a
      file that exists or not), a response that has a status line has exactly
      one header of each of the three CORS names, with the values [*],
      [GET, POST, OPTIONS] and [*], in this order in the header block. A
      response has no status line, and then no header at all, exactly when an
      exception ended the handler (then nothing at all is sent), when the
      request is HTTP/0.9, or when the line holds no word. For a request that
      [parse_request] accepted with version 1.0 or 1.1 the three headers are
      there unless an exception ended the handler. *)
Theorem C2_cors_headers (host : Host) (web_dir : string) (a : arrival) :
    (status_codes (reply host web_dir a) <> [] ->
     header_values "Access-Control-Allow-Origin" (reply host web_dir a)
       = ["*"%string] /\
     header_values "Access-Control-Allow-Methods" (reply host web_dir a)
       = ["GET, POST, OPTIONS"%string] /\
     header_values "Access-Control-Allow-Headers" (reply host web_dir a)
       = ["*"%string] /\
     exists pre post,
       reply host web_dir a =
       pre ++ [ HeaderLine "Access-Control-Allow-Origin" "*";
                HeaderLine "Access-Control-Allow-Methods" "GET, POST, OPTIONS";
                HeaderLine "Access-Control-Allow-Headers" "*" ] ++ post /\
       In BlankLine post) /\
    (status_codes (reply host web_dir a) = [] <->
     exception (handle host web_dir a) <> None \/
     request_version (state (handle host web_dir a)) = "HTTP/0.9"%string \/
     Py.split_ws (strip_line_end (raw_requestline a)) = []) /\
    (status_codes (reply host web_dir a) = [] -> header_lines (reply host web_dir a) = []) /\
    (exception (handle host web_dir a) <> None -> reply host web_dir a = []) /\
    (forall r : request,
       raised host web_dir r = None ->
       header_values "Access-Control-Allow-Origin" (response host web_dir r)
         = ["*"%string] /\
       header_values "Access-Control-Allow-Methods" (response host web_dir r)
         = ["GET, POST, OPTIONS"%string] /\
       header_values "Access-Control-Allow-Headers" (response host web_dir r)
         = ["*"%string]).
  Proof.
    assert (Hreq : forall r : request,
       raised host web_dir r = None ->
       header_values "Access-Control-Allow-Origin" (response host web_dir r)
         = ["*"%string] /\
       header_values "Access-Control-Allow-Methods" (response host web_dir r)
         = ["GET, POST, OPTIONS"%string] /\
       header_values "Access-Control-Allow-Headers" (response host web_dir r)
         = ["*"%string]).
    { intros r Hr.
      destruct (response_served host web_dir r) as (x & calls & Hs & _ & _ & Hx).
      destruct x as [e|code error pre data].
      - destruct Hx as (Hr' & _). congruence.
      - destruct Hx as (_ & E & _).
        destruct (sent_response host (req_path r) _ _ _ _
                    (served_sent_ok _ _ _ _ _ _ _ _ _ _ Hs))
          as (_ & Ho & Hm & Hh & _). cbv zeta in *.
        rewrite E. now repeat split. }
    unfold reply.
    destruct (handle_exchange host web_dir a)
      as [(h' & -> & Hw & _ & _ & Hwords)
         |[(h0 & code & message & buf & _ & _ & ->)
          |(h0 & p & x & calls & Hwords & Hp & _ & _ & -> & _ & Hx)]].
    - cbn [state exception]. rewrite Hw.
      split; [intros H; now destruct H|].
      split; [split; [intros _; right; right; exact Hwords | reflexivity]|].
      split; [reflexivity|]. split; [intros H; now destruct H | exact Hreq].
    - cbn [state exception wfile with_io].
      split; [intros H; now destruct H|].
      split; [split; [intros _; left; discriminate | reflexivity]|].
      split; [reflexivity|]. split; [reflexivity | exact Hreq].
    - destruct x as [e|code error pre data];
        cbn [exchange_result state exception wfile with_io request_version].
      { split; [intros H; now destruct H|].
        split; [split; [intros _; left; discriminate | reflexivity]|].
        split; [reflexivity|]. split; [reflexivity | exact Hreq]. }
      destruct (sent_response host p _ _ _ _ Hx)
        as (Hst & Ho & Hm & Hh & _). cbv zeta in *.
      destruct Hx as (_ & Hdata & _).
      destruct (only_data_plain _ Hdata) as (Ds & Dl & Dh).
      unfold heads.
      destruct (String.eqb_spec (request_version h0) "HTTP/0.9") as [E09|N09].
      + cbn [app]. rewrite Ds, Dl.
        split; [intros H; now destruct H|].
        split; [split; [intros _; right; left; exact E09 | reflexivity]|].
        split; [reflexivity|]. split; [intros H; now destruct H | exact Hreq].
      + rewrite <- !app_assoc. rewrite Hst, Ho, Hm, Hh.
        split.
        { intros _. repeat split.
          exists pre, (suffix_headers p ++ [BlankLine] ++ data).
          split; [reflexivity|]. apply in_or_app. right. now left. }
        split.
        { split; [discriminate|].
          intros [H|[H|H]]; [now destruct H | contradiction | contradiction]. }
        split; [discriminate|]. split; [intros H; now destruct H | exact Hreq].
  Qed.

Lemma C2_cors_headers_witness :
    status_codes (reply SampleHost.host SampleHost.root
                    (SampleHost.line "POST /save HTTP/1.1")) <> [] /\
    header_values "Access-Control-Allow-Methods"
      (reply SampleHost.host SampleHost.root (SampleHost.line "POST /save HTTP/1.1"))
    = ["GET, POST, OPTIONS"%string].
  Proof.
    assert (H : status_codes (reply SampleHost.host SampleHost.root
                                (SampleHost.line "POST /save HTTP/1.1")) <> []).
    { vm_compute. discriminate. }
    split; [exact H|].
    exact (proj1 (proj2 (proj1 (C2_cors_headers SampleHost.host SampleHost.root
                                  (SampleHost.line "POST /save HTTP/1.1")) H))).
  Defined.

  (** C2 as it was stated fails where no response head is sent. On the
      sample machine GET /index.html%00 makes [open] raise [ValueError] and a
      request line of one word makes [end_headers] raise [AttributeError]:
      in both cases nothing is sent. An HTTP/0.9 request for index.html gets
      the file and no header. None of the three has a CORS header. *)
Lemma C2_counterexample :
    (exception (handle SampleHost.host SampleHost.root
                  (SampleHost.line "GET /index.html%00 HTTP/1.1")) = Some ValueError /\
     reply SampleHost.host SampleHost.root
       (SampleHost.line "GET /index.html%00 HTTP/1.1") = []) /\
    (exception (handle SampleHost.host SampleHost.root (SampleHost.line "BREW"))
     = Some (AttributeError "path") /\
     reply SampleHost.host SampleHost.root (SampleHost.line "BREW") = []) /\
    (reply SampleHost.host SampleHost.root (SampleHost.line "GET /index.html")
     = [Data (content SampleHost.index_html)] /\
     header_values "Access-Control-Allow-Origin"
       (reply SampleHost.host SampleHost.root (SampleHost.line "GET /index.html")) = []).
  Proof. repeat split; vm_compute; reflexivity. Qed.

  (** *** Paths under the served directory *)

Lemma startswith_app (a b : string) : Py.startswith (a ++ b) a = true.
  Proof.
    unfold Py.startswith. apply String.prefix_correct.
    induction a as [|x a IH]; simpl.
    - now destruct b.
    - now rewrite IH.
  Qed.









End HandlerClaims.

(** ** Startup: further properties of the run of [main] *)

Section StartupMore.

Variable os : OS.

Local Open Scope list_scope.

  (** One turn of the loop, in all its cases. *)
Lemma try_port_run (web_dir : string) (port : Z) :
    try_port os web_dir port =
    match tcp_bind os port with
    | Some errno =>
        ([Bind port],
         if address_in_use errno then inl Continue else inr (Raised (OSError errno)))
    | None =>
        (Bind port :: map Print (startup_banner web_dir port) ++ ServeForever port
           :: match serve_ends os port with
              | None => []
              | Some KeyboardInterrupt =>
                  [Print (Py.nl ++ "🛑 Server stopped by user")%string; ServerClose port]
              | Some _ => [ServerClose port]
              end,
         match serve_ends os port with
         | None => inr Forever
         | Some KeyboardInterrupt => inl Break
         | Some (OSError errno) =>
             if address_in_use errno then inl Continue else inr (Raised (OSError errno))
         | Some e => inr (Raised e)
         end)
    end.
  Proof.
    unfold try_port, with_TCPServer, httpd_serve_forever, address_in_use.
    destruct (tcp_bind os port) as [errno|]; simpl.
    - destruct ((errno =? 48) || (errno =? 98)); reflexivity.
    - destruct (serve_ends os port) as [[errno| |name]|]; simpl; try reflexivity.
      destruct ((errno =? 48) || (errno =? 98)); reflexivity.
  Qed.

  (** The port loop runs as [loop_run] says. *)
Lemma port_loop_run (web_dir : string) (ports : list Z) :
    loop_run os web_dir ports
      (trace (port_loop os PORT web_dir ports))
      (outcome (port_loop os PORT web_dir ports)).
  Proof.
    induction ports as [|port ports IH].
    - apply run_exhausted.
    - cbn [port_loop]. rewrite try_port_run.
      destruct (port_loop os PORT web_dir ports) as [tr r]. cbn [trace outcome fst snd] in IH.
      destruct (tcp_bind os port) as [errno|] eqn:Eb.
      + destruct (address_in_use errno) eqn:Eu; cbn.
        * eapply run_taken; eassumption.
        * eapply run_bind_error; eassumption.
      + destruct (serve_ends os port) as [[errno| |name]|] eqn:Es.
        * destruct (address_in_use errno) eqn:Eu; cbn.
          -- eapply run_serve_in_use; eassumption.
          -- eapply run_serve_error; try eassumption; try discriminate.
             intros errno' [= <-]. exact Eu.
        * cbn. apply run_interrupted; assumption.
        * cbn. eapply run_serve_error; try eassumption; discriminate.
        * cbn. apply run_forever; assumption.
  Qed.

  (** A run of [main]: it stops at one of the two checks having only
      printed, or it prints the status line, changes directory and runs the
      port loop. *)
Lemma main_run :
    (exists lines, main os = (map Print lines, inr (SysExit 1))) \/
    (exists line web_dir tr r,
       choose_web_dir os = ([Print line], inl web_dir) /\
       missing_files os web_dir = [] /\
       loop_run os web_dir (Py.range PORT (PORT + 10)) tr r /\
       main os = (Print line :: Chdir web_dir :: tr, r)).
  Proof.
    assert (Hchoose :
      (exists line web_dir, choose_web_dir os = ([Print line], inl web_dir)) \/
      (path_exists os (script_dir os // "test-deploy") = false /\
       path_exists os (script_dir os // "dist") = false)).
    { destruct (path_exists os (script_dir os // "test-deploy")) eqn:Et.
      - left. do 2 eexists. apply choose_test_deploy, Et.
      - destruct (path_exists os (script_dir os // "dist")) eqn:Ed.
        + left. do 2 eexists. apply choose_dist; assumption.
        + right. now split. }
    destruct Hchoose as [(line & web_dir & Hc)|[Ht Hd]].
    - destruct (missing_files os web_dir) as [|f fs] eqn:Hm.
      + right. exists line, web_dir.
        exists (trace (port_loop os PORT web_dir (Py.range PORT (PORT + 10)))),
               (outcome (port_loop os PORT web_dir (Py.range PORT (PORT + 10)))).
        split; [exact Hc|]. split; [exact Hm|]. split; [apply port_loop_run|].
        apply main_reaches_port_loop; assumption.
      + left. assert (Hne : missing_files os web_dir <> []) by (rewrite Hm; discriminate).
        rewrite (main_missing os line web_dir Hc Hne).
        exists (line :: "❌ Error: Missing required files:"%string
                  :: map (fun file => ("   - " ++ file)%string) (missing_files os web_dir)
                  ++ [(Py.nl ++ "   Please ensure you have built the WASM package correctly.")%string]).
        cbn [map]. rewrite map_app, map_map. reflexivity.
    - left. rewrite (choose_web_dir_unbuilt os Ht Hd).
      eexists [_; _; _]. reflexivity.
  Qed.

Lemma prints_only (lines : list string) :
    bind_attempts (map Print lines) = [] /\ chdirs (map Print lines) = [] /\
    serve_starts (map Print lines) = [] /\ server_closes (map Print lines) = [] /\
    (forall e, In e (map Print lines) -> exists l, e = Print l).
  Proof.
    induction lines as [|l lines (Hb & Hc & Hs & Hx & Hin)]; simpl.
    - repeat split; try reflexivity. intros e [].
    - repeat split; try assumption.
      intros e [<-|He]; [now exists l | now apply Hin].
  Qed.

Lemma loop_run_no_chdir (web_dir : string) ports tr r :
    loop_run os web_dir ports tr r -> chdirs tr = [].
  Proof. induction 1; simpl; auto. Qed.

Lemma loop_run_attempts (web_dir : string) ports tr r :
    loop_run os web_dir ports tr r -> exists rest, ports = bind_attempts tr ++ rest.
  Proof.
    induction 1 as [|port ports errno tr r _ _ _ [rest ->]| | | |
                    port ports errno tr r _ _ _ _ [rest ->]|]; simpl.
    - now exists [].
    - now exists rest.
    - now exists ports.
    - now exists ports.
    - now exists ports.
    - now exists rest.
    - now exists ports.
  Qed.

Lemma loop_run_servers (web_dir : string) ports tr r :
    loop_run os web_dir ports tr r ->
    serve_starts tr = filter (binds os) (bind_attempts tr) /\
    (r <> inr Forever -> server_closes tr = serve_starts tr) /\
    (r = inr Forever -> exists port, serve_starts tr = server_closes tr ++ [port]).
  Proof.
    induction 1 as [|port ports errno tr r Hb _ _ (IH1 & IH2 & IH3)
                    |port ports errno Hb _
                    |port ports Hb _
                    |port ports Hb _
                    |port ports errno tr r Hb _ _ _ (IH1 & IH2 & IH3)
                    |port ports e Hb _ _ _];
      simpl; unfold binds; rewrite ?Hb.
    - repeat split; try reflexivity. discriminate.
    - repeat split; assumption.
    - repeat split; try reflexivity. discriminate.
    - repeat split; try reflexivity; [congruence|]. intros _. now exists port.
    - repeat split; try reflexivity. discriminate.
    - rewrite IH1. split; [reflexivity|]. split.
      + intros Hr. rewrite (IH2 Hr), IH1. reflexivity.
      + intros Hr. destruct (IH3 Hr) as [p Hp]. exists p.
        rewrite <- IH1, Hp. reflexivity.
    - repeat split; try reflexivity. discriminate.
  Qed.

Lemma loop_run_end (web_dir : string) ports tr r :
    loop_run os web_dir ports tr r ->
    (r = inl tt ->
     exists port before,
       tcp_bind os port = None /\ serve_ends os port = Some KeyboardInterrupt /\
       tr = before ++ [ServeForever port;
                       Print (Py.nl ++ "🛑 Server stopped by user")%string;
                       ServerClose port]) /\
    (forall code, exit_status r = Some code -> code = 0 \/ code = 1).
  Proof.
    induction 1 as [|port ports errno tr r Hb _ _ (IH1 & IH2)
                    |port ports errno Hb _
                    |port ports Hb Hs
                    |port ports Hb Hs
                    |port ports errno tr r Hb _ _ _ (IH1 & IH2)
                    |port ports e Hb _ Hk _].
    - split; [discriminate|]. intros code [= <-]. now right.
    - split; [|exact IH2].
      intros Hr. destruct (IH1 Hr) as (p & before & H1 & H2 & ->).
      exists p, (Bind port :: before). repeat split; assumption.
    - split; [discriminate|]. intros code [= <-]. now right.
    - split; discriminate.
    - split.
      + intros _. exists port, (Bind port :: map Print (startup_banner web_dir port)).
        repeat split; assumption.
      + intros code [= <-]. now left.
    - split; [|exact IH2].
      intros Hr. destruct (IH1 Hr) as (p & before & H1 & H2 & ->).
      exists p, (Bind port :: map Print (startup_banner web_dir port)
                   ++ ServeForever port :: ServerClose port :: before).
      repeat split; assumption.
    - split; [discriminate|]. intros code H.
      destruct e; [| congruence |]; injection H as <-; now right.
  Qed.

  (** X1: [main] touches nothing before its two checks pass. Any effect of a
      run other than a print (a change of directory, a bind, serving, a
      close) means that a directory was chosen and no required file is
      missing; the run then starts with the status line and [os.chdir] into
      that directory, and never changes directory again. *)
Theorem main_checks_first (e : event) :
    In e (trace (main os)) -> (forall l, e <> Print l) ->
    exists line web_dir rest,
      choose_web_dir os = ([Print line], inl web_dir) /\
      missing_files os web_dir = [] /\
      trace (main os) = Print line :: Chdir web_dir :: rest /\
      chdirs rest = [].
  Proof.
    intros Hin Hnp.
    destruct main_run as [(lines & E)|(line & web_dir & tr & r & Hc & Hm & Hrun & E)].
    - rewrite E in Hin. cbn [trace fst] in Hin.
      destruct (proj2 (proj2 (proj2 (proj2 (prints_only lines)))) e Hin) as [l ->].
      now destruct (Hnp l).
    - exists line, web_dir, tr. rewrite E.
      repeat split; try assumption. eapply loop_run_no_chdir, Hrun.
  Qed.

  (** X2: whatever the environment does, the ports a run tries to bind are
      an initial part of 8080, 8081, ..., 8089: at most ten attempts, in
      increasing order, none twice. *)
Theorem main_attempts_bounded :
    exists rest,
      [8080; 8081; 8082; 8083; 8084; 8085; 8086; 8087; 8088; 8089]%Z
      = bind_attempts (trace (main os)) ++ rest.
  Proof.
    change [8080; 8081; 8082; 8083; 8084; 8085; 8086; 8087; 8088; 8089]%Z
      with (Py.range PORT (PORT + 10)).
    destruct main_run as [(lines & E)|(line & web_dir & tr & r & _ & _ & Hrun & E)];
      rewrite E; cbn [trace fst bind_attempts].
    - rewrite (proj1 (prints_only lines)). now eexists.
    - eapply loop_run_attempts, Hrun.
  Qed.

  (** X3: the [with] block at work. The run serves on exactly the ports
      whose bind succeeded, in order; when the run ends, every server that was
      opened has been closed, and while a server runs for ever it is the only
      one left open. *)
Theorem main_closes_servers :
    serve_starts (trace (main os))
      = filter (binds os) (bind_attempts (trace (main os))) /\
    (outcome (main os) <> inr Forever ->
     server_closes (trace (main os)) = serve_starts (trace (main os))) /\
    (outcome (main os) = inr Forever ->
     exists port,
       serve_starts (trace (main os)) = server_closes (trace (main os)) ++ [port]).
  Proof.
    destruct main_run as [(lines & E)|(line & web_dir & tr & r & _ & _ & Hrun & E)];
      rewrite E; cbn [trace outcome fst snd bind_attempts serve_starts server_closes].
    - destruct (prints_only lines) as (-> & _ & -> & -> & _).
      repeat split; try reflexivity. discriminate.
    - exact (loop_run_servers web_dir _ _ _ Hrun).
  Qed.

  (** X6: [main] returns normally (exit status 0) only when a server was
      started and Ctrl-C ended it: the run then ends with serving, the
      shutdown notice and the close. No run ends with an exit status other
      than 0 or 1; in particular Ctrl-C during [serve_forever] never escapes
      [main]. *)
Theorem main_exit_status :
    (outcome (main os) = inl tt ->
     exists port before,
       tcp_bind os port = None /\ serve_ends os port = Some KeyboardInterrupt /\
       trace (main os) =
       before ++ [ServeForever port;
                  Print (Py.nl ++ "🛑 Server stopped by user")%string;
                  ServerClose port]) /\
    (forall code, exit_status (outcome (main os)) = Some code -> code = 0 \/ code = 1).
  Proof.
    destruct main_run as [(lines & E)|(line & web_dir & tr & r & _ & _ & Hrun & E)];
      rewrite E; cbn [trace outcome fst snd].
    - split; [discriminate|]. intros code [= <-]. now right.
    - destruct (loop_run_end web_dir _ _ _ Hrun) as (H1 & H2). split; [|exact H2].
      intros Hr. destruct (H1 Hr) as (p & before & Hb & Hs & ->).
      exists p, (Print line :: Chdir web_dir :: before). repeat split; assumption.
  Qed.

  (** X4: the [except OSError] of line 98 also sees what [serve_forever]
      raises. When serving on a bound port ends with [OSError] 98 or 48, the
      server is closed and the loop goes on with the next candidate, as if the
      port had been taken. *)
Theorem main_serve_in_use_moves_on (line web_dir : string)
      (busy later : list Z) (port errno : Z) :
    choose_web_dir os = ([Print line], inl web_dir) ->
    missing_files os web_dir = [] ->
    Py.range PORT (PORT + 10) = busy ++ port :: later ->
    Forall (port_taken os) busy ->
    tcp_bind os port = None ->
    serve_ends os port = Some (OSError errno) ->
    errno = EADDRINUSE_linux \/ errno = EADDRINUSE_bsd ->
    main os =
    (Print line :: Chdir web_dir :: map Bind busy ++ Bind port
       :: map Print (startup_banner web_dir port)
       ++ ServeForever port :: ServerClose port
       :: trace (port_loop os PORT web_dir later),
     outcome (port_loop os PORT web_dir later)).
  Proof.
    intros Hc Hm Hr Hbusy Hb Hs Hu.
    rewrite (main_reaches_port_loop os line web_dir Hc Hm), Hr.
    rewrite (port_loop_skip os PORT web_dir busy _ Hbusy).
    cbn [port_loop]. rewrite try_port_run, Hb, Hs.
    assert (Eu : address_in_use errno = true) by (destruct Hu as [->| ->]; reflexivity).
    rewrite Eu.
    destruct (port_loop os PORT web_dir later) as [tr r].
    cbn [bind trace outcome fst snd]. reflexivity.
  Qed.

  (** X5: any other exception that ends [serve_forever] (not Ctrl-C, not an
      [OSError] 98 or 48) leaves [main] uncaught: the server is closed on the
      way out, no shutdown notice is printed, no other port is tried and the
      exit status is 1. *)
Theorem main_serve_error_propagates (line web_dir : string)
      (busy later : list Z) (port : Z) (e : exn) :
    choose_web_dir os = ([Print line], inl web_dir) ->
    missing_files os web_dir = [] ->
    Py.range PORT (PORT + 10) = busy ++ port :: later ->
    Forall (port_taken os) busy ->
    tcp_bind os port = None ->
    serve_ends os port = Some e ->
    e <> KeyboardInterrupt ->
    e <> OSError EADDRINUSE_linux -> e <> OSError EADDRINUSE_bsd ->
    main os =
    (Print line :: Chdir web_dir :: map Bind busy ++ Bind port
       :: map Print (startup_banner web_dir port)
       ++ [ServeForever port; ServerClose port],
     inr (Raised e)) /\
    exit_status (outcome (main os)) = Some 1.
  Proof.
    intros Hc Hm Hr Hbusy Hb Hs Hk Hl Hd.
    rewrite (main_reaches_port_loop os line web_dir Hc Hm), Hr.
    rewrite (port_loop_skip os PORT web_dir busy _ Hbusy).
    cbn [port_loop]. rewrite try_port_run, Hb, Hs.
    destruct e as [errno| |name].
    - assert (Eu : address_in_use errno = false).
      { apply other_errno; intros ->; [now apply Hl | now apply Hd]. }
      rewrite Eu. split; reflexivity.
    - now destruct Hk.
    - split; reflexivity.
  Qed.

  (** X11: the directory is chosen before the files are checked, and the
      choice is final. When test-deploy exists but misses a required file,
      the run ends with the missing-files report and exit status 1, without a
      change of directory or a bind, also when dist exists and is complete. *)
Theorem main_no_fallback_to_dist :
    path_exists os (script_dir os // "test-deploy") = true ->
    missing_files os (script_dir os // "test-deploy") <> [] ->
    outcome (main os) = inr (SysExit 1) /\
    exit_status (outcome (main os)) = Some 1 /\
    chdirs (trace (main os)) = [] /\
    bind_attempts (trace (main os)) = [] /\
    printed (trace (main os)) =
      "📁 Serving from test-deploy directory"%string
        :: "❌ Error: Missing required files:"%string
        :: map (fun file => ("   - " ++ file)%string)
               (missing_files os (script_dir os // "test-deploy"))
        ++ [(Py.nl ++ "   Please ensure you have built the WASM package correctly.")%string].
  Proof.
    intros Ht Hm.
    rewrite (main_missing os _ _ (choose_test_deploy os Ht) Hm).
    cbn [trace outcome fst snd exit_status chdirs bind_attempts printed].
    set (missing := missing_files os (script_dir os // "test-deploy")).
    assert (G : forall files tail,
              chdirs (map (fun file => Print ("   - " ++ file)%string) files
                        ++ [Print tail]) = [] /\
              bind_attempts (map (fun file => Print ("   - " ++ file)%string) files
                               ++ [Print tail]) = [] /\
              printed (map (fun file => Print ("   - " ++ file)%string) files
                         ++ [Print tail])
              = map (fun file => ("   - " ++ file)%string) files ++ [tail]).
    { induction files as [|f files IH]; intros tail;
        cbn [map app chdirs bind_attempts printed].
      - repeat split.
      - destruct (IH tail) as (-> & -> & ->). repeat split. }
    destruct (G missing (Py.nl ++ "   Please ensure you have built the WASM package correctly.")%string)
      as (-> & -> & ->).
    repeat split.
  Qed.

End StartupMore.

Section StartupMoreSamples.

Lemma main_no_fallback_to_dist_witness :
    path_exists SampleExtra.os_stale_test_deploy (Sample.base_dir // "dist") = true /\
    missing_files SampleExtra.os_stale_test_deploy (Sample.base_dir // "dist") = [] /\
    exit_status (outcome (main SampleExtra.os_stale_test_deploy)) = Some 1.
  Proof.
    split; [reflexivity|]. split; [reflexivity|].
    exact (proj1 (proj2 (main_no_fallback_to_dist SampleExtra.os_stale_test_deploy
                           eq_refl ltac:(discriminate)))).
  Defined.

Local Open Scope list_scope.

Lemma main_checks_first_witness :
    In (Bind 8081) (trace (main Sample.os_8080_taken)) /\
    missing_files Sample.os_8080_taken (Sample.base_dir // "test-deploy") = [] /\
    chdirs (trace (main Sample.os_8080_taken)) = [Sample.base_dir // "test-deploy"].
  Proof.
    assert (Hin : In (Bind 8081) (trace (main Sample.os_8080_taken))).
    { vm_compute. do 3 right. now left. }
    split; [exact Hin|]. split; [reflexivity|].
    destruct (main_checks_first Sample.os_8080_taken (Bind 8081) Hin
                ltac:(discriminate))
      as (line & web_dir & rest & _ & _ & E & Hch).
    rewrite E. cbn [chdirs]. rewrite Hch.
    rewrite E in Hin. vm_compute in E. injection E as _ <- _. reflexivity.
  Defined.

Lemma main_closes_servers_witness :
    outcome (main SampleExtra.os_serve_in_use) <> inr Forever /\
    server_closes (trace (main SampleExtra.os_serve_in_use)) = [8080; 8081]%Z.
  Proof.
    assert (Hne : outcome (main SampleExtra.os_serve_in_use) <> inr Forever)
      by discriminate.
    split; [exact Hne|].
    rewrite (proj1 (proj2 (main_closes_servers SampleExtra.os_serve_in_use)) Hne).
    reflexivity.
  Defined.

Lemma main_exit_status_witness :
    exit_status (outcome (main Sample.os_8080_taken)) = Some 0 /\
    (0 = 0 \/ 0 = 1).
  Proof.
    split; [reflexivity|].
    exact (proj2 (main_exit_status Sample.os_8080_taken) 0 eq_refl).
  Defined.

Lemma main_serve_in_use_moves_on_witness :
    serve_ends SampleExtra.os_serve_in_use 8080 = Some (OSError 98) /\
    bind_attempts (trace (main SampleExtra.os_serve_in_use)) = [8080; 8081]%Z /\
    outcome (main SampleExtra.os_serve_in_use) = inl tt.
  Proof.
    split; [reflexivity|].
    rewrite (main_serve_in_use_moves_on SampleExtra.os_serve_in_use
               "📁 Serving from test-deploy directory"
               (Sample.base_dir // "test-deploy")
               [] (Py.range 8081 8090) 8080 98
               eq_refl eq_refl eq_refl (Forall_nil _) eq_refl eq_refl
               (or_introl eq_refl)).
    split; reflexivity.
  Defined.

Lemma main_serve_error_propagates_witness :
    serve_ends SampleExtra.os_serve_fails 8080 = Some (OSError 5) /\
    server_closes (trace (main SampleExtra.os_serve_fails)) = [8080]%Z /\
    exit_status (outcome (main SampleExtra.os_serve_fails)) = Some 1.
  Proof.
    split; [reflexivity|].
    destruct (main_serve_error_propagates SampleExtra.os_serve_fails
                "📁 Serving from test-deploy directory"
                (Sample.base_dir // "test-deploy")
                [] (Py.range 8081 8090) 8080 (OSError 5)
                eq_refl eq_refl eq_refl (Forall_nil _) eq_refl eq_refl
                ltac:(discriminate) ltac:(discriminate) ltac:(discriminate))
      as (E & Hx).
    split; [|exact Hx]. rewrite E. reflexivity.
  Defined.

End StartupMoreSamples.

(** ** The handler: further properties *)

Section HandlerMore.

Variable host : Host.

Local Open Scope list_scope.

Lemma served_unsupported_inv (web_dir c p : string) hdrs x calls :
    served host web_dir c p hdrs x calls ->
    c <> "GET"%string -> c <> "HEAD"%string -> c <> "OPTIONS"%string ->
    x = Sent 501 (Some ("Unsupported method (" ++ repr host c ++ ")")%string)
          (error_head host 501 ("Unsupported method (" ++ repr host c ++ ")"))
          (error_data host c 501 ("Unsupported method (" ++ repr host c ++ ")")) /\
    calls = [].
  Proof.
    intros H Hg Hh Ho. inversion H; subst; clear H;
      try match goal with
          | H : _ = _ \/ _ = _ |- _ => destruct H; contradiction
          end.
    - contradiction.
    - now split.
  Qed.

  (** X7: the class has [do_GET], [do_HEAD] and [do_OPTIONS] and no other
      method. A request with any other command (POST, PUT, DELETE, ...) is
      answered 501 with the error page, without a file system call; the
      response still carries Access-Control-Allow-Methods: GET, POST,
      OPTIONS. *)
Theorem unsupported_method_501 (web_dir : string) (r : request) :
    req_command r <> "GET"%string -> req_command r <> "HEAD"%string ->
    req_command r <> "OPTIONS"%string ->
    status_codes (response host web_dir r) = [501] /\
    data_of (response host web_dir r)
      = data_of (error_data host (req_command r) 501
                   ("Unsupported method (" ++ repr host (req_command r) ++ ")")) /\
    header_values "Access-Control-Allow-Methods" (response host web_dir r)
      = ["GET, POST, OPTIONS"%string] /\
    fs_log (serve host web_dir r) = [].
  Proof.
    intros Hg Hh Ho.
    destruct (response_served host web_dir r) as (x & calls & Hs & _ & Hc & Hx).
    pose proof Hs as Hs'.
    destruct (served_unsupported_inv _ _ _ _ _ _ Hs Hg Hh Ho) as (-> & ->).
    destruct Hx as (_ & E & _).
    destruct (sent_response host (req_path r) _ _ _ _
                (served_sent_ok _ _ _ _ _ _ _ _ _ _ Hs'))
      as (Hst & _ & Hm & _ & _ & Hd & _). cbv zeta in *.
    rewrite E. repeat split; assumption.
  Qed.

Lemma map_pair_wires (name : string) (values : list string) :
    map (HeaderLine name) values = header_wires (map (pair name) values).
  Proof. unfold header_wires. rewrite map_map. reflexivity. Qed.

  (** X8: every response is well formed. When no exception ends the
      handler, the response is one status line with HTTP/1.0, the Server and
      Date headers, further header lines of which the last ones are the three
      CORS headers and the content type chosen from the path, one blank line,
      and then writes of data only, and nothing is left in the header buffer.
      When an exception ends the handler, nothing is written and nothing is
      printed. *)
Theorem response_well_formed (web_dir : string) (r : request) :
    match raised host web_dir r with
    | Some _ => response host web_dir r = [] /\ stdout (serve host web_dir r) = []
    | None =>
        exists (code : Z) (message : string) (hs : list (string * string))
               (blocks : list string),
          response host web_dir r =
            StatusLine "HTTP/1.0" code message
              :: HeaderLine "Server" (version_string host)
              :: HeaderLine "Date" (date_time_string host)
              :: header_wires
                   (hs ++ [("Access-Control-Allow-Origin", "*");
                           ("Access-Control-Allow-Methods", "GET, POST, OPTIONS");
                           ("Access-Control-Allow-Headers", "*")]%string
                       ++ map (pair "Content-Type"%string)
                              (suffix_content_type (req_path r)))
              ++ BlankLine :: map Data blocks /\
          headers_buffer (serve host web_dir r) = []
    end.
  Proof.
    destruct (response_served host web_dir r) as (x & calls & Hs & _ & _ & Hx).
    destruct x as [e|code error pre data].
    - destruct Hx as (-> & E & Ho). now split.
    - destruct Hx as (-> & E & _ & Hb).
      destruct (served_sent_ok _ _ _ _ _ _ _ _ _ _ Hs)
        as ((message & hs & -> & _) & (blocks & ->) & _).
      exists code, message, hs, blocks. split; [|exact Hb].
      rewrite E. unfold suffix_headers. rewrite map_pair_wires.
      unfold header_wires. rewrite !map_app.
      cbn [response_head app map fst snd cors_headers].
      rewrite <- !app_assoc. reflexivity.
  Qed.

Lemma log_line_prefix (message : string) :
    Py.startswith ("[" ++ date_time_string host ++ "] " ++ message)
                  ("[" ++ date_time_string host ++ "] ") = true.
  Proof.
    replace ("[" ++ date_time_string host ++ "] " ++ message)%string
      with (("[" ++ date_time_string host ++ "] ") ++ message)%string.
    - apply startswith_app.
    - cbn [append]. f_equal. apply append_assoc.
  Qed.

  (** X10: [log_message] at work. A request that is answered leaves on
      stdout the line [[date] "requestline" code -] for the status code of
      its response, with the request line as it came, after a line
      [[date] code N, message M] when the response is an error (status 400
      and above), and nothing else; each line starts with the date in
      brackets. When an exception ends the handler before it answers,
      nothing is printed. *)
Theorem request_logged (web_dir : string) (r : request) :
    match raised host web_dir r with
    | Some _ => stdout (serve host web_dir r) = []
    | None =>
        exists (code : Z) (error : option string),
          status_codes (response host web_dir r) = [code] /\
          stdout (serve host web_dir r)
            = match error with
              | None =>
                  [("[" ++ date_time_string host ++ "] "
                        ++ dquote ++ req_line r ++ dquote ++ " "
                        ++ Py.str_int code ++ " -")%string]
              | Some message =>
                  [("[" ++ date_time_string host ++ "] "
                        ++ "code " ++ Py.str_int code ++ ", message " ++ message)%string;
                   ("[" ++ date_time_string host ++ "] "
                        ++ dquote ++ req_line r ++ dquote ++ " "
                        ++ Py.str_int code ++ " -")%string]
              end /\
          match error with
          | Some _ => 400 <=? code
          | None => negb (400 <=? code)
          end = true /\
          Forall (fun line =>
                    Py.startswith line ("[" ++ date_time_string host ++ "] ") = true)
                 (stdout (serve host web_dir r))
    end.
  Proof.
    destruct (response_served host web_dir r) as (x & calls & Hs & _ & _ & Hx).
    destruct x as [e|code error pre data].
    - destruct Hx as (-> & _ & Ho). exact Ho.
    - destruct Hx as (-> & E & Ho & _).
      pose proof (served_sent_ok _ _ _ _ _ _ _ _ _ _ Hs) as Hok.
      destruct (sent_response host (req_path r) _ _ _ _ Hok) as (Hst & _).
      cbv zeta in Hst.
      exists code, error. rewrite E, Ho.
      split; [exact Hst|]. split; [destruct error; reflexivity|].
      split; [apply Hok|].
      unfold log_lines, request_log, error_log.
      destruct error; repeat constructor; apply log_line_prefix.
  Qed.

  (** X12: what the overriding [end_headers] does to a handler in any
      state. While [self.path] is not set it raises [AttributeError], after
      it buffered the three CORS headers (none for HTTP/0.9), and writes
      nothing. With the path set and a request that is HTTP/0.9 it does
      nothing at all. Otherwise everything buffered so far is written out
      unchanged and in order, followed by the three CORS headers, the content
      type chosen from the path (if any) and the blank line, and the buffer is
      left empty. It never writes a body and never touches the request, the
      lines printed or the file system calls. *)
Theorem end_headers_flushes (h : handler) :
    match path h with
    | None =>
        exists h',
          GameHTTPRequestHandler.end_headers h = Exc (AttributeError "path") h' /\
          headers_buffer h' = headers_buffer h ++ heads h cors_headers /\
          wfile h' = wfile h
    | Some p =>
        exists h',
          GameHTTPRequestHandler.end_headers h = Ok tt h' /\
          (if String.eqb (request_version h) "HTTP/0.9" then h' = h
           else headers_buffer h' = [] /\
                wfile h' = wfile h ++ headers_buffer h ++ cors_headers
                             ++ suffix_headers p ++ [BlankLine]) /\
          data_of (wfile h') = data_of (wfile h ++ heads h (headers_buffer h))
    end /\
    stdout (state (GameHTTPRequestHandler.end_headers h)) = stdout h /\
    fs_log (state (GameHTTPRequestHandler.end_headers h)) = fs_log h /\
    command (state (GameHTTPRequestHandler.end_headers h)) = command h /\
    path (state (GameHTTPRequestHandler.end_headers h)) = path h /\
    request_version (state (GameHTTPRequestHandler.end_headers h)) = request_version h.
  Proof.
    destruct h as [cmd p v rl hs d buf wf out calls].
    unfold GameHTTPRequestHandler.end_headers, GameHTTPRequestHandler.send_header,
      BaseHTTPRequestHandler.send_header, BaseHTTPRequestHandler.end_headers,
      BaseHTTPRequestHandler.flush_headers, self_path, heads, suffix_headers,
      suffix_content_type.
    cbn [request_version path].
    destruct (String.eqb v "HTTP/0.9") eqn:Ev; destruct p as [p|];
      repeat (cbn [negb request_version path buffer_append buffer_clear wfile_write
                   headers_buffer wfile stdout fs_log command requestline headers
                   directory and_then state map];
              rewrite ?Ev).
    - destruct (Py.endswith p ".wasm"); [|destruct (Py.endswith p ".js");
        [|destruct (Py.endswith p ".html")]];
        repeat (cbn [negb request_version path buffer_append buffer_clear wfile_write
                     headers_buffer wfile stdout fs_log command requestline headers
                     directory and_then state map];
                rewrite ?Ev);
        (split; [eexists; split; [reflexivity|]; split; [reflexivity|];
                 cbn [wfile]; now rewrite !app_nil_r
                | repeat split]).
    - split; [|repeat split].
      eexists. split; [reflexivity|]. cbn [headers_buffer wfile].
      now rewrite app_nil_r.
    - destruct (Py.endswith p ".wasm"); [|destruct (Py.endswith p ".js");
        [|destruct (Py.endswith p ".html")]];
        repeat (cbn [negb request_version path buffer_append buffer_clear wfile_write
                     headers_buffer wfile stdout fs_log command requestline headers
                     directory and_then state map];
                rewrite ?Ev);
        (split; [eexists; split; [reflexivity|]; split;
                 [ split; [reflexivity|];
                   cbn [wfile cors_headers app]; rewrite <- ?app_assoc; reflexivity
                 | cbn [wfile buffer_clear wfile_write buffer_append headers_buffer];
                   rewrite !data_of_app;
                   cbn [data_of app]; rewrite ?app_nil_r; reflexivity ]
                | repeat split]).
    - split; [|repeat split].
      eexists. split; [reflexivity|].
      cbn [headers_buffer wfile cors_headers buffer_append].
      rewrite <- !app_assoc. now split.
  Qed.

Lemma data_of_map_Data (blocks : list string) :
    data_of (map Data blocks) = blocks.
  Proof. induction blocks as [|b blocks IH]; simpl; congruence. Qed.

Lemma state_exchange_path {A} (h : handler) (p : string) (x : exchange) (a : A)
      (calls : list fs_call) :
    path (state (exchange_result host h p x a calls)) = path h.
  Proof. destruct x; reflexivity. Qed.

  (** X13: a request line that the server turns down gets no response at
      all. For a line of more than 65536 bytes (414) and for a line of one
      word (400, bad request syntax), [send_error] logs its two lines, buffers
      the head and calls the overriding [end_headers], which reads [self.path]
      before [parse_request] has set it: [AttributeError] leaves the handler
      and nothing is written to the connection. In general, whenever the path
      is still unset after the handler ran, nothing was written and no file
      system call was made: either the line was blank and nothing was
      printed, or the two lines of an error with a code of 400 or more were
      printed and [AttributeError] on [path] was raised. *)
Theorem rejected_line_unanswered (web_dir : string) (a : arrival) :
    ((65536 <? Z.of_nat (String.length (raw_requestline a))) = true ->
     exists buf,
       handle host web_dir a =
       Exc (AttributeError "path")
         (with_io (line_handler web_dir "" "" (Some ""%string)) buf []
            [error_log host 414 "Request-URI Too Long";
             request_log host (line_handler web_dir "" "" (Some ""%string)) 414] [])) /\
    (forall w : string,
       (65536 <? Z.of_nat (String.length (raw_requestline a))) = false ->
       Py.split_ws (strip_line_end (raw_requestline a)) = [w] ->
       exists buf,
         handle host web_dir a =
         Exc (AttributeError "path")
           (with_io (line_handler web_dir (strip_line_end (raw_requestline a))
                       "HTTP/0.9" None) buf []
              [error_log host 400
                 ("Bad request syntax ("
                    ++ repr host (strip_line_end (raw_requestline a)) ++ ")");
               request_log host
                 (line_handler web_dir (strip_line_end (raw_requestline a))
                    "HTTP/0.9" None) 400] [])) /\
    (path (state (handle host web_dir a)) = None ->
     reply host web_dir a = [] /\
     fs_log (state (handle host web_dir a)) = [] /\
     ((exception (handle host web_dir a) = None /\
       stdout (state (handle host web_dir a)) = [] /\
       Py.split_ws (strip_line_end (raw_requestline a)) = []) \/
      (exception (handle host web_dir a) = Some (AttributeError "path") /\
       exists code message,
         (400 <=? code) = true /\
         stdout (state (handle host web_dir a)) =
           [error_log host code message;
            request_log host (state (handle host web_dir a)) code]))).
  Proof.
    split; [|split].
    - unfold handle, GameHTTPRequestHandler.handle_one_request,
        BaseHTTPRequestHandler.handle_one_request.
      destruct a as [raw hdrs]. cbn [raw_requestline rfile_headers]. cbv zeta.
      intros Hlen. rewrite Hlen.
      change (set_command (Some ""%string)
                (set_request_version "" (set_requestline "" (init_handler web_dir))))
        with (line_handler web_dir "" "" (Some ""%string)).
      rewrite (send_error_default host 414 "Request-URI Too Long" "URI is too long"
                 _ _ eq_refl).
      exact (send_error_rejected host 414 "Request-URI Too Long" None
               (line_handler web_dir "" "" (Some ""%string))
               eq_refl eq_refl eq_refl eq_refl eq_refl eq_refl).
    - unfold handle, GameHTTPRequestHandler.handle_one_request,
        BaseHTTPRequestHandler.handle_one_request.
      destruct a as [raw hdrs]. cbn [raw_requestline rfile_headers]. cbv zeta.
      intros w Hlen Ew. rewrite Hlen.
      destruct (String.eqb raw "") eqn:Eraw.
      { apply String.eqb_eq in Eraw. subst raw. vm_compute in Ew. discriminate. }
      unfold BaseHTTPRequestHandler.parse_request. cbv zeta.
      change (Py.rstrip_chars _ raw) with (strip_line_end raw).
      rewrite Ew.
      set (rl := strip_line_end raw).
      change (set_requestline rl
                (set_request_version BaseHTTPRequestHandler.default_request_version
                   (set_command None (init_handler web_dir))))
        with (line_handler web_dir rl "HTTP/0.9" None).
      cbn [List.length Nat.eqb Nat.leb].
      unfold BaseHTTPRequestHandler.parse_request_words.
      cbn [List.length Nat.leb andb negb].
      destruct (send_error_rejected host 400
                  ("Bad request syntax (" ++ repr host rl ++ ")") None
                  (line_handler web_dir rl "HTTP/0.9" None)
                  eq_refl eq_refl eq_refl eq_refl eq_refl eq_refl) as (buf & E).
      rewrite E. cbn [and_then]. exists buf. reflexivity.
    - unfold reply.
      destruct (handle_exchange host web_dir a)
        as [(h' & E & Hw & Ho & Hc & Hs)
           |[(h0 & code & message & buf & Hp & Hcode & E)
            |(h0 & p & x & calls & _ & Hp & _ & _ & E & _)]];
        rewrite E; intros Hnone.
      + cbn [state exception]. repeat split; try assumption. left. now repeat split.
      + cbn [state exception with_io wfile fs_log stdout]. repeat split.
        right. split; [reflexivity|]. exists code, message. now split.
      + rewrite state_exchange_path, Hp in Hnone. discriminate.
  Qed.

  (** X14: from the line to the request. A line of three words
      [command target HTTP/1.0] or [command target HTTP/1.1], followed by a
      header block that parses, is handled as the call of the method on the
      handler of that request: the request line is the line without its line
      end, the path is the target with slashes at its start reduced to one
      when there are two or more. So what goes over the wire for the line is
      the response to the request. *)
Theorem accepted_line_served (web_dir : string) (a : arrival)
      (c p : string) (v : http_version) (hs : list (string * string)) :
    py_int host "0" = Some 0 -> py_int host "1" = Some 1 ->
    (65536 <? Z.of_nat (String.length (raw_requestline a))) = false ->
    Py.split_ws (strip_line_end (raw_requestline a)) = [c; p; version_text v] ->
    rfile_headers a = HeadersParsed hs ->
    let r := {| req_line := strip_line_end (raw_requestline a);
                req_command := c;
                req_path := if Py.startswith p "//"
                            then "/" ++ Py.lstrip_char "/" p else p;
                req_version := v;
                req_headers := hs |} in
    handle host web_dir a
      = GameHTTPRequestHandler.call_method host (new_handler web_dir r) /\
    reply host web_dir a = response host web_dir r /\
    exception (handle host web_dir a) = raised host web_dir r.
  Proof.
    intros H0 H1 Hlen Ew Hhdr r.
    assert (E : handle host web_dir a
                = GameHTTPRequestHandler.call_method host (new_handler web_dir r)).
    2:{ unfold reply, response, serve, raised. rewrite E. repeat split. }
    subst r.
    unfold handle, GameHTTPRequestHandler.handle_one_request,
      BaseHTTPRequestHandler.handle_one_request.
    destruct a as [raw hdrs]. cbn [raw_requestline rfile_headers] in *. cbv zeta.
    subst hdrs. rewrite Hlen.
    destruct (String.eqb raw "") eqn:Eraw.
    { apply String.eqb_eq in Eraw. subst raw. vm_compute in Ew. discriminate. }
    unfold BaseHTTPRequestHandler.parse_request. cbv zeta.
    change (Py.rstrip_chars _ raw) with (strip_line_end raw).
    rewrite Ew.
    set (rl := strip_line_end raw).
    cbn [List.length Nat.eqb Nat.leb last].
    assert (Hv : BaseHTTPRequestHandler.version_number host (version_text v)
                 = Some (1, match v with HTTP_1_0 => 0 | HTTP_1_1 => 1 end)).
    { destruct v; cbv -[py_int]; rewrite H1, ?H0; reflexivity. }
    rewrite Hv.
    replace (BaseHTTPRequestHandler.version_ge
               (1, match v with HTTP_1_0 => 0 | HTTP_1_1 => 1 end) 2 0)
      with false by (destruct v; reflexivity).
    unfold BaseHTTPRequestHandler.parse_request_words.
    cbn [List.length Nat.leb Nat.eqb andb negb].
    destruct (Py.startswith p "//"); reflexivity.
  Qed.

  (** X15: how a file goes out. For a GET answered 200 from a file, the
      data written after the head are the blocks of [shutil.copyfileobj]: the
      content of the file in order, no block empty, each of at most 64 KiB. *)
Theorem file_copied_in_blocks (web_dir : string) (r : request) (q : string) :
    req_command r = "GET"%string ->
    status_codes (response host web_dir r) = [200] ->
    In (Open q) (fs_log (serve host web_dir r)) ->
    exists f,
      open_rb host q = Opened f /\
      data_of (response host web_dir r) = Shutil.copyfileobj (content f) /\
      body (response host web_dir r) = content f /\
      Forall (fun block => block <> ""%string /\
                           Z.of_nat (String.length block) <= 64 * 1024)
             (data_of (response host web_dir r)).
  Proof.
    intros Hc Hst Hin.
    destruct (response_sent host web_dir r 200 Hst)
      as (error & pre & data & calls & Hs & Hcalls & _ & _ & _ & Hb & Hd).
    rewrite Hcalls in Hin.
    destruct (served_file_inv host _ _ _ _ _ _ _ _ q Hs Hin) as (f & Ho & _ & _ & ->).
    exists f. rewrite Hb, Hd, Hc.
    change (body_data "GET" (content f))
      with (map Data (Shutil.copyfileobj (content f))).
    rewrite data_of_map_Data.
    destruct (copyfileobj_blocks (content f)) as [Hbody Hblocks].
    repeat split; assumption.
  Qed.

  (** X16: HEAD sends no body. Whatever a HEAD request is answered with,
      nothing is written after the blank line. *)
Theorem head_sends_no_body (web_dir : string) (r : request) :
    req_command r = "HEAD"%string ->
    data_of (response host web_dir r) = [] /\
    body (response host web_dir r) = ""%string.
  Proof.
    intros Hc.
    destruct (response_served host web_dir r) as (x & calls & Hs & _ & _ & Hx).
    destruct x as [e|code error pre data].
    - destruct Hx as (_ & -> & _). now split.
    - destruct Hx as (_ & E & _).
      destruct (sent_response host (req_path r) _ _ _ _
                  (served_sent_ok _ _ _ _ _ _ _ _ _ _ Hs))
        as (_ & _ & _ & _ & _ & Hd & Hb). cbv zeta in *.
      rewrite E, Hd, Hb. rewrite Hc in Hs.
      assert (Hdata : data = []).
      { inversion Hs; subst; try reflexivity;
          try match goal with
              | H : "HEAD"%string = "GET"%string \/ _ |- _ => idtac
              end;
          try (unfold error_data; rewrite ?Hc; reflexivity). }
      rewrite Hdata. now split.
  Qed.

Lemma endswith_upper (stem lower upper : string) :
    lower <> ""%string -> upper <> ""%string ->
    Py.last_char lower <> Py.last_char upper ->
    Py.endswith (stem ++ upper) lower = false.
  Proof.
    intros Hl Hu Hne. destruct (Py.endswith (stem ++ upper) lower) eqn:E; [|reflexivity].
    apply endswith_last_char in E; [|exact Hl].
    rewrite (endswith_last_char _ _ (endswith_app stem upper) Hu) in E.
    now destruct Hne.
  Qed.

End HandlerMore.

(** X9: lines 23-28 choose at most one content type, and the order of the
    [elif] chain does not matter: application/wasm is chosen exactly when the
    path ends in .wasm, application/javascript exactly when it ends in .js,
    text/html; charset=utf-8 exactly when it ends in .html. The test
    distinguishes upper and lower case: a path that ends in .WASM, .JS or
    .HTML gets none. *)
Theorem suffix_content_type_cases (p : string) :
  (List.length (suffix_content_type p) <=? 1)%nat = true /\
  existsb (String.eqb "application/wasm") (suffix_content_type p)
    = Py.endswith p ".wasm" /\
  existsb (String.eqb "application/javascript") (suffix_content_type p)
    = Py.endswith p ".js" /\
  existsb (String.eqb "text/html; charset=utf-8") (suffix_content_type p)
    = Py.endswith p ".html" /\
  suffix_content_type (p ++ ".WASM") = [] /\
  suffix_content_type (p ++ ".JS") = [] /\
  suffix_content_type (p ++ ".HTML") = [].
Proof.
  assert (Hup : forall upper,
            upper <> ""%string ->
            Py.last_char ".wasm" <> Py.last_char upper ->
            Py.last_char ".js" <> Py.last_char upper ->
            Py.last_char ".html" <> Py.last_char upper ->
            suffix_content_type (p ++ upper) = []).
  { intros upper Hu H1 H2 H3. unfold suffix_content_type.
    rewrite !endswith_upper by (assumption || discriminate). reflexivity. }
  split; [|split; [|split; [|split; [|split; [|split]]]]];
    try (apply Hup; discriminate).
  - unfold suffix_content_type.
    destruct (Py.endswith p ".wasm"); [reflexivity|].
    destruct (Py.endswith p ".js"); [reflexivity|].
    destruct (Py.endswith p ".html"); reflexivity.
  - unfold suffix_content_type.
    destruct (Py.endswith p ".wasm"); [reflexivity|].
    destruct (Py.endswith p ".js"); [reflexivity|].
    destruct (Py.endswith p ".html"); reflexivity.
  - destruct (Py.endswith p ".js") eqn:E; [now rewrite (suffix_js _ E)|].
    unfold suffix_content_type. rewrite E.
    destruct (Py.endswith p ".wasm"); [reflexivity|].
    destruct (Py.endswith p ".html"); reflexivity.
  - destruct (Py.endswith p ".html") eqn:E; [now rewrite (suffix_html _ E)|].
    unfold suffix_content_type. rewrite E.
    destruct (Py.endswith p ".wasm"); [reflexivity|].
    destruct (Py.endswith p ".js"); reflexivity.
Qed.

Section HandlerMoreSamples.

Lemma unsupported_method_501_witness :
    req_command (SampleExtra.post "/save.js") <> "GET"%string /\
    status_codes (response SampleHost.host SampleHost.root
                    (SampleExtra.post "/save.js")) = [501] /\
    fs_log (serve SampleHost.host SampleHost.root (SampleExtra.post "/save.js")) = [].
  Proof.
    split; [discriminate|].
    destruct (unsupported_method_501 SampleHost.host SampleHost.root
                (SampleExtra.post "/save.js")
                ltac:(discriminate) ltac:(discriminate) ltac:(discriminate))
      as (Hst & _ & _ & Hfs).
    split; [exact Hst | exact Hfs].
  Defined.

Lemma rejected_line_unanswered_witness :
    exception (handle SampleHost.host SampleHost.root (SampleHost.line "BREW"))
      = Some (AttributeError "path") /\
    reply SampleHost.host SampleHost.root (SampleHost.line "BREW") = [] /\
    stdout (state (handle SampleHost.host SampleHost.root (SampleHost.line "BREW")))
      = ["[Tue, 03 Nov 2026 12:00:00 GMT] code 400, message Bad request syntax ('BREW')";
         ("[Tue, 03 Nov 2026 12:00:00 GMT] " ++ dquote ++ "BREW" ++ dquote ++ " 400 -")]%string.
  Proof.
    destruct (rejected_line_unanswered SampleHost.host SampleHost.root
                (SampleHost.line "BREW")) as (_ & H & _).
    destruct (H "BREW"%string eq_refl eq_refl) as (buf & E).
    unfold reply. rewrite E. repeat split.
  Defined.

Lemma accepted_line_served_witness :
    reply SampleHost.host SampleHost.root (SampleHost.line "GET //index.html HTTP/1.1")
      = response SampleHost.host SampleHost.root
          {| req_line := "GET //index.html HTTP/1.1"; req_command := "GET";
             req_path := "/index.html"; req_version := HTTP_1_1; req_headers := [] |}.
  Proof.
    exact (proj1 (proj2 (accepted_line_served SampleHost.host SampleHost.root
                           (SampleHost.line "GET //index.html HTTP/1.1")
                           "GET" "//index.html" HTTP_1_1 []
                           eq_refl eq_refl eq_refl eq_refl eq_refl))).
  Defined.

Lemma file_copied_in_blocks_witness :
    data_of (response SampleHost.host SampleHost.root (SampleHost.get "/index.html"))
      = [content SampleHost.index_html] /\
    map (fun block => Z.of_nat (String.length block))
        (Shutil.copyfileobj (Py.repeat_str "a" (Z.to_nat 65537))) = [65536; 1].
  Proof.
    split; [|vm_compute; reflexivity].
    destruct (file_copied_in_blocks SampleHost.host SampleHost.root
                (SampleHost.get "/index.html")
                (SampleHost.root ++ "/index.html")
                eq_refl ltac:(vm_compute; reflexivity)
                ltac:(vm_compute; right; left; reflexivity))
      as (f & Ho & Hd & _).
    vm_compute in Ho. injection Ho as <-. exact Hd.
  Defined.

Lemma head_sends_no_body_witness :
    status_codes (response SampleHost.host SampleHost.root
                    {| req_line := "HEAD /index.html HTTP/1.1"; req_command := "HEAD";
                       req_path := "/index.html"; req_version := HTTP_1_1;
                       req_headers := [] |}) = [200] /\
    body (response SampleHost.host SampleHost.root
            {| req_line := "HEAD /index.html HTTP/1.1"; req_command := "HEAD";
               req_path := "/index.html"; req_version := HTTP_1_1;
               req_headers := [] |}) = ""%string.
  Proof.
    split; [vm_compute; reflexivity|].
    exact (proj2 (head_sends_no_body SampleHost.host SampleHost.root
                    {| req_line := "HEAD /index.html HTTP/1.1"; req_command := "HEAD";
                       req_path := "/index.html"; req_version := HTTP_1_1;
                       req_headers := [] |} eq_refl)).
  Defined.

End HandlerMoreSamples.
